(** * anp-ts-sdk: the identity and key-management engine

    A shallow embedding of [src/anp-key-generator.ts] (class
    [ANPKeyGenerator]), of [src/did-auto-config.ts] (class [DIDAutoConfig])
    and of the agent of [auto-config.ts] (class [AutoConfigAgent]), which
    makes its identity with the generator.

    Conventions of the embedding:
    - a JavaScript string is a sequence of UTF-16 code units; the model
      covers the strings whose code units are below 256 and writes them as
      [string], one [ascii] per code unit;
    - a [Uint8Array] or [Buffer] is a list of octets ([bytes]);
    - a function that can throw returns a [result]; a method that reads
      the random source or the clock, or that mutates [this], is a
      function from the state to a result and the next state (an
      exception does not undo the writes made before it);
    - [async] methods are run to completion one after the other: every
      [await] in these files awaits a call that the model runs in place;
    - the curve libraries (@noble/ed25519, @noble/secp256k1) are taken as
      an interface ([Curve]); the codecs of Node's [Buffer], of [bs58] and
      of [base64url], and [JSON.stringify], are written out. *)

From Stdlib Require Import ZArith NArith Ascii String List Bool Lia DecimalString.
From stdpp Require Import base tactics option list sorting strings.

Import ListNotations.
Local Open Scope string_scope.
Local Open Scope list_scope.
#[local] Arguments String.append !_ _ / : simpl nomatch.

(** ** Exceptions and stateful computations *)

(** A thrown JavaScript [Error], identified by its message. *)
Record exn : Type := Error { message : string }.

Inductive result (A : Type) : Type :=
| Ok (a : A)
| Throw (e : exn).
Arguments Ok {A} a.
Arguments Throw {A} e.

Definition is_ok {A} (r : result A) : bool :=
  match r with Ok _ => true | Throw _ => false end.

Definition rbind {A B} (r : result A) (k : A -> result B) : result B :=
  match r with
  | Ok a => k a
  | Throw e => Throw e
  end.

(** [try { body } catch (error) { handler }] for a pure body. *)
Definition try_catch {A} (body : result A) (handler : exn -> result A) : result A :=
  match body with
  | Ok a => Ok a
  | Throw e => handler e
  end.

(** A computation over a mutable state [S]. *)
Definition M (S A : Type) : Type := S -> result A * S.

Definition ret {S A} (a : A) : M S A := fun s => (Ok a, s).
Definition throw {S A} (e : exn) : M S A := fun s => (Throw e, s).
Definition bind {S A B} (m : M S A) (k : A -> M S B) : M S B :=
  fun s =>
    match m s with
    | (Ok a, s') => k a s'
    | (Throw e, s') => (Throw e, s')
    end.
Definition lift_result {S A} (r : result A) : M S A := fun s => (r, s).
Definition gets {S A} (f : S -> A) : M S A := fun s => (Ok (f s), s).
Definition modify {S} (f : S -> S) : M S unit := fun s => (Ok tt, f s).

(** [try { body } catch (error) { handler }]: the state the body reached
    when it threw is the state the handler starts from. *)
Definition try_catchM {S A} (body : M S A) (handler : exn -> M S A) : M S A :=
  fun s =>
    match body s with
    | (Ok a, s') => (Ok a, s')
    | (Throw e, s') => handler e s'
    end.

Declare Scope js_scope.
Delimit Scope js_scope with js.
Notation "x <- m ;; k" := (bind m (fun x => k))
  (at level 100, m at next level, right associativity) : js_scope.
Notation "m ;;; k" := (bind m (fun _ => k))
  (at level 100, right associativity) : js_scope.
Notation "x <-? r ;; k" := (rbind r (fun x => k))
  (at level 100, r at next level, right associativity) : js_scope.

(** ** Octets *)

Abbreviation byte := ascii.
Abbreviation bytes := (list ascii).

Fixpoint string_of_list (l : list ascii) : string :=
  match l with
  | [] => EmptyString
  | c :: l' => String c (string_of_list l')
  end.

Fixpoint list_of_string (s : string) : list ascii :=
  match s with
  | EmptyString => []
  | String c s' => c :: list_of_string s'
  end.

(** [Buffer.from(s, 'utf8')] on a string whose code units are below 256:
    a code unit below 128 is one octet, the others take two. *)
Definition utf8_char (c : ascii) : bytes :=
  match c with
  | Ascii b0 b1 b2 b3 b4 b5 b6 false => [c]
  | Ascii b0 b1 b2 b3 b4 b5 b6 true =>
      [Ascii b6 true false false false false true true;
       Ascii b0 b1 b2 b3 b4 b5 false true]
  end.

Fixpoint utf8_encode (s : string) : bytes :=
  match s with
  | EmptyString => []
  | String c s' => utf8_char c ++ utf8_encode s'
  end.

(** ** Base64 (Node's [Buffer]) *)

(** Six bits, most significant first. *)
Definition sextet : Type := (bool * bool * bool * bool * bool * bool)%type.

Definition sextet_index (s : sextet) : nat :=
  let '(b5, b4, b3, b2, b1, b0) := s in
  (if b5 then 32 else 0) + (if b4 then 16 else 0) + (if b3 then 8 else 0)
  + (if b2 then 4 else 0) + (if b1 then 2 else 0) + (if b0 then 1 else 0).

Definition base64_alphabet : string :=
  "ABCDEFGHIJKLMNOPQRSTUVWXYZabcdefghijklmnopqrstuvwxyz0123456789+/".
Definition base64url_alphabet : string :=
  "ABCDEFGHIJKLMNOPQRSTUVWXYZabcdefghijklmnopqrstuvwxyz0123456789-_".

Definition alphabet_char (alphabet : string) (s : sextet) : ascii :=
  nth (sextet_index s) (list_of_string alphabet) "A"%char.

(** The sextets of an octet sequence; the last group is filled with zero
    bits. *)
Fixpoint sextets_of_bytes (bs : bytes) : list sextet :=
  match bs with
  | [] => []
  | [Ascii a0 a1 a2 a3 a4 a5 a6 a7] =>
      [(a7, a6, a5, a4, a3, a2); (a1, a0, false, false, false, false)]
  | [Ascii a0 a1 a2 a3 a4 a5 a6 a7; Ascii b0 b1 b2 b3 b4 b5 b6 b7] =>
      [(a7, a6, a5, a4, a3, a2); (a1, a0, b7, b6, b5, b4);
       (b3, b2, b1, b0, false, false)]
  | Ascii a0 a1 a2 a3 a4 a5 a6 a7 :: Ascii b0 b1 b2 b3 b4 b5 b6 b7
      :: Ascii c0 c1 c2 c3 c4 c5 c6 c7 :: rest =>
      (a7, a6, a5, a4, a3, a2) :: (a1, a0, b7, b6, b5, b4)
      :: (b3, b2, b1, b0, c7, c6) :: (c5, c4, c3, c2, c1, c0)
      :: sextets_of_bytes rest
  end.

(** [buf.toString('base64url')]: the URL-safe alphabet, no padding. The
    [base64url] package's [encode] of a [Buffer] gives the same string. *)
Definition base64url_encode (bs : bytes) : string :=
  string_of_list (map (alphabet_char base64url_alphabet) (sextets_of_bytes bs)).

(** [buf.toString('base64')]: the standard alphabet, padded with "=" to a
    multiple of four characters. *)
Definition base64_padding (n : nat) : string :=
  match n mod 3 with
  | 1 => "=="
  | 2 => "="
  | _ => ""
  end.

Definition base64_encode (bs : bytes) : string :=
  string_of_list (map (alphabet_char base64_alphabet) (sextets_of_bytes bs))
  +:+ base64_padding (length bs).

(** The decoder's table: both alphabets are accepted. *)
Definition unbase64 (c : ascii) : option sextet :=
  let n := nat_of_ascii c in
  let six (k : nat) : option sextet :=
    Some (Nat.testbit k 5, Nat.testbit k 4, Nat.testbit k 3,
          Nat.testbit k 2, Nat.testbit k 1, Nat.testbit k 0) in
  if ((65 <=? n) && (n <=? 90))%nat then six (n - 65)
  else if ((97 <=? n) && (n <=? 122))%nat then six (n - 71)
  else if ((48 <=? n) && (n <=? 57))%nat then six (n + 4)
  else if ((n =? 43) || (n =? 45))%nat then six 62
  else if ((n =? 47) || (n =? 95))%nat then six 63
  else None.

(** The characters the decoder reads: it stops at the first "=" and skips
    every other character that is not in the table. *)
Fixpoint sextets_of_string (s : string) : list sextet :=
  match s with
  | EmptyString => []
  | String c s' =>
      if Ascii.eqb c "="%char then []
      else match unbase64 c with
           | Some x => x :: sextets_of_string s'
           | None => sextets_of_string s'
           end
  end.

Fixpoint bytes_of_sextets (l : list sextet) : bytes :=
  match l with
  | (a7, a6, a5, a4, a3, a2) :: (a1, a0, b7, b6, b5, b4)
      :: (b3, b2, b1, b0, c7, c6) :: (c5, c4, c3, c2, c1, c0) :: rest =>
      Ascii a0 a1 a2 a3 a4 a5 a6 a7 :: Ascii b0 b1 b2 b3 b4 b5 b6 b7
      :: Ascii c0 c1 c2 c3 c4 c5 c6 c7 :: bytes_of_sextets rest
  | [(a7, a6, a5, a4, a3, a2); (a1, a0, b7, b6, b5, b4); (b3, b2, b1, b0, _, _)] =>
      [Ascii a0 a1 a2 a3 a4 a5 a6 a7; Ascii b0 b1 b2 b3 b4 b5 b6 b7]
  | [(a7, a6, a5, a4, a3, a2); (a1, a0, _, _, _, _)] =>
      [Ascii a0 a1 a2 a3 a4 a5 a6 a7]
  | _ => []
  end.

(** [Buffer.from(s, 'base64url')] for a string [s]. *)
Definition base64url_decode (s : string) : bytes :=
  bytes_of_sextets (sextets_of_string s).

(** ** Base58 ([bs58.encode]) *)

Definition base58_alphabet : string :=
  "123456789ABCDEFGHJKLMNPQRSTUVWXYZabcdefghijkmnopqrstuvwxyz".

(** The big-endian number an octet sequence writes. *)
Definition N_of_bytes (bs : bytes) : N :=
  fold_left (fun acc b => (acc * 256 + N_of_ascii b)%N) bs 0%N.

(** The base-58 digits of [n], most significant first; [fuel] bounds the
    number of digits. *)
Fixpoint base58_digits (fuel : nat) (n : N) (acc : list ascii) : list ascii :=
  match fuel with
  | O => acc
  | S fuel' =>
      if (n =? 0)%N then acc
      else base58_digits fuel' (n / 58)%N
             (nth (N.to_nat (n mod 58)%N) (list_of_string base58_alphabet) "1"%char :: acc)
  end.

Fixpoint leading_zeros (bs : bytes) : nat :=
  match bs with
  | b :: bs' => if Ascii.eqb b zero then S (leading_zeros bs') else O
  | [] => O
  end.

(** Each leading zero octet is written "1"; the rest is the number in
    base 58 (two digits per octet are always enough). *)
Definition bs58_encode (bs : bytes) : string :=
  string_of_list
    (repeat "1"%char (leading_zeros bs)
     ++ base58_digits (2 * length bs) (N_of_bytes bs) []).

(** *** Reading base58 back

    [bs58.decode], the inverse of [bs58.encode]. The generator does not
    call it; it is here to say what a base58 text holds: the leading
    "1"s are zero octets, the rest is a number in base 58, written out
    big-endian (an octet per character is always enough). *)
Fixpoint index_of (c : ascii) (l : list ascii) : option N :=
  match l with
  | [] => None
  | a :: l' => if Ascii.eqb a c then Some 0%N else N.succ <$> index_of c l'
  end.

Definition base58_value (cs : list ascii) : option N :=
  fold_left
    (fun acc c =>
       match acc, index_of c (list_of_string base58_alphabet) with
       | Some a, Some d => Some (a * 58 + d)%N
       | _, _ => None
       end)
    cs (Some 0%N).

Fixpoint octets (fuel : nat) (n : N) (acc : bytes) : bytes :=
  match fuel with
  | O => acc
  | S fuel' =>
      if (n =? 0)%N then acc
      else octets fuel' (n / 256)%N (ascii_of_N (n mod 256) :: acc)
  end.

Fixpoint leading_ones (cs : list ascii) : nat :=
  match cs with
  | c :: cs' => if Ascii.eqb c "1"%char then S (leading_ones cs') else O
  | [] => O
  end.

Definition bs58_decode (s : string) : option bytes :=
  let cs := list_of_string s in
  let zeros := leading_ones cs in
  match base58_value (skipn zeros cs) with
  | Some n => Some (repeat zero zeros ++ octets (length cs) n [])
  | None => None
  end.

(** Positional notation in base [b], most significant digit first: the
    digits of a number, and the number a digit sequence writes. *)
Fixpoint digits_of (b : N) (fuel : nat) (n : N) (acc : list N) : list N :=
  match fuel with
  | O => acc
  | S fuel' =>
      if (n =? 0)%N then acc
      else digits_of b fuel' (n / b)%N ((n mod b)%N :: acc)
  end.

Definition value_of (b : N) (ds : list N) : N :=
  fold_left (fun a d => (a * b + d)%N) ds 0%N.

(** Digits below the base, without a leading zero. *)
Definition canonical_digits (b : N) (ds : list N) : Prop :=
  Forall (fun d => (d < b)%N) ds /\ match ds with [] => True | d :: _ => d <> 0%N end.

(** The character of a base-58 digit. *)
Definition base58_char (d : N) : ascii :=
  nth (N.to_nat d) (list_of_string base58_alphabet) "1"%char.

(** ** SHA-256 ([crypto.createHash('sha256')]) *)

Module SHA256.
Local Open Scope N_scope.

Definition w32 (x : N) : N := x mod 4294967296.
Definition add32 (x y : N) : N := w32 (x + y).
Definition rotr (n x : N) : N := N.lor (N.shiftr x n) (w32 (N.shiftl x (32 - n))).
Definition not32 (x : N) : N := 4294967295 - x.

Definition Ch (x y z : N) : N := N.lxor (N.land x y) (N.land (not32 x) z).
Definition Maj (x y z : N) : N :=
  N.lxor (N.lxor (N.land x y) (N.land x z)) (N.land y z).
Definition Sigma0 (x : N) : N := N.lxor (N.lxor (rotr 2 x) (rotr 13 x)) (rotr 22 x).
Definition Sigma1 (x : N) : N := N.lxor (N.lxor (rotr 6 x) (rotr 11 x)) (rotr 25 x).
Definition sigma0 (x : N) : N := N.lxor (N.lxor (rotr 7 x) (rotr 18 x)) (N.shiftr x 3).
Definition sigma1 (x : N) : N := N.lxor (N.lxor (rotr 17 x) (rotr 19 x)) (N.shiftr x 10).

(** The round constants and the initial state are not tabulated but
    computed as the standard defines them: the first 32 bits of the
    fractional parts of the cube roots of the first 64 primes, and of the
    square roots of the first 8. *)
Definition is_prime (n : nat) : bool :=
  forallb (fun d => negb (n mod d =? 0)%nat) (seq 2 (n - 2)).

Definition primes : list N := map N.of_nat (List.filter is_prime (seq 2 310)).

(** The integer cube root, one bit at a time from bit 39 down. *)
Definition cube_root (n : N) : N :=
  fold_left (fun r i => let r' := r + 2 ^ N.of_nat i in
                        if r' * r' * r' <=? n then r' else r)
            (rev (seq 0 40)) 0.

Definition K : list N := map (fun p => w32 (cube_root (p * 2 ^ 96))) primes.

Definition H0 : list N := map (fun p => w32 (N.sqrt (p * 2 ^ 64))) (firstn 8 primes).

(** Padding: a one bit, zero bits up to 56 modulo 64 octets, then the
    length in bits as a 64-bit big-endian number. *)
Definition be_bytes (width : nat) (n : N) : bytes :=
  map (fun i => ascii_of_N ((n / 256 ^ N.of_nat (width - 1 - i)%nat) mod 256))
      (seq 0 width).

Definition pad (msg : bytes) : bytes :=
  let len := length msg in
  let zeros := ((64 - ((len + 9) mod 64)) mod 64)%nat in
  msg ++ [ascii_of_N 128] ++ repeat zero zeros
      ++ be_bytes 8 (8 * N.of_nat len).

Fixpoint words_of_bytes (fuel : nat) (bs : bytes) : list N :=
  match fuel, bs with
  | S fuel', a :: b :: c :: d :: rest =>
      N_of_bytes [a; b; c; d] :: words_of_bytes fuel' rest
  | _, _ => []
  end.

(** The message schedule: sixteen words of the block, extended to
    sixty-four. *)
Fixpoint extend (n : nat) (w : list N) : list N :=
  match n with
  | O => w
  | S n' =>
      let t := length w in
      let at_ i := nth (t - i)%nat w 0 in
      extend n' (w ++ [add32 (add32 (sigma1 (at_ 2%nat)) (at_ 7%nat))
                             (add32 (sigma0 (at_ 15%nat)) (at_ 16%nat))])
  end.

Definition state : Type := (N * N * N * N * N * N * N * N)%type.

Definition round (s : state) (kw : N * N) : state :=
  let '(a, b, c, d, e, f, g, h) := s in
  let t1 := add32 (add32 (add32 h (Sigma1 e)) (add32 (Ch e f g) (fst kw))) (snd kw) in
  let t2 := add32 (Sigma0 a) (Maj a b c) in
  (add32 t1 t2, a, b, c, add32 d t1, e, f, g).

Definition compress (s : state) (block : list N) : state :=
  let '(a, b, c, d, e, f, g, h) := s in
  let '(a', b', c', d', e', f', g', h') :=
    fold_left round (combine K (extend 48 block)) s in
  (add32 a a', add32 b b', add32 c c', add32 d d',
   add32 e e', add32 f f', add32 g g', add32 h h').

Fixpoint blocks (fuel : nat) (ws : list N) : list (list N) :=
  match fuel, ws with
  | S fuel', _ :: _ => firstn 16 ws :: blocks fuel' (skipn 16 ws)
  | _, _ => []
  end.

Definition initial : state :=
  match H0 with
  | [a; b; c; d; e; f; g; h] => (a, b, c, d, e, f, g, h)
  | _ => (0, 0, 0, 0, 0, 0, 0, 0)
  end.

Definition digest (msg : bytes) : bytes :=
  let padded := pad msg in
  let ws := words_of_bytes (length padded) padded in
  let '(a, b, c, d, e, f, g, h) :=
    fold_left compress (blocks (length ws) ws) initial in
  be_bytes 4 a ++ be_bytes 4 b ++ be_bytes 4 c ++ be_bytes 4 d
  ++ be_bytes 4 e ++ be_bytes 4 f ++ be_bytes 4 g ++ be_bytes 4 h.
End SHA256.

Definition hex_of_bytes (bs : bytes) : string :=
  string_of_list
    (flat_map (fun b =>
       let n := nat_of_ascii b in
       let d k := nth k (list_of_string "0123456789abcdef") "0"%char in
       [d (n / 16)%nat; d (n mod 16)%nat]) bs).

(** ** JSON values and [JSON.stringify] *)

(** The values [JSON.stringify] writes. A number is an integer below
    2^53 in absolute value, which is written in decimal. The members of an
    object are in the order [Object.keys] lists them; an object has no two
    members of the same name. *)
#[warnings="-register-all"]
Inductive json : Type :=
| JNull
| JBool (b : bool)
| JNum (n : Z)
| JStr (s : string)
| JArr (items : list json)
| JObj (members : list (string * json)).

Definition dquote : ascii := "034"%char.
Definition newline : string := String "010"%char "".
Definition backslash : ascii := "092"%char.

Definition hex_digit (n : nat) : ascii :=
  nth n (list_of_string "0123456789abcdef") "0"%char.

(** QuoteJSONString, one code unit at a time: the short escapes, [\u00xx]
    for the other control characters, and the unit itself otherwise. *)
Definition quote_char (c : ascii) : string :=
  let n := nat_of_ascii c in
  if (n =? 8)%nat then "\b"
  else if (n =? 9)%nat then "\t"
  else if (n =? 10)%nat then "\n"
  else if (n =? 12)%nat then "\f"
  else if (n =? 13)%nat then "\r"
  else if (n =? 34)%nat then String backslash (String dquote "")
  else if (n =? 92)%nat then String backslash (String backslash "")
  else if (n <? 32)%nat then
    "\u00" +:+ String (hex_digit (n / 16)) (String (hex_digit (n mod 16)) "")
  else String c "".

Fixpoint quote_chars (s : string) : string :=
  match s with
  | EmptyString => ""
  | String c s' => quote_char c +:+ quote_chars s'
  end.

Definition QuoteJSONString (s : string) : string :=
  String dquote (quote_chars s +:+ String dquote "").

Definition string_of_Z (n : Z) : string := NilZero.string_of_int (Z.to_int n).
Definition string_of_N (n : N) : string := NilZero.string_of_uint (N.to_uint n).

Fixpoint assoc {A} (k : string) (l : list (string * A)) : option A :=
  match l with
  | [] => None
  | (k', a) :: l' => if String.eqb k k' then Some a else assoc k l'
  end.

(** SerializeJSONProperty with an optional property list and no
    indentation. With a property list, every object at every depth is
    written through it: the listed names, in the list's order, that the
    object has. Without one, an object's own members are written in their
    order. *)
Fixpoint SerializeJSONProperty (PropertyList : option (list string)) (value : json)
  : string :=
  match value with
  | JNull => "null"
  | JBool true => "true"
  | JBool false => "false"
  | JNum n => string_of_Z n
  | JStr s => QuoteJSONString s
  | JArr items =>
      "[" +:+ String.concat "," (map (SerializeJSONProperty PropertyList) items) +:+ "]"
  | JObj members =>
      let written :=
        map (fun m => let '(k, v) := m in
                      (k, QuoteJSONString k +:+ ":" +:+ SerializeJSONProperty PropertyList v))
            members in
      let K := match PropertyList with
               | Some names => names
               | None => map fst members
               end in
      "{" +:+ String.concat "," (omap (fun P => assoc P written) K) +:+ "}"
  end.

(** [JSON.stringify(value)] and [JSON.stringify(value, names)]. *)
Definition JSON_stringify (value : json) : string :=
  SerializeJSONProperty None value.
Definition JSON_stringify_with (value : json) (names : list string) : string :=
  SerializeJSONProperty (Some names) value.

(** ** [Array.prototype.sort] on strings *)

(** The default comparison: by code units, lexicographically. *)
Definition code_unit_le (s1 s2 : string) : Prop := String.leb s1 s2 = true.

#[global] Instance code_unit_le_dec : RelDecision code_unit_le.
Proof. intros s1 s2. unfold code_unit_le. apply _. Defined.

Definition Array_sort (l : list string) : list string := merge_sort code_unit_le l.

(** [Object.keys]: the member names of an object, the indices of an array
    or of a string, nothing for a number or a boolean; [null] has no keys
    to give and the call throws. *)
Definition index_keys (n : nat) : list string :=
  map (fun i => string_of_N (N.of_nat i)) (seq 0 n).

Definition Object_keys (obj : json) : result (list string) :=
  match obj with
  | JNull => Throw (Error "Cannot convert undefined or null to object")
  | JBool _ | JNum _ => Ok []
  | JStr s => Ok (index_keys (String.length s))
  | JArr items => Ok (index_keys (length items))
  | JObj members => Ok (map fst members)
  end.

(** ** The random source and the clock *)

(** What the process reads from outside: an unbounded supply of random
    octets, of which [consumed] have been handed out, and the time
    [new Date().toISOString()] reports. *)
Record World : Type := {
  entropy : nat -> byte;
  consumed : nat;
  clock : string
}.

(** [addNumericalSeparator] of Node's error messages: an underscore
    before every group of three digits, counted from the right. *)
Fixpoint separate_thousands (reversed : list ascii) : list ascii :=
  match reversed with
  | a :: b :: c :: rest =>
      match rest with
      | [] => reversed
      | _ :: _ => a :: b :: c :: "_"%char :: separate_thousands rest
      end
  | _ => reversed
  end.

Definition addNumericalSeparator (val : string) : string :=
  string_of_list (rev (separate_thousands (rev (list_of_string val)))).

(** The largest size [crypto.randomBytes] accepts, 2^31 - 1. *)
Definition kMaxPossibleLength : N := 2147483647.

(** The RangeError for a size that is out of range; a number above 2^32
    is written with separators. *)
Definition ERR_OUT_OF_RANGE_size (n : N) : exn :=
  Error ("The value of " +:+ String dquote ("size" +:+ String dquote
           (" is out of range. It must be >= 0 && <= 2147483647. Received "
            +:+ (if (4294967296 <? n)%N then addNumericalSeparator (string_of_N n)
                 else string_of_N n)))).

(** [crypto.randomBytes(n)]: a size above 2^31 - 1 is refused with a
    RangeError, before any octet is drawn; otherwise the next [n] octets
    of the source are handed out. *)
Definition randomBytes (n : nat) : M World bytes :=
  fun w =>
    if (kMaxPossibleLength <? N.of_nat n)%N
    then (Throw (ERR_OUT_OF_RANGE_size (N.of_nat n)), w)
    else (Ok (map (entropy w) (seq (consumed w) n)),
          {| entropy := entropy w; consumed := consumed w + n; clock := clock w |}).

Definition toISOString_now : M World string := gets clock.

(** ** The curve libraries

    What the generator uses of @noble/ed25519 and @noble/secp256k1:
    [utils.randomPrivateKey()], [getPublicKey(privateKey)],
    [sign(message, privateKey)] and [verify(signature, message,
    publicKey)]. Each of the last three throws on an input it does not
    accept. *)
Record Curve : Type := {
  randomPrivateKey : M World bytes;
  getPublicKey : bytes -> result bytes;
  sign : bytes -> bytes -> result bytes;
  verify : bytes -> bytes -> bytes -> result bool
}.

(** ** The data model of [anp-key-generator.ts] *)

Inductive KeyType : Type := ED25519 | SECP256K1 | X25519.

Definition KeyType_value (k : KeyType) : string :=
  match k with
  | ED25519 => "Ed25519VerificationKey2020"
  | SECP256K1 => "EcdsaSecp256k1VerificationKey2019"
  | X25519 => "X25519KeyAgreementKey2019"
  end.

#[global] Instance KeyType_eq_dec : EqDecision KeyType.
Proof. solve_decision. Defined.

Record PublicKeyJWK : Type := {
  crv : string;
  x : option string;
  y : option string;
  kty : string;
  kid : string
}.

(** Field names carry the interface's initials where two interfaces share
    a name ([id], [type]). *)
Record VerificationMethod : Type := {
  vm_id : string;
  vm_type : string;
  vm_controller : string;
  publicKeyJwk : option PublicKeyJWK;
  publicKeyMultibase : option string
}.

(** [string | VerificationMethod] *)
Inductive MethodEntry : Type :=
| ById (id : string)
| Embedded (method : VerificationMethod).

(** A [service] entry. The generator writes three fields; the entries
    [DIDAutoConfig] writes also carry an optional [description]. *)
Record Service : Type := {
  svc_id : string;
  svc_type : string;
  serviceEndpoint : string;
  svc_description : option string
}.

Record DIDDocument : Type := {
  context : list string;
  doc_id : string;
  verificationMethod : option (list VerificationMethod);
  authentication : list MethodEntry;
  keyAgreement : option (list MethodEntry);
  humanAuthorization : option (list MethodEntry);
  service : option (list Service)
}.

(** [did_document] is the JSON text of the document,
    [JSON.stringify(didDocument, null, 2)]; its one reader,
    [DIDAutoConfig.generateDIDAndKeys], parses it back at once. The model
    keeps the document the text stands for. *)
Record KeyPairResult : Type := {
  did_document : DIDDocument;
  private_key : string;
  did : string
}.

Record SignatureData : Type := {
  sd_nonce : string;
  sd_timestamp : string;
  sd_service : string;
  sd_did : string
}.

(** The object a [SignatureData] is at run time, its members in the order
    [generateSignatureData] writes them. *)
Definition json_of_SignatureData (d : SignatureData) : json :=
  JObj [("nonce", JStr (sd_nonce d)); ("timestamp", JStr (sd_timestamp d));
        ("service", JStr (sd_service d)); ("did", JStr (sd_did d))].

Record RawKeyPair : Type := {
  privateKey : bytes;
  publicKey : bytes
}.

(** [cond ? a : b] and [a || b] on a string that may be missing: the
    empty string is as false as [undefined]. *)
Definition truthy (o : option string) : bool :=
  match o with
  | Some s => negb (String.eqb s "")
  | None => false
  end.

(** ** [class ANPKeyGenerator] *)

Module ANPKeyGenerator.

Record t : Type := {
  domain : string;
  path : option string
}.

Definition generateDID (this : t) : string :=
  if truthy (path this)
  then "did:wba:" +:+ domain this +:+ ":" +:+ default "" (path this)
  else "did:wba:" +:+ domain this.

Definition generateNonce (length : nat) : M World string :=
  (b <- randomBytes length ;; ret (base64url_encode b))%js.

Definition encodeMultibase (publicKey : bytes) : string :=
  let base58 := bs58_encode publicKey in
  "z" +:+ base58.

(** [publicKey.slice(start, end)] for indices within the array's length or
    beyond it. *)
Definition slice (bs : bytes) (start stop : nat) : bytes :=
  firstn (stop - start) (skipn start bs).

Definition generateJWK (publicKey : bytes) (keyType : KeyType) : M World PublicKeyJWK :=
  (kid <- generateNonce 16 ;;
   if decide (keyType = SECP256K1) then
     let x := slice publicKey 1 33 in
     let y := slice publicKey 33 65 in
     ret {| crv := "secp256k1";
            x := Some (base64url_encode x);
            y := Some (base64url_encode y);
            kty := "EC";
            kid := kid |}
   else
     ret {| crv := "Ed25519"; x := None; y := None; kty := "OKP"; kid := kid |})%js.

(** The header and footer name the algorithm; the body is the base64 of
    the key, in lines of 64 characters. *)
Fixpoint lines_of (fuel : nat) (width : nat) (cs : list ascii) : list string :=
  match fuel, cs with
  | S fuel', _ :: _ =>
      string_of_list (firstn width cs) :: lines_of fuel' width (skipn width cs)
  | _, _ => []
  end.

Definition generatePEMPrivateKey (privateKey : bytes) (keyType : KeyType) : string :=
  let '(header, footer) :=
    match keyType with
    | ED25519 =>
        ("-----BEGIN ED25519 PRIVATE KEY-----", "-----END ED25519 PRIVATE KEY-----")
    | SECP256K1 =>
        ("-----BEGIN SECP256K1 PRIVATE KEY-----", "-----END SECP256K1 PRIVATE KEY-----")
    | _ =>
        ("-----BEGIN " +:+ KeyType_value keyType +:+ " PRIVATE KEY-----",
         "-----END " +:+ KeyType_value keyType +:+ " PRIVATE KEY-----")
    end in
  let base64Key := list_of_string (base64_encode privateKey) in
  let formattedKey := String.concat newline (lines_of (length base64Key) 64 base64Key) in
  header +:+ newline +:+ formattedKey +:+ newline +:+ footer.

(** [JSON.stringify(obj, Object.keys(obj).sort())] *)
Definition jcsCanonicalize (obj : json) : result string :=
  (keys <-? Object_keys obj ;;
   Ok (JSON_stringify_with obj (Array_sort keys)))%js.

Definition generateSignatureData (service did : string) : M World SignatureData :=
  (nonce <- generateNonce 16 ;;
   timestamp <- toISOString_now ;;
   ret {| sd_nonce := nonce; sd_timestamp := timestamp;
          sd_service := service; sd_did := did |})%js.

Definition contexts : list string :=
  ["https://www.w3.org/ns/did/v1";
   "https://w3id.org/security/suites/jws-2020/v1";
   "https://w3id.org/security/suites/secp256k1-2019/v1";
   "https://w3id.org/security/suites/ed25519-2020/v1";
   "https://w3id.org/security/suites/x25519-2019/v1"].

Section WithCurves.
Variables ed25519 secp256k1 : Curve.

Definition generateEd25519KeyPair : M World RawKeyPair :=
  (privateKey <- randomPrivateKey ed25519 ;;
   publicKey <- lift_result (getPublicKey ed25519 privateKey) ;;
   ret {| privateKey := privateKey; publicKey := publicKey |})%js.

Definition generateSecp256k1KeyPair : M World RawKeyPair :=
  (privateKey <- randomPrivateKey secp256k1 ;;
   publicKey <- lift_result (getPublicKey secp256k1 privateKey) ;;
   ret {| privateKey := privateKey; publicKey := publicKey |})%js.

(** The key-agreement and human-authorization methods, which both
    branches of [generateKeyPair] build in the same way. *)
Definition keyAgreementMethod_of (did : string) (pair : RawKeyPair) : VerificationMethod :=
  {| vm_id := did +:+ "#key-2";
     vm_type := KeyType_value X25519;
     vm_controller := did;
     publicKeyJwk := None;
     publicKeyMultibase := Some (encodeMultibase (publicKey pair)) |}.

Definition humanAuthMethod_of (did : string) (pair : RawKeyPair) : VerificationMethod :=
  {| vm_id := did +:+ "#key-3";
     vm_type := KeyType_value ED25519;
     vm_controller := did;
     publicKeyJwk := None;
     publicKeyMultibase := Some (encodeMultibase (publicKey pair)) |}.

Definition generateKeyPair (this : t) (keyType : KeyType) : M World KeyPairResult :=
  (let did := generateDID this in
   keyId <- generateNonce 16 ;;
   parts <-
     match keyType with
     | ED25519 =>
         keyPair <- generateEd25519KeyPair ;;
         let authKeyId := did +:+ "#" +:+ keyId in
         let authMethod :=
           {| vm_id := authKeyId;
              vm_type := KeyType_value ED25519;
              vm_controller := did;
              publicKeyJwk := None;
              publicKeyMultibase := Some (encodeMultibase (publicKey keyPair)) |} in
         keyAgreementPair <- generateEd25519KeyPair ;;
         let keyAgreementMethod := keyAgreementMethod_of did keyAgreementPair in
         humanAuthPair <- generateEd25519KeyPair ;;
         let humanAuthMethod := humanAuthMethod_of did humanAuthPair in
         ret (keyPair,
              [authMethod; keyAgreementMethod; humanAuthMethod],
              [ById authKeyId],
              [Embedded keyAgreementMethod],
              [ById authKeyId; Embedded humanAuthMethod])
     | SECP256K1 =>
         keyPair <- generateSecp256k1KeyPair ;;
         jwk <- generateJWK (publicKey keyPair) keyType ;;
         let authKeyId := did +:+ "#" +:+ keyId in
         let authMethod :=
           {| vm_id := authKeyId;
              vm_type := KeyType_value SECP256K1;
              vm_controller := did;
              publicKeyJwk := Some jwk;
              publicKeyMultibase := None |} in
         keyAgreementPair <- generateEd25519KeyPair ;;
         let keyAgreementMethod := keyAgreementMethod_of did keyAgreementPair in
         humanAuthPair <- generateEd25519KeyPair ;;
         let humanAuthMethod := humanAuthMethod_of did humanAuthPair in
         ret (keyPair,
              [authMethod; keyAgreementMethod; humanAuthMethod],
              [ById authKeyId],
              [Embedded keyAgreementMethod],
              [ById authKeyId; Embedded humanAuthMethod])
     | _ =>
         throw (Error ("不支持的密钥类型: " +:+ KeyType_value keyType))
     end ;;
   let '(keyPair, verificationMethods, authenticationMethods,
         keyAgreementMethods, humanAuthorizationMethods) := parts in
   let didDocument :=
     {| context := contexts;
        doc_id := did;
        verificationMethod := Some verificationMethods;
        authentication := authenticationMethods;
        keyAgreement := Some keyAgreementMethods;
        humanAuthorization := Some humanAuthorizationMethods;
        service :=
          Some [{| svc_id := did +:+ "#agent-description";
                   svc_type := "AgentDescription";
                   serviceEndpoint :=
                     "https://" +:+ domain this +:+ "/agents/"
                     +:+ (if truthy (path this) then default "" (path this) else "default")
                     +:+ "/ad.json";
                   svc_description := None |}] |} in
   let privateKeyPem := generatePEMPrivateKey (privateKey keyPair) keyType in
   ret {| did_document := didDocument;
          private_key := privateKeyPem;
          did := did |})%js.

Definition signEd25519 (privateKey : bytes) (data : json) : result string :=
  (canonicalJson <-? jcsCanonicalize data ;;
   let message := utf8_encode canonicalJson in
   signature <-? sign ed25519 message privateKey ;;
   Ok (base64url_encode signature))%js.

Definition signSecp256k1 (privateKey : bytes) (data : json) : result string :=
  (canonicalJson <-? jcsCanonicalize data ;;
   let messageHash := SHA256.digest (utf8_encode canonicalJson) in
   signature <-? sign secp256k1 messageHash privateKey ;;
   Ok (base64url_encode signature))%js.

Definition verifyEd25519 (publicKey : bytes) (signature : string) (data : json)
  : result bool :=
  try_catch
    (canonicalJson <-? jcsCanonicalize data ;;
     let message := utf8_encode canonicalJson in
     let signatureBuffer := base64url_decode signature in
     verify ed25519 signatureBuffer message publicKey)%js
    (fun error => Ok false).

Definition verifySecp256k1 (publicKey : bytes) (signature : string) (data : json)
  : result bool :=
  try_catch
    (canonicalJson <-? jcsCanonicalize data ;;
     let messageHash := SHA256.digest (utf8_encode canonicalJson) in
     let signatureBuffer := base64url_decode signature in
     verify secp256k1 signatureBuffer messageHash publicKey)%js
    (fun error => Ok false).
End WithCurves.

End ANPKeyGenerator.

(** The [service] entry [generateKeyPair] writes. *)
Definition agentDescriptionService (this : ANPKeyGenerator.t) : Service :=
  {| svc_id := ANPKeyGenerator.generateDID this +:+ "#agent-description";
     svc_type := "AgentDescription";
     serviceEndpoint :=
       "https://" +:+ ANPKeyGenerator.domain this +:+ "/agents/"
       +:+ (if truthy (ANPKeyGenerator.path this)
            then default "" (ANPKeyGenerator.path this) else "default")
       +:+ "/ad.json";
     svc_description := None |}.

(** The DID and the endpoint as the specification words them: the path is
    appended when one is given, and "default" stands for a missing one. *)
Definition did_as_specified (domain : string) (path : option string) : string :=
  match path with
  | Some p => "did:wba:" +:+ domain +:+ ":" +:+ p
  | None => "did:wba:" +:+ domain
  end.

Definition endpoint_as_specified (domain : string) (path : option string) : string :=
  "https://" +:+ domain +:+ "/agents/" +:+ default "default" path +:+ "/ad.json".

(** A value with no object in it: a scalar, or an array of such values. *)
Fixpoint object_free (v : json) : bool :=
  match v with
  | JObj _ => false
  | JArr items => forallb object_free items
  | _ => true
  end.

(** The members of an object in the sorted order of their names. *)
Definition sorted_members (members : list (string * json)) : list (string * json) :=
  omap (fun k => v ← assoc k members; Some (k, v)) (Array_sort (map fst members)).

(** The canonical form as the specification words it: the members of the
    top-level object in the sorted order of their names, each value
    written as [JSON.stringify] writes it on its own, nested objects in
    their own member order. *)
Definition canonicalize_top_level_only (members : list (string * json)) : string :=
  "{" +:+ String.concat ","
            (omap (fun k => v ← assoc k members;
                            Some (QuoteJSONString k +:+ ":" +:+ JSON_stringify v))
                  (Array_sort (map fst members)))
      +:+ "}".

(** ** [class DIDAutoConfig] *)

Module DIDAutoConfig.

Inductive InterfaceType : Type := NaturalLanguageInterface | StructuredInterface.

Definition InterfaceType_value (k : InterfaceType) : string :=
  match k with
  | NaturalLanguageInterface => "NaturalLanguageInterface"
  | StructuredInterface => "StructuredInterface"
  end.

Record AgentInterface : Type := {
  if_type : InterfaceType;
  if_description : string;
  if_url : option string
}.

Record ServiceEndpoint : Type := {
  ep_id : string;
  ep_type : string;
  ep_serviceEndpoint : string;
  ep_description : option string
}.

Inductive LogLevel : Type := debug | info | warn | error.

(** [DIDAutoConfigOptions]: every field may be left out. *)
Record DIDAutoConfigOptions : Type := {
  autoDID : option bool;
  keyType : option KeyType;
  agentName : option string;
  agentDescription : option string;
  agentVersion : option string;
  interfaces : option (list AgentInterface);
  serviceEndpoints : option (list ServiceEndpoint);
  logLevel : option LogLevel
}.

Definition no_options : DIDAutoConfigOptions :=
  {| autoDID := None; keyType := None; agentName := None; agentDescription := None;
     agentVersion := None; interfaces := None; serviceEndpoints := None;
     logLevel := None |}.

(** [Required<DIDAutoConfigOptions>] *)
Record Options : Type := {
  opt_autoDID : bool;
  opt_keyType : KeyType;
  opt_agentName : string;
  opt_agentDescription : string;
  opt_agentVersion : string;
  opt_interfaces : list AgentInterface;
  opt_serviceEndpoints : list ServiceEndpoint;
  opt_logLevel : LogLevel
}.

(** One entry of ["ad:interfaces"]. *)
Record InterfaceEntry : Type := {
  ie_type : string;
  ie_url : string;
  ie_description : string
}.

(** The agent description document; its ["@context"] and ["@type"] are
    constants and are left out. *)
Record AgentDescription : Type := {
  ad_name : string;
  ad_did : option string;
  ad_description : string;
  ad_version : string;
  ad_created : string;
  ad_interfaces : list InterfaceEntry;
  ad_capabilities : list (string * string);
  ad_supportedProtocols : list (string * string * string)
}.

Record DIDConfig : Type := {
  cfg_did : string;
  cfg_privateKey : string;
  cfg_publicKey : string;
  cfg_didDocument : DIDDocument;
  cfg_agentDescription : AgentDescription;
  cfg_keyType : KeyType
}.

(** The fields of the instance. [null] and [undefined] are both [None]. *)
Record t : Type := {
  options : Options;
  autoDid : option string;
  privateKey : option string;
  publicKey : option string;
  didDocument : option DIDDocument;
  agentDescription_ : option AgentDescription
}.

(** The defaults, overridden by the options that are given. *)
Definition constructor (o : DIDAutoConfigOptions) : t :=
  {| options :=
       {| opt_autoDID := default true (autoDID o);
          opt_keyType := default ED25519 (keyType o);
          opt_agentName := default "Auto-Configured ANP Agent" (agentName o);
          opt_agentDescription :=
            default "Automatically configured ANP agent via SDK" (agentDescription o);
          opt_agentVersion := default "1.0.0" (agentVersion o);
          opt_interfaces :=
            default [{| if_type := NaturalLanguageInterface;
                        if_description := "Auto-configured natural language interface";
                        if_url := None |}] (interfaces o);
          opt_serviceEndpoints := default [] (serviceEndpoints o);
          opt_logLevel := default info (logLevel o) |};
     autoDid := None;
     privateKey := None;
     publicKey := None;
     didDocument := None;
     agentDescription_ := None |}.

(** The options with the key type set. *)
Definition with_keyType (k : KeyType) (o : DIDAutoConfigOptions) : DIDAutoConfigOptions :=
  {| autoDID := autoDID o; keyType := Some k; agentName := agentName o;
     agentDescription := agentDescription o; agentVersion := agentVersion o;
     interfaces := interfaces o; serviceEndpoints := serviceEndpoints o;
     logLevel := logLevel o |}.

(** The state a method runs in: the instance and the world. *)
Definition St : Type := (t * World)%type.

Definition this_ {A} (f : t -> A) : M St A := gets (fun s => f (fst s)).
Definition update (f : t -> t) : M St unit := modify (fun s => (f (fst s), snd s)).
Definition in_world {A} (m : M World A) : M St A :=
  fun s => let '(r, w) := m (snd s) in (r, (fst s, w)).

Definition set_autoDid v (c : t) : t :=
  {| options := options c; autoDid := v; privateKey := privateKey c;
     publicKey := publicKey c; didDocument := didDocument c;
     agentDescription_ := agentDescription_ c |}.
Definition set_privateKey v (c : t) : t :=
  {| options := options c; autoDid := autoDid c; privateKey := v;
     publicKey := publicKey c; didDocument := didDocument c;
     agentDescription_ := agentDescription_ c |}.
Definition set_publicKey v (c : t) : t :=
  {| options := options c; autoDid := autoDid c; privateKey := privateKey c;
     publicKey := v; didDocument := didDocument c;
     agentDescription_ := agentDescription_ c |}.
Definition set_didDocument v (c : t) : t :=
  {| options := options c; autoDid := autoDid c; privateKey := privateKey c;
     publicKey := publicKey c; didDocument := v;
     agentDescription_ := agentDescription_ c |}.
Definition set_agentDescription v (c : t) : t :=
  {| options := options c; autoDid := autoDid c; privateKey := privateKey c;
     publicKey := publicKey c; didDocument := didDocument c;
     agentDescription_ := v |}.

(** [doc.service = v] *)
Definition set_service (v : option (list Service)) (d : DIDDocument) : DIDDocument :=
  {| context := context d; doc_id := doc_id d;
     verificationMethod := verificationMethod d;
     authentication := authentication d; keyAgreement := keyAgreement d;
     humanAuthorization := humanAuthorization d; service := v |}.

(** The entry [updateServiceEndpoint] and [configureDIDDocument] write
    for an endpoint. *)
Definition entry_of (endpoint : ServiceEndpoint) : Service :=
  {| svc_id := ep_id endpoint;
     svc_type := ep_type endpoint;
     serviceEndpoint := ep_serviceEndpoint endpoint;
     svc_description := ep_description endpoint |}.

Definition default_service : Service :=
  {| svc_id := "default";
     svc_type := "ANPAgentService";
     serviceEndpoint := "http://localhost:3000/anp/api";
     svc_description := Some "Default ANP agent service endpoint" |}.

(** [array.findIndex(pred)], when it finds one. *)
Fixpoint findIndex {A} (pred : A -> bool) (l : list A) : option nat :=
  match l with
  | [] => None
  | a :: l' => if pred a then Some O else S <$> findIndex pred l'
  end.

(** The guard wants the three strings present and not empty, and the two
    documents present. *)
Definition getConfig : M St DIDConfig :=
  fun s =>
    let c := fst s in
    match autoDid c, privateKey c, publicKey c, didDocument c, agentDescription_ c with
    | Some d, Some sk, Some pk, Some doc, Some ad =>
        if truthy (Some d) && truthy (Some sk) && truthy (Some pk)
        then (Ok {| cfg_did := d; cfg_privateKey := sk; cfg_publicKey := pk;
                    cfg_didDocument := doc; cfg_agentDescription := ad;
                    cfg_keyType := opt_keyType (options c) |}, s)
        else (Throw (Error "DID not configured yet. Call autoSetup() first."), s)
    | _, _, _, _, _ =>
        (Throw (Error "DID not configured yet. Call autoSetup() first."), s)
    end.

(** A getter of a string field: it throws while the field is missing or
    empty. *)
Definition get_string (field : t -> option string) (msg : string) : M St string :=
  fun s =>
    match field (fst s) with
    | Some v => if truthy (Some v) then (Ok v, s) else (Throw (Error msg), s)
    | None => (Throw (Error msg), s)
    end.

Definition get_object {A} (field : t -> option A) (msg : string) : M St A :=
  fun s =>
    match field (fst s) with
    | Some v => (Ok v, s)
    | None => (Throw (Error msg), s)
    end.

Definition getDID : M St string :=
  get_string autoDid "DID not configured yet. Call autoSetup() first.".
Definition getPrivateKey : M St string :=
  get_string privateKey "Private key not configured yet. Call autoSetup() first.".
Definition getPublicKey : M St string :=
  get_string publicKey "Public key not configured yet. Call autoSetup() first.".
Definition getDIDDocument : M St DIDDocument :=
  get_object didDocument "DID document not configured yet. Call autoSetup() first.".
Definition getAgentDescription : M St AgentDescription :=
  get_object agentDescription_
    "Agent description not configured yet. Call autoSetup() first.".

Definition getDefaultInterfaceUrl : M St string :=
  this_ (fun c =>
    match didDocument c with
    | Some doc =>
        match service doc with
        | Some (s0 :: _) => serviceEndpoint s0
        | _ => "http://localhost:3000/anp/api"
        end
    | None => "http://localhost:3000/anp/api"
    end).

Definition updateServiceEndpoint (endpoint : ServiceEndpoint) : M St unit :=
  (doc <- get_object didDocument "DID document not configured yet" ;;
   let services := default [] (service doc) in
   let existingIndex :=
     findIndex (fun s => String.eqb (svc_id s) (ep_id endpoint)) services in
   let services' :=
     match existingIndex with
     | Some i => <[i := entry_of endpoint]> services
     | None => services ++ [entry_of endpoint]
     end in
   update (set_didDocument (Some (set_service (Some services') doc))))%js.

(** The domain with the port, and the generator [generateDIDAndKeys]
    makes for them. A port is a natural number; port 0 is as false as a
    missing one, and the domain then stands alone. *)
Definition fullDomain_of (domain : string) (port : option N) : string :=
  match port with
  | Some p => if (p =? 0)%N then domain else domain +:+ ":" +:+ string_of_N p
  | None => domain
  end.

Definition generator_of (domain : string) (port : option N) : ANPKeyGenerator.t :=
  {| ANPKeyGenerator.domain := fullDomain_of domain port;
     ANPKeyGenerator.path := Some "auto-agent" |}.

(** The service entries [configureDIDDocument] leaves in a document that
    had [services]. *)
Definition configured_services (endpoints : list ServiceEndpoint)
    (services : option (list Service)) : list Service :=
  match endpoints with
  | [] => default [] services ++ [default_service]
  | _ :: _ => map entry_of endpoints
  end.

(** The object literal of [generateAgentDescription]; [defaultUrl] is
    what [getDefaultInterfaceUrl] gives for an interface without a url. *)
Definition description_of (o : Options) (d : option string) (created defaultUrl : string)
  : AgentDescription :=
  {| ad_name := opt_agentName o;
     ad_did := d;
     ad_description := opt_agentDescription o;
     ad_version := opt_agentVersion o;
     ad_created := created;
     ad_interfaces :=
       map (fun iface =>
              {| ie_type := "ad:" +:+ InterfaceType_value (if_type iface);
                 ie_url := if truthy (if_url iface)
                           then default "" (if_url iface) else defaultUrl;
                 ie_description := if_description iface |})
           (opt_interfaces o);
     ad_capabilities :=
       [("Natural Language Processing",
         "Process natural language requests and responses");
        ("HTTP Communication", "Communicate via HTTP protocol")];
     ad_supportedProtocols := [("ANP", "1.0", "Agent Network Protocol")] |}.

Section WithCurves.
Variables ed25519 secp256k1 : Curve.

Definition generateDIDAndKeys (domain : string) (port : option N) : M St unit :=
  (let fullDomain :=
     match port with
     | Some p => if (p =? 0)%N then domain else domain +:+ ":" +:+ string_of_N p
     | None => domain
     end in
   let generator :=
     {| ANPKeyGenerator.domain := fullDomain;
        ANPKeyGenerator.path := Some "auto-agent" |} in
   keyType <- this_ (fun c => opt_keyType (options c)) ;;
   keyPair <- in_world (ANPKeyGenerator.generateKeyPair ed25519 secp256k1 generator keyType) ;;
   update (set_autoDid (Some (did keyPair))) ;;;
   update (set_privateKey (Some (private_key keyPair))) ;;;
   update (set_didDocument (Some (did_document keyPair))) ;;;
   match verificationMethod (did_document keyPair) with
   | Some (vm0 :: _) => update (set_publicKey (publicKeyMultibase vm0))
   | _ => ret tt
   end)%js.

Definition configureDIDDocument : M St unit :=
  (doc <- get_object didDocument "DID document not generated yet" ;;
   endpoints <- this_ (fun c => opt_serviceEndpoints (options c)) ;;
   let doc1 :=
     if (0 <? length endpoints)%nat
     then set_service (Some (map entry_of endpoints)) doc
     else doc in
   let doc2 :=
     match service doc1 with
     | Some _ => doc1
     | None => set_service (Some []) doc1
     end in
   let defaultEndpoint := find (fun ep => String.eqb (ep_id ep) "default") endpoints in
   let doc3 :=
     if negb (bool_decide (is_Some defaultEndpoint)) && (length endpoints =? 0)%nat
     then set_service (Some (default [] (service doc2) ++ [default_service])) doc2
     else doc2 in
   update (set_didDocument (Some doc3)))%js.

Definition generateAgentDescription : M St unit :=
  (o <- this_ options ;;
   d <- this_ autoDid ;;
   created <- in_world toISOString_now ;;
   defaultUrl <- getDefaultInterfaceUrl ;;
   update (set_agentDescription (Some (description_of o d created defaultUrl))))%js.

(** The three steps, then [getConfig]. The [catch] logs the error and
    throws it again, so it is the error of the step that failed that
    reaches the caller; the log lines go to the console and are not
    part of the state. *)
Definition autoSetup (domain : string) (port : option N) : M St DIDConfig :=
  try_catchM
    (generateDIDAndKeys domain port ;;;
     configureDIDDocument ;;;
     generateAgentDescription ;;;
     getConfig)%js
    (fun error => throw error).
End WithCurves.

(** *** The methods that change or check a configured instance *)

Definition set_options (v : Options) (c : t) : t :=
  {| options := v; autoDid := autoDid c; privateKey := privateKey c;
     publicKey := publicKey c; didDocument := didDocument c;
     agentDescription_ := agentDescription_ c |}.

(** [this.options.interfaces.push(iface)] *)
Definition push_interface (iface : AgentInterface) (o : Options) : Options :=
  {| opt_autoDID := opt_autoDID o; opt_keyType := opt_keyType o;
     opt_agentName := opt_agentName o;
     opt_agentDescription := opt_agentDescription o;
     opt_agentVersion := opt_agentVersion o;
     opt_interfaces := opt_interfaces o ++ [iface];
     opt_serviceEndpoints := opt_serviceEndpoints o;
     opt_logLevel := opt_logLevel o |}.

(** [this.agentDescription['ad:interfaces'].push(entry)] *)
Definition push_interface_entry (entry : InterfaceEntry) (ad : AgentDescription)
  : AgentDescription :=
  {| ad_name := ad_name ad; ad_did := ad_did ad; ad_description := ad_description ad;
     ad_version := ad_version ad; ad_created := ad_created ad;
     ad_interfaces := ad_interfaces ad ++ [entry];
     ad_capabilities := ad_capabilities ad;
     ad_supportedProtocols := ad_supportedProtocols ad |}.

(** The entry written for an interface, in [generateAgentDescription] and
    in [addInterface]. *)
Definition interface_entry (defaultUrl : string) (iface : AgentInterface) : InterfaceEntry :=
  {| ie_type := "ad:" +:+ InterfaceType_value (if_type iface);
     ie_url := if truthy (if_url iface) then default "" (if_url iface) else defaultUrl;
     ie_description := if_description iface |}.

Definition addInterface (iface : AgentInterface) : M St unit :=
  (update (fun c => set_options (push_interface iface (options c)) c) ;;;
   ad <- this_ agentDescription_ ;;
   match ad with
   | Some ad =>
       defaultUrl <- getDefaultInterfaceUrl ;;
       update (set_agentDescription
                 (Some (push_interface_entry (interface_entry defaultUrl iface) ad)))
   | None => ret tt
   end)%js.

(** The document's ["@context"] is an array, which is never false; the
    id is false when empty; [verificationMethod] is false when missing.
    An exception of [getDIDDocument] is caught (and logged). *)
Definition validateDIDDocument : M St bool :=
  try_catchM
    (doc <- getDIDDocument ;;
     if negb (truthy (Some (doc_id doc)))
        || negb (bool_decide (is_Some (verificationMethod doc)))
     then ret false
     else if negb (String.prefix "did:wba:" (doc_id doc)) then ret false
     else ret true)%js
    (fun error => ret false).

(** What [updateServiceEndpoint] makes of the service entries. *)
Definition upsert (endpoint : ServiceEndpoint) (services : list Service) : list Service :=
  match findIndex (fun s => String.eqb (svc_id s) (ep_id endpoint)) services with
  | Some i => <[i := entry_of endpoint]> services
  | None => services ++ [entry_of endpoint]
  end.

(** The description's interface entries follow the interfaces of the
    options, one for one. *)
Definition interfaces_in_step (c : t) : Prop :=
  match agentDescription_ c with
  | Some ad =>
      Forall2 (fun entry iface =>
                 ie_type entry = "ad:" +:+ InterfaceType_value (if_type iface)
                 /\ ie_description entry = if_description iface
                 /\ (truthy (if_url iface) = true -> Some (ie_url entry) = if_url iface))
              (ad_interfaces ad) (opt_interfaces (options c))
  | None => True
  end.

End DIDAutoConfig.

(** An entry of [authentication], [keyAgreement] or [humanAuthorization]
    resolves in a document when it is the id of a listed verification
    method, or is itself a listed verification method. *)
Definition resolves (doc : DIDDocument) (e : MethodEntry) : Prop :=
  match e with
  | ById id => exists m, m ∈ default [] (verificationMethod doc) /\ vm_id m = id
  | Embedded m => m ∈ default [] (verificationMethod doc)
  end.

(** [pk] is the public key the library derives from [sk]. *)
Definition key_pair (C : Curve) (sk pk : bytes) : Prop := getPublicKey C sk = Ok pk.

(** ** [class AutoConfigAgent] of [auto-config.ts]

    The agent finds a port and an address, makes its DID from them with
    [ANPKeyGenerator], and serves its documents. *)

(** *** JavaScript's view of a JSON value *)

(** [ToBoolean]: what [v || w] tests. *)
Definition ToBoolean (v : json) : bool :=
  match v with
  | JNull => false
  | JBool b => b
  | JNum n => negb (n =? 0)%Z
  | JStr s => negb (String.eqb s "")
  | JArr _ | JObj _ => true
  end.

(** [Array.prototype.map]-like traversal with a function that can
    throw: the first exception ends it. *)
Definition map_result {A B} (f : A -> result B) : list A -> result (list B) :=
  fix go (l : list A) : result (list B) :=
    match l with
    | [] => Ok []
    | a :: l' => (b <-? f a ;; bs <-? go l' ;; Ok (b :: bs))%js
    end.

(** [ToString]: what a template literal writes for a value. An object
    is written "[object Object]" by [Object.prototype.toString], unless it
    has a member named "toString" of its own: a member of a parsed JSON
    text is never a function, the inherited [valueOf] returns the object
    itself, and the conversion throws a TypeError. An array is its
    elements joined by commas, each converted in turn, [null] among them
    written as nothing. *)
Fixpoint ToString (v : json) : result string :=
  match v with
  | JNull => Ok "null"
  | JBool true => Ok "true"
  | JBool false => Ok "false"
  | JNum n => Ok (string_of_Z n)
  | JStr s => Ok s
  | JArr items =>
      (parts <-? map_result
                   (fun item => match item with JNull => Ok "" | _ => ToString item end)
                   items ;;
       Ok (String.concat "," parts))%js
  | JObj members =>
      match assoc "toString" members with
      | Some _ => Throw (Error "Cannot convert object to primitive value")
      | None => Ok "[object Object]"
      end
  end.

(** [v.name] for a value that is not [null]: a member of an object,
    and [undefined] for every other value and for a name its own
    properties do not have. *)
Definition Get (v : json) (name : string) : option json :=
  match v with
  | JObj members => assoc name members
  | _ => None
  end.

(** [a || b] among values that may be [undefined]. *)
Definition or_else (a : option json) (b : option json) : option json :=
  match a with
  | Some v => if ToBoolean v then a else b
  | None => b
  end.

Module AutoConfigAgent.

(** One address of a network interface, as [os.networkInterfaces()]
    lists it. *)
Record NetworkInterfaceInfo : Type := {
  address : string;
  family : string;
  internal : bool
}.

(** What the agent asks of its host: whether a server can listen on a
    port ([net.createServer().listen(port)] calls back, or fails; a port
    is a natural number), the
    port the system hands out for [listen(0)], the network interfaces by
    name in the order [Object.keys] lists them, how [app.listen(port)]
    ends, and how a POST to the discovery service ends ([response.ok],
    or a failure of [fetch]). *)
Record Host : Type := {
  listens : N -> bool;
  assigned : result N;
  networkInterfaces : list (string * list NetworkInterfaceInfo);
  started : N -> result unit;
  posted : string -> result bool
}.

(** [AutoConfigOptions]: every field may be left out. *)
Record AutoConfigOptions : Type := {
  autoStart : option bool;
  autoPort : option bool;
  autoDID : option bool;
  discoveryService : option string;
  portRange : option (N * N);
  agentName : option string;
  interfaces : option (list DIDAutoConfig.AgentInterface);
  logLevel : option DIDAutoConfig.LogLevel
}.

Definition no_options : AutoConfigOptions :=
  {| autoStart := None; autoPort := None; autoDID := None; discoveryService := None;
     portRange := None; agentName := None; interfaces := None; logLevel := None |}.

(** [Required<AutoConfigOptions>] *)
Record Options : Type := {
  opt_autoStart : bool;
  opt_autoPort : bool;
  opt_autoDID : bool;
  opt_discoveryService : string;
  opt_portRange : N * N;
  opt_agentName : string;
  opt_interfaces : list DIDAutoConfig.AgentInterface;
  opt_logLevel : DIDAutoConfig.LogLevel
}.

(** The description the agent writes; its ["@context"] and ["@type"]
    are constants and are left out. *)
Record Description : Type := {
  ad_name : string;
  ad_did : option string;
  ad_description : string;
  ad_version : string;
  ad_created : string;
  ad_interfaces : list DIDAutoConfig.InterfaceEntry
}.

Record AgentConfig : Type := {
  cfg_did : string;
  cfg_port : N;
  cfg_endpoint : string;
  cfg_localIP : string;
  cfg_privateKey : string;
  cfg_didDocument : option DIDDocument;
  cfg_agentDescription : option Description
}.

(** A route of the Express application: the method and the path. *)
Definition Route : Type := (string * string)%type.

(** The fields of the instance. [app] holds the routes registered so
    far, [server] whether a server object has been stored. *)
Record t : Type := {
  options : Options;
  autoPort_ : option N;
  autoDid : option string;
  autoDescription : option Description;
  privateKey : option string;
  localIP : option string;
  server : bool;
  app : option (list Route);
  isRunning : bool;
  didDocument : option DIDDocument
}.

Definition constructor (o : AutoConfigOptions) : t :=
  {| options :=
       {| opt_autoStart := default true (autoStart o);
          opt_autoPort := default true (autoPort o);
          opt_autoDID := default true (autoDID o);
          opt_discoveryService := default "" (discoveryService o);
          opt_portRange := default (3000, 4000)%N (portRange o);
          opt_agentName := default "Auto-Configured ANP Agent" (agentName o);
          opt_interfaces :=
            default [{| DIDAutoConfig.if_type := DIDAutoConfig.NaturalLanguageInterface;
                        DIDAutoConfig.if_description :=
                          "Auto-configured natural language interface";
                        DIDAutoConfig.if_url := None |}] (interfaces o);
          opt_logLevel := default DIDAutoConfig.info (logLevel o) |};
     autoPort_ := None;
     autoDid := None;
     autoDescription := None;
     privateKey := None;
     localIP := None;
     server := false;
     app := None;
     isRunning := false;
     didDocument := None |}.

Definition St : Type := (t * World)%type.

Definition this_ {A} (f : t -> A) : M St A := gets (fun s => f (fst s)).
Definition update (f : t -> t) : M St unit := modify (fun s => (f (fst s), snd s)).
Definition in_world {A} (m : M World A) : M St A :=
  fun s => let '(r, w) := m (snd s) in (r, (fst s, w)).

Definition set_autoPort v (c : t) : t :=
  {| options := options c; autoPort_ := v; autoDid := autoDid c;
     autoDescription := autoDescription c; privateKey := privateKey c;
     localIP := localIP c; server := server c; app := app c;
     isRunning := isRunning c; didDocument := didDocument c |}.
Definition set_autoDid v (c : t) : t :=
  {| options := options c; autoPort_ := autoPort_ c; autoDid := v;
     autoDescription := autoDescription c; privateKey := privateKey c;
     localIP := localIP c; server := server c; app := app c;
     isRunning := isRunning c; didDocument := didDocument c |}.
Definition set_autoDescription v (c : t) : t :=
  {| options := options c; autoPort_ := autoPort_ c; autoDid := autoDid c;
     autoDescription := v; privateKey := privateKey c;
     localIP := localIP c; server := server c; app := app c;
     isRunning := isRunning c; didDocument := didDocument c |}.
Definition set_privateKey v (c : t) : t :=
  {| options := options c; autoPort_ := autoPort_ c; autoDid := autoDid c;
     autoDescription := autoDescription c; privateKey := v;
     localIP := localIP c; server := server c; app := app c;
     isRunning := isRunning c; didDocument := didDocument c |}.
Definition set_localIP v (c : t) : t :=
  {| options := options c; autoPort_ := autoPort_ c; autoDid := autoDid c;
     autoDescription := autoDescription c; privateKey := privateKey c;
     localIP := v; server := server c; app := app c;
     isRunning := isRunning c; didDocument := didDocument c |}.
Definition set_server v (c : t) : t :=
  {| options := options c; autoPort_ := autoPort_ c; autoDid := autoDid c;
     autoDescription := autoDescription c; privateKey := privateKey c;
     localIP := localIP c; server := v; app := app c;
     isRunning := isRunning c; didDocument := didDocument c |}.
Definition set_app v (c : t) : t :=
  {| options := options c; autoPort_ := autoPort_ c; autoDid := autoDid c;
     autoDescription := autoDescription c; privateKey := privateKey c;
     localIP := localIP c; server := server c; app := v;
     isRunning := isRunning c; didDocument := didDocument c |}.
Definition set_isRunning v (c : t) : t :=
  {| options := options c; autoPort_ := autoPort_ c; autoDid := autoDid c;
     autoDescription := autoDescription c; privateKey := privateKey c;
     localIP := localIP c; server := server c; app := app c;
     isRunning := v; didDocument := didDocument c |}.
Definition set_didDocument v (c : t) : t :=
  {| options := options c; autoPort_ := autoPort_ c; autoDid := autoDid c;
     autoDescription := autoDescription c; privateKey := privateKey c;
     localIP := localIP c; server := server c; app := app c;
     isRunning := isRunning c; didDocument := v |}.

(** [service.serviceEndpoint = url] *)
Definition set_serviceEndpoint (url : string) (s : Service) : Service :=
  {| svc_id := svc_id s; svc_type := svc_type s; serviceEndpoint := url;
     svc_description := svc_description s |}.

(** What a template literal writes for the two fields: their value, or
    [null] while they are not set. *)
Definition show_string (v : option string) : string := default "null" v.
Definition show_port (v : option N) : string := from_option string_of_N "null" v.

(** A port is false when it is missing or 0. *)
Definition port_truthy (v : option N) : bool :=
  match v with
  | Some p => negb (p =? 0)%N
  | None => false
  end.

(** [alias.family === 'IPv4' && !alias.internal] *)
Definition external (alias : NetworkInterfaceInfo) : bool :=
  String.eqb (family alias) "IPv4" && negb (internal alias).

(** The inner loop: the first such address of an interface. *)
Fixpoint first_external (iface : list NetworkInterfaceInfo) : option string :=
  match iface with
  | [] => None
  | alias :: rest =>
      if external alias then Some (address alias) else first_external rest
  end.

Fixpoint scan_interfaces (interfaces : list (string * list NetworkInterfaceInfo))
  : string :=
  match interfaces with
  | [] => "127.0.0.1"
  | (name, iface) :: rest =>
      match first_external iface with
      | Some address => address
      | None => scan_interfaces rest
      end
  end.

Record ANPResponse : Type := {
  response : string;
  timestamp : string;
  resp_did : option string
}.

(** A request as the handler sees it: its headers, and its body, which
    is missing when no body was parsed. *)
Record Request : Type := {
  headers : list (string * string);
  body : option json
}.

(** What the handler sends: the status, and the response or the
    [error] text. *)
Inductive Reply : Type :=
| Json (status : N) (answer : ANPResponse)
| Failure (status : N) (error : string).

Definition status_of (r : Reply) : N :=
  match r with
  | Json status _ | Failure status _ => status
  end.

Section WithHost.
Variable host : Host.
Variables ed25519 secp256k1 : Curve.

(** [net.createServer().listen(port)]: a port above 65535 is refused
    on the spot, with an exception that fails the probe; otherwise the
    probe answers whether the server came to listen. *)
Definition isPortAvailable (port : N) : result bool :=
  if (65535 <? port)%N
  then Throw (Error ("options.port should be >= 0 and < 65536. Received type number ("
                     +:+ string_of_N port +:+ ")."))
  else Ok (listens host port).

(** The loop [for (port = startPort; port <= endPort; port++)] with
    [n] ports left to try, and after it the port the system assigns. *)
Fixpoint probe (n : nat) (port : N) : result N :=
  match n with
  | O => assigned host
  | S n' =>
      (available <-? isPortAvailable port ;;
       if available then Ok port else probe n' (port + 1)%N)%js
  end.

Definition findAvailablePort : M St N :=
  (range <- this_ (fun c => opt_portRange (options c)) ;;
   let '(startPort, endPort) := range in
   lift_result (probe (N.to_nat (endPort + 1 - startPort)) startPort))%js.

Definition getLocalIP : M St string :=
  ret (scan_interfaces (networkInterfaces host)).

Definition getEndpoint : M St string :=
  (ip <- this_ localIP ;;
   port <- this_ autoPort_ ;;
   if negb (truthy ip) || negb (port_truthy port)
   then throw (Error "Agent not configured yet. Call autoSetup() first.")
   else ret ("http://" +:+ show_string ip +:+ ":" +:+ show_port port +:+ "/anp/api"))%js.

Definition getConfig : M St AgentConfig :=
  (c <- this_ id ;;
   if negb (truthy (autoDid c)) || negb (port_truthy (autoPort_ c))
      || negb (truthy (localIP c)) || negb (truthy (privateKey c))
   then throw (Error "Agent not configured yet. Call autoSetup() first.")
   else
     endpoint <- getEndpoint ;;
     ret {| cfg_did := default "" (autoDid c);
            cfg_port := default 0%N (autoPort_ c);
            cfg_endpoint := endpoint;
            cfg_localIP := default "" (localIP c);
            cfg_privateKey := default "" (privateKey c);
            cfg_didDocument := didDocument c;
            cfg_agentDescription := autoDescription c |})%js.

Definition generateDIDAndKeys : M St unit :=
  (ip <- this_ localIP ;;
   port <- this_ autoPort_ ;;
   let domain := show_string ip +:+ ":" +:+ show_port port in
   let generator :=
     {| ANPKeyGenerator.domain := domain;
        ANPKeyGenerator.path := Some "auto-agent" |} in
   keyPair <- in_world (ANPKeyGenerator.generateKeyPair ed25519 secp256k1 generator ED25519) ;;
   update (set_autoDid (Some (did keyPair))) ;;;
   update (set_privateKey (Some (private_key keyPair))) ;;;
   let url := "http://" +:+ show_string ip +:+ ":" +:+ show_port port +:+ "/anp/api" in
   let doc := did_document keyPair in
   update (set_didDocument
             (Some match service doc with
                   | Some (s0 :: rest) =>
                       DIDAutoConfig.set_service
                         (Some (set_serviceEndpoint url s0 :: rest)) doc
                   | _ => doc
                   end)) ;;;
   o <- this_ options ;;
   d <- this_ autoDid ;;
   created <- in_world toISOString_now ;;
   update (set_autoDescription
             (Some {| ad_name := opt_agentName o;
                      ad_did := d;
                      ad_description := "Automatically configured ANP agent via SDK";
                      ad_version := "1.0.0";
                      ad_created := created;
                      ad_interfaces :=
                        map (fun iface =>
                               {| DIDAutoConfig.ie_type :=
                                    "ad:" +:+ DIDAutoConfig.InterfaceType_value
                                                (DIDAutoConfig.if_type iface);
                                  DIDAutoConfig.ie_url :=
                                    if truthy (DIDAutoConfig.if_url iface)
                                    then default "" (DIDAutoConfig.if_url iface)
                                    else url;
                                  DIDAutoConfig.ie_description :=
                                    DIDAutoConfig.if_description iface |})
                            (opt_interfaces o) |})))%js.

(** [this.app = express()], then [listen] on the port found. *)
Definition startHTTPServer : M St unit :=
  (update (set_app (Some [])) ;;;
   port <- this_ autoPort_ ;;
   update (set_server true) ;;;
   lift_result (started host (default 0%N port)))%js.

Definition setupRoutes : M St unit :=
  (a <- this_ app ;;
   match a with
   | None => throw (Error "HTTP server not started")
   | Some routes =>
       update (set_app (Some (routes ++ [("GET", "/.well-known/did.json");
                                         ("GET", "/agents/auto-agent/ad.json");
                                         ("POST", "/anp/api");
                                         ("GET", "/health");
                                         ("GET", "/config")])))
   end)%js.

(** Nothing is posted without a discovery service; a failure of the
    request, or of [getEndpoint] for its body, is caught and logged. *)
Definition registerToDiscovery : M St unit :=
  (discoveryService <- this_ (fun c => opt_discoveryService (options c)) ;;
   if negb (truthy (Some discoveryService)) then ret tt
   else
     try_catchM
       (endpoint <- getEndpoint ;;
        ok <- lift_result (posted host discoveryService) ;;
        ret tt)
       (fun error => ret tt))%js.

Definition autoSetup : M St AgentConfig :=
  try_catchM
    (port <- findAvailablePort ;;
     update (set_autoPort (Some port)) ;;;
     ip <- getLocalIP ;;
     update (set_localIP (Some ip)) ;;;
     generateDIDAndKeys ;;;
     autoStart <- this_ (fun c => opt_autoStart (options c)) ;;
     (if autoStart
      then startHTTPServer ;;; setupRoutes ;;; registerToDiscovery
      else ret tt) ;;;
     update (set_isRunning true) ;;;
     getConfig)%js
    (fun error => throw error).

Definition verifyRequest (req : Request) : M St bool := ret true.

(** [message.content || message.message || 'Hello'], written into the
    answer. Reading a property of a missing or [null] body throws, and so
    does writing a value that has no string form. *)
Definition processMessage (message : option json) : M St ANPResponse :=
  match message with
  | None => throw (Error "Cannot read properties of undefined (reading 'content')")
  | Some JNull => throw (Error "Cannot read properties of null (reading 'content')")
  | Some m =>
      (let text := or_else (or_else (Get m "content") (Get m "message"))
                     (Some (JStr "Hello")) in
       written <- lift_result (from_option ToString (Ok "undefined") text) ;;
       now <- in_world toISOString_now ;;
       d <- this_ autoDid ;;
       ret {| response := "收到消息: " +:+ written;
              timestamp := now;
              resp_did := d |})%js
  end.

Definition handleANPRequest (req : Request) : M St Reply :=
  try_catchM
    (isValid <- verifyRequest req ;;
     if negb isValid then ret (Failure 401 "Invalid signature")
     else
       answer <- processMessage (body req) ;;
       ret (Json 200 answer))%js
    (fun error => ret (Failure 500 "Internal server error")).

End WithHost.

(** [stop]: with a server stored, [close] calls back and the agent is
    marked stopped; without one nothing happens. The server stays
    stored. *)
Definition stop : M St unit :=
  (s <- this_ server ;;
   if s then update (set_isRunning false) else ret tt)%js.

Definition isAgentRunning : M St bool := this_ isRunning.

End AutoConfigAgent.

(** ** [class ANPSDK] of [auto-config.ts] *)

Module ANPSDK.

Record t : Type := {
  options : AutoConfigAgent.AutoConfigOptions;
  agent : option AutoConfigAgent.t;
  isRunning : bool
}.

Definition constructor (o : AutoConfigAgent.AutoConfigOptions) : t :=
  {| options := o; agent := None; isRunning := false |}.

Definition St : Type := (t * World)%type.

Definition set_agent v (k : t) : t :=
  {| options := options k; agent := v; isRunning := isRunning k |}.
Definition set_isRunning v (k : t) : t :=
  {| options := options k; agent := agent k; isRunning := v |}.

(** A method of the agent, run on the agent the SDK holds: what it
    does to the agent is seen through [this.agent]. *)
Definition on_agent {A} (a : AutoConfigAgent.t) (m : M AutoConfigAgent.St A) : M St A :=
  fun s =>
    let '(r, (a', w')) := m (a, snd s) in
    (r, (set_agent (Some a') (fst s), w')).

Section WithHost.
Variable host : AutoConfigAgent.Host.
Variables ed25519 secp256k1 : Curve.

(** The returned object is the agent's configuration with a [stop]
    function beside it. *)
Definition start : M St AutoConfigAgent.AgentConfig :=
  (running <- gets (fun s => isRunning (fst s)) ;;
   if running then throw (Error "Agent is already running")
   else
     o <- gets (fun s => options (fst s)) ;;
     config <- on_agent (AutoConfigAgent.constructor o)
                 (AutoConfigAgent.autoSetup host ed25519 secp256k1) ;;
     modify (fun s => (set_isRunning true (fst s), snd s)) ;;;
     ret config)%js.

End WithHost.

Definition stop : M St unit :=
  (a <- gets (fun s => agent (fst s)) ;;
   match a with
   | Some a =>
       on_agent a AutoConfigAgent.stop ;;;
       modify (fun s => (set_isRunning false (set_agent None (fst s)), snd s))
   | None => ret tt
   end)%js.

Definition isAgentRunning : M St bool := gets (fun s => isRunning (fst s)).

End ANPSDK.

(** The key-agreement entry as the specification words it: a
    reference, by id, to the key-agreement method. *)
Definition keyAgreement_referenced (doc : DIDDocument) : Prop :=
  exists id, keyAgreement doc = Some [ById id].

(** ** Reading a canonical payload back

    A reader for the text [jcsCanonicalize] writes for a [SignatureData]:
    it is used to show that two payloads with the same canonical text are
    the same payload. *)
Definition hex_value (c : ascii) : option nat :=
  let n := nat_of_ascii c in
  if ((48 <=? n) && (n <=? 57))%nat then Some (n - 48)
  else if ((97 <=? n) && (n <=? 102))%nat then Some (n - 87)
  else None.

Definition unescape (c : ascii) : option ascii :=
  if Ascii.eqb c "b" then Some "008"%char
  else if Ascii.eqb c "t" then Some "009"%char
  else if Ascii.eqb c "n" then Some "010"%char
  else if Ascii.eqb c "f" then Some "012"%char
  else if Ascii.eqb c "r" then Some "013"%char
  else if Ascii.eqb c dquote then Some dquote
  else if Ascii.eqb c backslash then Some backslash
  else None.

(** Reads the body of a quoted string up to its closing quote, and gives
    the string and what follows the quote. *)
Fixpoint read_quoted (s : string) : option (string * string) :=
  match s with
  | EmptyString => None
  | String c r =>
      if Ascii.eqb c dquote then Some ("", r)
      else if Ascii.eqb c backslash then
        match r with
        | String e r1 =>
            if Ascii.eqb e "u" then
              match r1 with
              | String _ (String _ (String h1 (String h0 r2))) =>
                  match hex_value h1, hex_value h0, read_quoted r2 with
                  | Some a, Some b, Some (t, rest) =>
                      Some (String (ascii_of_nat (16 * a + b)) t, rest)
                  | _, _, _ => None
                  end
              | _ => None
              end
            else
              match unescape e, read_quoted r1 with
              | Some c', Some (t, rest) => Some (String c' t, rest)
              | _, _ => None
              end
        | EmptyString => None
        end
      else
        match read_quoted r with
        | Some (t, rest) => Some (String c t, rest)
        | None => None
        end
  end.

Fixpoint string_drop (n : nat) (s : string) : string :=
  match n, s with
  | S n', String _ s' => string_drop n' s'
  | _, _ => s
  end.

(** The four values are read in the order the canonical text has them:
    did, nonce, service, timestamp; the punctuation and the names between
    them are skipped by length. *)
Definition read_SignatureData (text : string) : option SignatureData :=
  '(did, r1) ← read_quoted (string_drop 8 text);
  '(nonce, r2) ← read_quoted (string_drop 10 r1);
  '(service, r3) ← read_quoted (string_drop 12 r2);
  '(timestamp, _) ← read_quoted (string_drop 14 r3);
  Some {| sd_nonce := nonce; sd_timestamp := timestamp;
          sd_service := service; sd_did := did |}.

(** ** The contract of signing and verifying *)

(** What is asked of a curve library: for a private key it accepts, it
    signs every message and accepts its own signature under the matching
    public key. *)
Definition curve_complete (C : Curve) : Prop :=
  forall sk pk msg,
    getPublicKey C sk = Ok pk ->
    exists sig, sign C msg sk = Ok sig /\ verify C sig msg pk = Ok true.

(** A library that accepts nothing but the signatures it makes: what
    it accepts for a message, under the public key of a private key, is
    the signature that private key gives the message. *)
Definition curve_exact (C : Curve) : Prop :=
  forall sk pk msg sig,
    getPublicKey C sk = Ok pk ->
    verify C sig msg pk = Ok true ->
    sign C msg sk = Ok sig.

(** A library whose signatures tell messages apart: one private key
    gives two different messages two different signatures. *)
Definition sign_injective (C : Curve) : Prop :=
  forall sk msg msg' sig,
    sign C msg sk = Ok sig -> sign C msg' sk = Ok sig -> msg = msg'.

(** The round-trip contract as the specification words it, for one
    algorithm: the signature of a payload verifies under the matching
    public key, and nothing else does: no other payload with this
    signature, no other signature string with this payload. *)
Definition roundtrip_contract
    (signWith : bytes -> json -> result string)
    (verifyWith : bytes -> string -> json -> result bool) (C : Curve) : Prop :=
  forall sk pk d s,
    getPublicKey C sk = Ok pk ->
    signWith sk (json_of_SignatureData d) = Ok s ->
    verifyWith pk s (json_of_SignatureData d) = Ok true
    /\ (forall d', d' <> d -> verifyWith pk s (json_of_SignatureData d') = Ok false)
    /\ (forall s', s' <> s -> verifyWith pk s' (json_of_SignatureData d) = Ok false).

(** ** An instance to run the definitions on

    Stand-ins for the curve libraries with the same interface: a private
    key is 32 random octets, the public key is derived from it octet by
    octet, and a signature is the public key followed by the message, so
    the instance accepts exactly the signatures it makes. It is there so
    that the statements below can be evaluated; it protects nothing. *)
Definition bytes_eqb (a b : bytes) : bool := bool_decide (a = b).

Definition demo_curve (derive : bytes -> bytes) (publicLength : nat) : Curve :=
  {| randomPrivateKey := randomBytes 32;
     getPublicKey := fun sk =>
       if (length sk =? 32)%nat then Ok (derive sk)
       else Throw (Error "Expected 32 bytes of private key");
     sign := fun msg sk =>
       if (length sk =? 32)%nat then Ok (derive sk ++ msg)
       else Throw (Error "Expected 32 bytes of private key");
     verify := fun sig msg pk =>
       if (length pk =? publicLength)%nat then Ok (bytes_eqb sig (pk ++ msg))
       else Throw (Error "Invalid public key") |}.

Definition demo_ed25519 : Curve := demo_curve (@rev byte) 32.
Definition demo_secp256k1 : Curve :=
  demo_curve (fun sk => "004"%char :: rev sk ++ sk) 65.

(** A world whose random octets count up from 1. *)
Definition demo_world : World :=
  {| entropy := fun i => ascii_of_nat (S i);
     consumed := 0;
     clock := "2024-01-01T00:00:00.000Z" |}.

Definition example_payload : list (string * json) :=
  [("nonce", JStr "n1"); ("timestamp", JStr "2024-01-01T00:00:00.000Z");
   ("service", JStr "example.com"); ("did", JStr "did:wba:example.com")].

Definition example_data : SignatureData :=
  {| sd_nonce := "n1"; sd_timestamp := "2024-01-01T00:00:00.000Z";
     sd_service := "example.com"; sd_did := "did:wba:example.com" |}.

Definition example_private_key : bytes := map ascii_of_nat (seq 1 32).

(** The example payload with another nonce. *)
Definition other_data : SignatureData :=
  {| sd_nonce := "n2"; sd_timestamp := "2024-01-01T00:00:00.000Z";
     sd_service := "example.com"; sd_did := "did:wba:example.com" |}.

Definition example_generator : ANPKeyGenerator.t :=
  {| ANPKeyGenerator.domain := "example.com";
     ANPKeyGenerator.path := Some "user:alice" |}.

Definition empty_path_generator : ANPKeyGenerator.t :=
  {| ANPKeyGenerator.domain := "example.com";
     ANPKeyGenerator.path := Some "" |}.

Definition example_endpoint : DIDAutoConfig.ServiceEndpoint :=
  {| DIDAutoConfig.ep_id := "default";
     DIDAutoConfig.ep_type := "ANPAgentService";
     DIDAutoConfig.ep_serviceEndpoint := "https://example.com/anp/api";
     DIDAutoConfig.ep_description := None |}.

Definition other_endpoint : DIDAutoConfig.ServiceEndpoint :=
  {| DIDAutoConfig.ep_id := "chat";
     DIDAutoConfig.ep_type := "ANPAgentService";
     DIDAutoConfig.ep_serviceEndpoint := "https://example.com/chat";
     DIDAutoConfig.ep_description := Some "Chat" |}.

(** Options that configure the two endpoints. *)
Definition example_options : DIDAutoConfig.DIDAutoConfigOptions :=
  {| DIDAutoConfig.autoDID := None; DIDAutoConfig.keyType := None;
     DIDAutoConfig.agentName := None; DIDAutoConfig.agentDescription := None;
     DIDAutoConfig.agentVersion := None; DIDAutoConfig.interfaces := None;
     DIDAutoConfig.serviceEndpoints := Some [example_endpoint; other_endpoint];
     DIDAutoConfig.logLevel := None |}.

(** An instance that holds a document with the two service entries a
    setup without endpoints leaves. *)
Definition example_instance : DIDAutoConfig.t :=
  {| DIDAutoConfig.options :=
       DIDAutoConfig.options (DIDAutoConfig.constructor DIDAutoConfig.no_options);
     DIDAutoConfig.autoDid := Some "did:wba:example.com:user:alice";
     DIDAutoConfig.privateKey := None;
     DIDAutoConfig.publicKey := None;
     DIDAutoConfig.didDocument :=
       Some {| context := ANPKeyGenerator.contexts;
               doc_id := "did:wba:example.com:user:alice";
               verificationMethod := Some [];
               authentication := [];
               keyAgreement := Some [];
               humanAuthorization := Some [];
               service :=
                 Some [{| svc_id := "did:wba:example.com:user:alice#agent-description";
                          svc_type := "AgentDescription";
                          serviceEndpoint :=
                            "https://example.com/agents/user:alice/ad.json";
                          svc_description := None |};
                       DIDAutoConfig.default_service] |};
     DIDAutoConfig.agentDescription_ := None |}.

(** The state [autoSetup] leaves, on the stand-in libraries, from a new
    instance with the default options. *)
Definition example_state : DIDAutoConfig.St :=
  snd (DIDAutoConfig.autoSetup demo_ed25519 demo_secp256k1 "localhost" (Some 3000%N)
         (DIDAutoConfig.constructor DIDAutoConfig.no_options, demo_world)).

(** A host with a loopback interface and one network card, whose
    ports below 3002 are taken. *)
Definition demo_host : AutoConfigAgent.Host :=
  {| AutoConfigAgent.listens := fun p => (3002 <=? p)%N;
     AutoConfigAgent.assigned := Ok 49152%N;
     AutoConfigAgent.networkInterfaces :=
       [("lo", [{| AutoConfigAgent.address := "127.0.0.1";
                   AutoConfigAgent.family := "IPv4";
                   AutoConfigAgent.internal := true |}]);
        ("eth0", [{| AutoConfigAgent.address := "fe80::1";
                     AutoConfigAgent.family := "IPv6";
                     AutoConfigAgent.internal := false |};
                  {| AutoConfigAgent.address := "192.168.1.5";
                     AutoConfigAgent.family := "IPv4";
                     AutoConfigAgent.internal := false |}])];
     AutoConfigAgent.started := fun _ => Ok tt;
     AutoConfigAgent.posted := fun _ => Ok true |}.

(** A host on which every port is free. *)
Definition idle_host : AutoConfigAgent.Host :=
  {| AutoConfigAgent.listens := fun _ => true;
     AutoConfigAgent.assigned := Ok 49152%N;
     AutoConfigAgent.networkInterfaces := [];
     AutoConfigAgent.started := fun _ => Ok tt;
     AutoConfigAgent.posted := fun _ => Ok true |}.

Definition from_port_zero : AutoConfigAgent.AutoConfigOptions :=
  {| AutoConfigAgent.autoStart := None; AutoConfigAgent.autoPort := None;
     AutoConfigAgent.autoDID := None; AutoConfigAgent.discoveryService := None;
     AutoConfigAgent.portRange := Some (0, 100)%N; AutoConfigAgent.agentName := None;
     AutoConfigAgent.interfaces := None; AutoConfigAgent.logLevel := None |}.

(** * Properties

    ** Base64 *)

Lemma unbase64_alphabet_char (s : sextet) :
  unbase64 (alphabet_char base64url_alphabet s) = Some s.
Proof. by destruct s as [[[[[[] []] []] []] []] []]. Qed.

Lemma alphabet_char_not_pad (s : sextet) :
  Ascii.eqb (alphabet_char base64url_alphabet s) "="%char = false.
Proof. by destruct s as [[[[[[] []] []] []] []] []]. Qed.

Lemma sextets_of_string_chars (l : list sextet) (rest : string) :
  sextets_of_string
    (string_of_list (map (alphabet_char base64url_alphabet) l) +:+ rest)
  = l ++ sextets_of_string rest.
Proof.
  induction l as [|s l IH]; [done|].
  cbn [map string_of_list String.append sextets_of_string].
  rewrite alphabet_char_not_pad, unbase64_alphabet_char, IH. done.
Qed.

Lemma bytes_of_sextets_of_bytes (bs : bytes) :
  bytes_of_sextets (sextets_of_bytes bs) = bs.
Proof.
  assert (H : forall n (l : bytes), length l <= n ->
            bytes_of_sextets (sextets_of_bytes l) = l).
  { induction n as [|n IH]; intros l Hl.
    - destruct l; [done | simpl in Hl; lia].
    - destruct l as [|[a0 a1 a2 a3 a4 a5 a6 a7] [|[b0 b1 b2 b3 b4 b5 b6 b7]
        [|[c0 c1 c2 c3 c4 c5 c6 c7] rest]]]; try done.
      cbn [sextets_of_bytes bytes_of_sextets].
      rewrite IH; [done | simpl in Hl; lia]. }
  by apply (H (length bs)).
Qed.

Lemma append_empty_r (s : string) : s +:+ "" = s.
Proof. induction s; simpl; congruence. Qed.

Theorem base64url_decode_encode (bs : bytes) :
  base64url_decode (base64url_encode bs) = bs.
Proof.
  unfold base64url_decode, base64url_encode.
  rewrite <- (append_empty_r (string_of_list _)), sextets_of_string_chars.
  simpl. rewrite app_nil_r. apply bytes_of_sextets_of_bytes.
Qed.

Lemma sextets_of_string_pad (s rest : string) :
  sextets_of_string (s +:+ String "="%char rest) = sextets_of_string s.
Proof.
  induction s as [|c s IH]; [done|].
  cbn [String.append sextets_of_string].
  destruct (Ascii.eqb c "="); [done|]. by rewrite IH.
Qed.

(** ** The order of [Array.prototype.sort] *)

Lemma ascii_compare_trans (a b c : ascii) :
  Ascii.compare a b = Lt -> Ascii.compare b c = Lt -> Ascii.compare a c = Lt.
Proof. unfold Ascii.compare. rewrite !N.compare_lt_iff. lia. Qed.

Lemma string_compare_refl (s : string) : String.compare s s = Eq.
Proof.
  induction s as [|c s IH]; [done|]. simpl.
  unfold Ascii.compare. by rewrite N.compare_refl.
Qed.

Lemma string_compare_lt_trans (s1 s2 s3 : string) :
  String.compare s1 s2 = Lt -> String.compare s2 s3 = Lt ->
  String.compare s1 s3 = Lt.
Proof.
  revert s2 s3. induction s1 as [|a s1 IH]; intros [|b s2] [|c s3]; simpl; try done.
  destruct (Ascii.compare a b) eqn:Hab; try done.
  - apply Ascii.compare_eq_iff in Hab as ->.
    destruct (Ascii.compare b c); try done. apply IH.
  - intros _. destruct (Ascii.compare b c) eqn:Hbc; try done.
    + apply Ascii.compare_eq_iff in Hbc as <-. by rewrite Hab.
    + by rewrite (ascii_compare_trans a b c).
Qed.

#[global] Instance code_unit_le_total : Total code_unit_le.
Proof. intros s1 s2. apply String.leb_total. Qed.

#[global] Instance code_unit_le_antisym : AntiSymm (=) code_unit_le.
Proof. intros s1 s2. apply String.leb_antisym. Qed.

#[global] Instance code_unit_le_trans : Transitive code_unit_le.
Proof.
  intros s1 s2 s3. unfold code_unit_le, String.leb.
  destruct (String.compare s1 s2) eqn:H12; try done; intros _.
  - by apply String.compare_eq_iff in H12 as ->.
  - destruct (String.compare s2 s3) eqn:H23; try done; intros _.
    + apply String.compare_eq_iff in H23 as <-. by rewrite H12.
    + by rewrite (string_compare_lt_trans s1 s2 s3).
Qed.

Lemma Array_sort_sorted (l : list string) : Sorted code_unit_le (Array_sort l).
Proof. apply Sorted_merge_sort, _. Qed.

Lemma Array_sort_perm (l : list string) : Array_sort l ≡ₚ l.
Proof. apply merge_sort_Permutation. Qed.

(** The sorted list depends on the strings only, not on the order they
    come in. *)
Lemma Array_sort_order_independent (l1 l2 : list string) :
  l1 ≡ₚ l2 -> Array_sort l1 = Array_sort l2.
Proof.
  intros H. apply (Sorted_unique code_unit_le); try apply Array_sort_sorted.
  by rewrite !Array_sort_perm.
Qed.

(** ** [JSON.stringify] *)

Lemma json_ind' (P : json -> Prop) :
  P JNull -> (forall b, P (JBool b)) -> (forall n, P (JNum n)) ->
  (forall s, P (JStr s)) ->
  (forall items, Forall P items -> P (JArr items)) ->
  (forall members, Forall (fun m => P (snd m)) members -> P (JObj members)) ->
  forall v, P v.
Proof.
  intros Hnull Hbool Hnum Hstr Harr Hobj. fix IH 1. intros [| | | |items|members].
  - exact Hnull.
  - apply Hbool.
  - apply Hnum.
  - apply Hstr.
  - apply Harr. induction items as [|v items IHitems]; constructor; [apply IH | exact IHitems].
  - apply Hobj. induction members as [|[k v] members IHm]; constructor;
      [apply IH | exact IHm].
Qed.

Section Assoc.
Context {A : Type}.
Implicit Types (l : list (string * A)) (k : string).

Lemma assoc_Some_elem_of l k a : assoc k l = Some a -> (k, a) ∈ l.
Proof.
  induction l as [|[k' a'] l IH]; [done|]. simpl.
  destruct (String.eqb_spec k k') as [->|_].
  - intros [= ->]. left.
  - intros H. right. by apply IH.
Qed.

Lemma assoc_None l k : assoc k l = None <-> k ∉ map fst l.
Proof.
  induction l as [|[k' a'] l IH]; simpl.
  - split; [intros _; apply not_elem_of_nil | done].
  - rewrite not_elem_of_cons. destruct (String.eqb_spec k k') as [->|Hne].
    + split; [done | intros [? _]; done].
    + rewrite IH. tauto.
Qed.

Lemma elem_of_assoc l k a :
  NoDup (map fst l) -> (k, a) ∈ l -> assoc k l = Some a.
Proof.
  induction l as [|[k' a'] l IH]; [by intros _ ?%elem_of_nil|].
  simpl. intros [Hk' Hnd]%NoDup_cons [[= -> ->]|Hin]%elem_of_cons.
  - by rewrite String.eqb_refl.
  - destruct (String.eqb_spec k k') as [->|_]; [|by apply IH].
    destruct Hk'. by apply (list_elem_of_fmap_2 fst _ _ Hin).
Qed.

Lemma assoc_perm l1 l2 k :
  NoDup (map fst l1) -> l1 ≡ₚ l2 -> assoc k l1 = assoc k l2.
Proof.
  intros Hnd Hp.
  assert (Hnd2 : NoDup (map fst l2)) by (by rewrite <- Hp).
  destruct (assoc k l1) as [a|] eqn:H1.
  - symmetry. apply elem_of_assoc; [done|]. rewrite <- Hp.
    by apply assoc_Some_elem_of.
  - symmetry. apply assoc_None. rewrite <- Hp. by apply assoc_None.
Qed.

Lemma assoc_map {B} (f : string -> A -> B) l k :
  assoc k (map (fun m => let '(k', a) := m in (k', f k' a)) l) = f k <$> assoc k l.
Proof.
  induction l as [|[k' a'] l IH]; [done|]. simpl.
  destruct (String.eqb_spec k k') as [->|_]; [done | apply IH].
Qed.
End Assoc.

(** What [SerializeJSONProperty] writes for an object. *)
Lemma SerializeJSONProperty_object (K : list string) (members : list (string * json)) :
  SerializeJSONProperty (Some K) (JObj members)
  = "{" +:+ String.concat ","
              (omap (fun P => v ← assoc P members;
                              Some (QuoteJSONString P +:+ ":"
                                    +:+ SerializeJSONProperty (Some K) v)) K)
        +:+ "}".
Proof.
  cbn [SerializeJSONProperty]. do 3 f_equal.
  apply list_omap_ext, Forall2_same_length_lookup; split; [done|].
  intros i P P' HP HP'. assert (P' = P) as -> by congruence.
  rewrite (assoc_map (fun k v => QuoteJSONString k +:+ ":"
                                 +:+ SerializeJSONProperty (Some K) v)).
  by destruct (assoc P members).
Qed.

Lemma SerializeJSONProperty_object_free (K : option (list string)) (v : json) :
  object_free v = true ->
  SerializeJSONProperty K v = SerializeJSONProperty None v.
Proof.
  induction v as [| | | |items IH|members _] using json_ind'; try done.
  cbn [object_free SerializeJSONProperty]. intros Hfree. do 3 f_equal.
  induction IH as [|v items Hv _ IHitems]; [done|].
  simpl in Hfree. apply andb_prop in Hfree as [Hv' Hitems].
  simpl. f_equal; auto.
Qed.

Lemma omap_assoc_members {B} (g : string -> json -> B) (members : list (string * json))
    (K : list string) :
  omap (fun k => v ← assoc k members; Some (g k v)) K
  = map (fun m => g (fst m) (snd m))
        (omap (fun k => v ← assoc k members; Some (k, v)) K).
Proof.
  induction K as [|k K IH]; [done|]. csimpl.
  destruct (assoc k members); csimpl; [by rewrite IH | done].
Qed.

Lemma sorted_members_names (members : list (string * json)) :
  map fst (sorted_members members) = Array_sort (map fst members).
Proof.
  unfold sorted_members.
  assert (H : forall k, k ∈ Array_sort (map fst members) -> k ∈ map fst members).
  { intros k. by rewrite Array_sort_perm. }
  induction (Array_sort (map fst members)) as [|k K IH]; [done|]. csimpl.
  destruct (assoc k members) as [v|] eqn:Hk.
  - csimpl. f_equal. apply IH. intros k' Hk'. apply H. by right.
  - apply assoc_None in Hk. destruct Hk. apply H. left.
Qed.

Lemma sorted_members_perm (members : list (string * json)) :
  NoDup (map fst members) -> sorted_members members ≡ₚ members.
Proof.
  intros Hnd. apply NoDup_Permutation.
  - apply (NoDup_fmap_1 fst). rewrite sorted_members_names.
    by rewrite Array_sort_perm.
  - by apply (NoDup_fmap_1 fst).
  - intros [k v]. unfold sorted_members. rewrite list_elem_of_omap. split.
    + intros (k' & _ & Hk'). destruct (assoc k' members) as [v'|] eqn:E; [|done].
      simpl in Hk'. injection Hk' as -> ->. by apply assoc_Some_elem_of.
    + intros Hin. exists k. split.
      * rewrite Array_sort_perm. apply (list_elem_of_fmap_2 fst _ _ Hin).
      * by rewrite (elem_of_assoc _ _ _ Hnd Hin).
Qed.

Lemma jcsCanonicalize_object (members : list (string * json)) :
  ANPKeyGenerator.jcsCanonicalize (JObj members)
  = Ok ("{" +:+ String.concat ","
                  (map (fun m => QuoteJSONString (fst m) +:+ ":"
                                 +:+ JSON_stringify_with (snd m)
                                       (Array_sort (map fst members)))
                       (sorted_members members))
            +:+ "}").
Proof.
  unfold ANPKeyGenerator.jcsCanonicalize, JSON_stringify_with.
    cbn [Object_keys rbind].
  rewrite SerializeJSONProperty_object. do 4 f_equal.
  apply (omap_assoc_members
           (fun k v => QuoteJSONString k +:+ ":"
                       +:+ SerializeJSONProperty (Some (Array_sort (map fst members))) v)).
Qed.

Lemma canonicalize_top_level_only_members (members : list (string * json)) :
  canonicalize_top_level_only members
  = "{" +:+ String.concat ","
              (map (fun m => QuoteJSONString (fst m) +:+ ":" +:+ JSON_stringify (snd m))
                   (sorted_members members))
        +:+ "}".
Proof.
  unfold canonicalize_top_level_only. do 3 f_equal.
  apply (omap_assoc_members
           (fun k v => QuoteJSONString k +:+ ":" +:+ JSON_stringify v)).
Qed.

(** C2 (as amended): [jcsCanonicalize] gives the same text for the same
    top-level members in any order; the members are written in the
    sorted order of their names, each exactly once; and a value with no
    object in it is written as [JSON.stringify] writes it on its own, so
    that on an object whose values hold no object the result is the
    top-level-sorted form of the specification. *)
Theorem jcsCanonicalize_deterministic_top_level_sorted :
  (forall members1 members2 : list (string * json),
     NoDup (map fst members1) -> members1 ≡ₚ members2 ->
     ANPKeyGenerator.jcsCanonicalize (JObj members1)
     = ANPKeyGenerator.jcsCanonicalize (JObj members2))
  /\ (forall members : list (string * json),
        NoDup (map fst members) ->
        Sorted code_unit_le (map fst (sorted_members members))
        /\ sorted_members members ≡ₚ members
        /\ ANPKeyGenerator.jcsCanonicalize (JObj members)
           = Ok ("{" +:+ String.concat ","
                           (map (fun m => QuoteJSONString (fst m) +:+ ":"
                                          +:+ JSON_stringify_with (snd m)
                                                (map fst (sorted_members members)))
                                (sorted_members members))
                     +:+ "}"))
  /\ (forall (names : list string) (v : json),
        object_free v = true -> JSON_stringify_with v names = JSON_stringify v)
  /\ (forall members : list (string * json),
        Forall (fun m => object_free (snd m) = true) members ->
        ANPKeyGenerator.jcsCanonicalize (JObj members)
        = Ok (canonicalize_top_level_only members)).
Proof.
  split; [|split; [|split]].
  - intros members1 members2 Hnd Hp.
    unfold ANPKeyGenerator.jcsCanonicalize, JSON_stringify_with.
    cbn [Object_keys rbind].
    rewrite (Array_sort_order_independent (map fst members1) (map fst members2))
      by (by rewrite Hp).
    rewrite !SerializeJSONProperty_object. do 4 f_equal.
    apply list_omap_ext, Forall2_same_length_lookup; split; [done|].
    intros i P P' HP HP'. assert (P' = P) as -> by congruence.
    by rewrite (assoc_perm members1 members2 P Hnd Hp).
  - intros members Hnd. split; [|split].
    + rewrite sorted_members_names. apply Array_sort_sorted.
    + by apply sorted_members_perm.
    + rewrite sorted_members_names. apply jcsCanonicalize_object.
  - intros names v. apply SerializeJSONProperty_object_free.
  - intros members Hfree.
    rewrite jcsCanonicalize_object, canonicalize_top_level_only_members.
    do 4 f_equal. apply map_ext_in. intros [k v] Hin. simpl. do 3 f_equal.
    apply SerializeJSONProperty_object_free.
    assert (Hin' : (k, v) ∈ sorted_members members) by (by apply list_elem_of_In).
    unfold sorted_members in Hin'. apply list_elem_of_omap in Hin' as (k' & _ & Hk').
    destruct (assoc k' members) as [v'|] eqn:E; [|done].
    simpl in Hk'. injection Hk' as -> ->. apply assoc_Some_elem_of in E.
    by apply (proj1 (Forall_forall _ _) Hfree (k, v)).
Qed.

Lemma jcsCanonicalize_deterministic_top_level_sorted_witness :
  ANPKeyGenerator.jcsCanonicalize (JObj example_payload)
  = ANPKeyGenerator.jcsCanonicalize (JObj (rev example_payload))
  /\ ANPKeyGenerator.jcsCanonicalize (JObj example_payload)
     = Ok (canonicalize_top_level_only example_payload).
Proof.
  split.
  - apply (proj1 jcsCanonicalize_deterministic_top_level_sorted).
    + apply (bool_decide_unpack _). vm_compute. exact I.
    + apply Permutation_rev.
  - apply (proj2 (proj2 (proj2 jcsCanonicalize_deterministic_top_level_sorted))).
    repeat constructor.
Defined.

(** C2 (as stated) fails: a nested object is written through the sorted
    list of the top-level names. A nested member whose name is not a
    top-level name is left out, and the nested members that remain come in
    the sorted order of the top-level names, not in their own. *)
Lemma jcsCanonicalize_nested_object_counterexample :
  ANPKeyGenerator.jcsCanonicalize (JObj [("a", JObj [("b", JNum 1)])])
  = Ok (JSON_stringify (JObj [("a", JObj [])]))
  /\ ANPKeyGenerator.jcsCanonicalize (JObj [("a", JObj [("b", JNum 1)])])
     <> Ok (canonicalize_top_level_only [("a", JObj [("b", JNum 1)])])
  /\ ANPKeyGenerator.jcsCanonicalize
       (JObj [("x", JObj [("y", JNum 1); ("x", JNum 2)]); ("y", JNum 0)])
     = Ok (JSON_stringify
             (JObj [("x", JObj [("x", JNum 2); ("y", JNum 1)]); ("y", JNum 0)]))
  /\ ANPKeyGenerator.jcsCanonicalize
       (JObj [("x", JObj [("y", JNum 1); ("x", JNum 2)]); ("y", JNum 0)])
     <> Ok (canonicalize_top_level_only
              [("x", JObj [("y", JNum 1); ("x", JNum 2)]); ("y", JNum 0)]).
Proof. repeat split; (vm_compute; congruence) || done. Qed.

(** ** Canonical payloads can be read back *)

Lemma append_assoc (s1 s2 s3 : string) : (s1 +:+ s2) +:+ s3 = s1 +:+ (s2 +:+ s3).
Proof. induction s1; simpl; congruence. Qed.

Lemma read_quoted_quote_char (c : ascii) (r : string) :
  read_quoted (quote_char c +:+ r)
  = match read_quoted r with
    | Some (t, rest) => Some (String c t, rest)
    | None => None
    end.
Proof. destruct c as [[] [] [] [] [] [] [] []]; reflexivity. Qed.

Lemma read_quoted_quote_chars (s rest : string) :
  read_quoted (quote_chars s +:+ String dquote rest) = Some (s, rest).
Proof.
  induction s as [|c s IH]; [done|].
  cbn [quote_chars]. by rewrite append_assoc, read_quoted_quote_char, IH.
Qed.

Lemma sorted_members_SignatureData (d : SignatureData) :
  sorted_members
    [("nonce", JStr (sd_nonce d)); ("timestamp", JStr (sd_timestamp d));
     ("service", JStr (sd_service d)); ("did", JStr (sd_did d))]
  = [("did", JStr (sd_did d)); ("nonce", JStr (sd_nonce d));
     ("service", JStr (sd_service d)); ("timestamp", JStr (sd_timestamp d))].
Proof. reflexivity. Qed.

(** The canonical text of a payload, each quoted value followed by the
    rest of the text. *)
Lemma jcsCanonicalize_SignatureData (d : SignatureData) :
  ANPKeyGenerator.jcsCanonicalize (json_of_SignatureData d)
  = Ok ("{" +:+ QuoteJSONString "did" +:+ ":" +:+ String dquote
        (quote_chars (sd_did d) +:+ String dquote
        ("," +:+ QuoteJSONString "nonce" +:+ ":" +:+ String dquote
        (quote_chars (sd_nonce d) +:+ String dquote
        ("," +:+ QuoteJSONString "service" +:+ ":" +:+ String dquote
        (quote_chars (sd_service d) +:+ String dquote
        ("," +:+ QuoteJSONString "timestamp" +:+ ":" +:+ String dquote
        (quote_chars (sd_timestamp d) +:+ String dquote "}")))))))).
Proof.
  unfold json_of_SignatureData.
  rewrite jcsCanonicalize_object, sorted_members_SignatureData.
  cbn [map fst snd String.concat JSON_stringify_with SerializeJSONProperty].
  unfold QuoteJSONString. cbn [quote_chars]. f_equal.
  repeat (rewrite ?append_assoc; cbn [String.append]; f_equal).
Qed.

Lemma read_SignatureData_canonical (d : SignatureData) (text : string) :
  ANPKeyGenerator.jcsCanonicalize (json_of_SignatureData d) = Ok text ->
  read_SignatureData text = Some d.
Proof.
  rewrite jcsCanonicalize_SignatureData. intros [= <-].
  unfold read_SignatureData.
  cbn [String.append string_drop QuoteJSONString quote_chars].
  rewrite read_quoted_quote_chars. cbn [mbind option_bind String.append string_drop].
  rewrite read_quoted_quote_chars. cbn [mbind option_bind String.append string_drop].
  rewrite read_quoted_quote_chars. cbn [mbind option_bind String.append string_drop].
  rewrite read_quoted_quote_chars. cbn [mbind option_bind].
  by destruct d.
Qed.

(** Two payloads with the same canonical text are the same payload. *)
Lemma jcsCanonicalize_SignatureData_inj (d d' : SignatureData) :
  ANPKeyGenerator.jcsCanonicalize (json_of_SignatureData d)
  = ANPKeyGenerator.jcsCanonicalize (json_of_SignatureData d') ->
  d = d'.
Proof.
  intros H.
  destruct (ANPKeyGenerator.jcsCanonicalize (json_of_SignatureData d)) as [text|e] eqn:E.
  - apply read_SignatureData_canonical in E. symmetry in H.
    apply read_SignatureData_canonical in H. congruence.
  - by rewrite jcsCanonicalize_SignatureData in E.
Qed.

Lemma utf8_char_inj (c c' : ascii) (r r' : bytes) :
  utf8_char c ++ r = utf8_char c' ++ r' -> c = c' /\ r = r'.
Proof.
  destruct c as [b0 b1 b2 b3 b4 b5 b6 []], c' as [c0 c1 c2 c3 c4 c5 c6 []];
    simpl; intros H; simplify_eq; try done.
  injection H as ->. injection H0 as -> -> -> -> -> ->. done.
Qed.

Lemma utf8_encode_inj (s s' : string) : utf8_encode s = utf8_encode s' -> s = s'.
Proof.
  revert s'. induction s as [|c s IH]; intros [|c' s']; simpl; try done.
  - by destruct c' as [? ? ? ? ? ? ? []].
  - by destruct c as [? ? ? ? ? ? ? []].
  - intros [-> ?]%utf8_char_inj. f_equal. by apply IH.
Qed.

(** ** Strings and lists of code units *)

Lemma string_of_list_length (l : list ascii) :
  String.length (string_of_list l) = length l.
Proof. induction l; simpl; congruence. Qed.

Lemma list_of_string_of_list (l : list ascii) : list_of_string (string_of_list l) = l.
Proof. induction l; simpl; congruence. Qed.

(** ** Base58 *)

Section Positional.
Variable b : N.
Hypothesis Hb : (2 <= b)%N.

Lemma value_of_fold (ds : list N) (a : N) :
  fold_left (fun a d => (a * b + d)%N) ds a
  = (a * b ^ N.of_nat (length ds) + value_of b ds)%N.
Proof.
  unfold value_of. revert a. induction ds as [|d ds IH]; intros a.
  - cbn. lia.
  - cbn [fold_left length]. rewrite IH, (IH (0 * b + d)%N).
    rewrite Nat2N.inj_succ, N.pow_succ_r'. lia.
Qed.

Lemma value_of_cons (d : N) (ds : list N) :
  value_of b (d :: ds) = (d * b ^ N.of_nat (length ds) + value_of b ds)%N.
Proof. unfold value_of at 1. cbn [fold_left]. rewrite value_of_fold. lia. Qed.

Lemma value_of_snoc (ds : list N) (d : N) :
  value_of b (ds ++ [d]) = (value_of b ds * b + d)%N.
Proof. unfold value_of. by rewrite fold_left_app. Qed.

Lemma value_of_bound (ds : list N) :
  Forall (fun d => (d < b)%N) ds -> (value_of b ds < b ^ N.of_nat (length ds))%N.
Proof.
  induction ds as [|d ds IH] using rev_ind; intros Hall.
  - cbn. lia.
  - apply Forall_app in Hall as [Hds Hd]. apply List.Forall_inv in Hd.
    rewrite value_of_snoc, length_app, Nat.add_comm. cbn [length Nat.add].
    rewrite Nat2N.inj_succ, N.pow_succ_r'. specialize (IH Hds).
    pose proof (N.mul_le_mono_r (value_of b ds + 1) (b ^ N.of_nat (length ds)) b
                  ltac:(lia)). lia.
Qed.

Lemma canonical_value_lower (d : N) (ds : list N) :
  canonical_digits b (d :: ds) -> (b ^ N.of_nat (length ds) <= value_of b (d :: ds))%N.
Proof.
  intros [_ Hd]. rewrite value_of_cons.
  assert (0 < b ^ N.of_nat (length ds))%N by (apply N.neq_0_lt_0, N.pow_nonzero; lia).
  nia.
Qed.

Lemma digits_of_spec (fuel : nat) (n : N) (acc : list N) :
  (n < b ^ N.of_nat fuel)%N ->
  exists ds,
    digits_of b fuel n acc = ds ++ acc
    /\ canonical_digits b ds /\ value_of b ds = n /\ length ds <= fuel
    /\ (ds = [] -> n = 0%N).
Proof.
  revert n acc. induction fuel as [|fuel IH]; intros n acc Hn.
  - exists []. cbn in Hn. assert (n = 0%N) as -> by lia.
    split; [done|]. split; [by split|]. split; [done|]. split; [cbn; lia | done].
  - cbn [digits_of]. destruct (N.eqb_spec n 0) as [->|Hne].
    + exists []. split; [done|]. split; [by split|]. split; [done|].
      split; [cbn; lia | done].
    + destruct (IH (n / b)%N ((n mod b)%N :: acc)) as (ds & Hds & [Hall Hhead] & Hval & Hlen & Hnil).
      { rewrite Nat2N.inj_succ, N.pow_succ_r' in Hn.
        apply N.Div0.div_lt_upper_bound; lia. }
      exists (ds ++ [(n mod b)%N]). split; [by rewrite <- app_assoc|].
      split; [split|].
      * apply Forall_app. split; [done|]. apply Forall_singleton.
        apply N.mod_lt. lia.
      * destruct ds as [|d ds]; [|done]. cbn. intros Hmod.
        pose proof (N.div_mod n b ltac:(lia)) as Hdm.
        rewrite (Hnil eq_refl), Hmod in Hdm. lia.
      * split; [|split].
        -- rewrite value_of_snoc, Hval. pose proof (N.div_mod n b ltac:(lia)). lia.
        -- rewrite length_app. cbn. lia.
        -- intros Happ. by destruct ds.
Qed.

Lemma canonical_snoc (ds : list N) (d : N) : canonical_digits b (ds ++ [d]) -> canonical_digits b ds.
Proof.
  intros [Hall Hhead]. apply Forall_app in Hall as [Hall _]. split; [done|].
  by destruct ds.
Qed.

Lemma digits_of_value (ds : list N) :
  canonical_digits b ds ->
  forall fuel acc, length ds <= fuel -> digits_of b fuel (value_of b ds) acc = ds ++ acc.
Proof.
  induction ds as [|d ds IH] using rev_ind; intros Hcan fuel acc Hlen.
  - cbn. by destruct fuel.
  - rewrite length_app in Hlen. cbn in Hlen.
    destruct fuel as [|fuel]; [lia|]. cbn [digits_of].
    destruct Hcan as [Hall Hhead]. pose proof Hall as Hall'.
    apply Forall_app in Hall' as [Hds Hd]. apply List.Forall_inv in Hd.
    rewrite value_of_snoc.
    assert (Hnz : (value_of b ds * b + d <> 0)%N).
    { destruct ds as [|d0 ds].
      - cbn in Hhead |- *. lia.
      - pose proof (canonical_value_lower d0 ds (canonical_snoc _ _ (conj Hall Hhead))).
        assert (0 < b ^ N.of_nat (length ds))%N
          by (apply N.neq_0_lt_0, N.pow_nonzero; lia).
        nia. }
    destruct (N.eqb_spec (value_of b ds * b + d) 0) as [?|_]; [done|].
    replace ((value_of b ds * b + d) / b)%N with (value_of b ds)
      by (apply N.div_unique with d; lia).
    replace ((value_of b ds * b + d) mod b)%N with d
      by (apply N.mod_unique with (value_of b ds); lia).
    rewrite IH; [by rewrite <- app_assoc | by apply (canonical_snoc ds d) | lia].
Qed.
End Positional.

Lemma base58_char_index (d : N) :
  (d < 58)%N -> index_of (base58_char d) (list_of_string base58_alphabet) = Some d.
Proof.
  intros Hd. rewrite <- (N2Nat.id d) at 2. unfold base58_char.
  assert (Hk : N.to_nat d < 58) by lia. revert Hk. generalize (N.to_nat d). intros k Hk.
  do 58 (destruct k as [|k]; [reflexivity|]). lia.
Qed.

Lemma base58_char_one (d : N) : (d < 58)%N -> base58_char d = "1"%char -> d = 0%N.
Proof.
  intros Hd Heq. pose proof (base58_char_index d Hd) as Hi. rewrite Heq in Hi.
  vm_compute in Hi. by injection Hi.
Qed.

Lemma base58_digits_digits_of (fuel : nat) (n : N) (acc : list N) :
  base58_digits fuel n (map base58_char acc) = map base58_char (digits_of 58 fuel n acc).
Proof.
  revert n acc. induction fuel as [|fuel IH]; intros n acc; [done|].
  cbn [base58_digits digits_of]. destruct (n =? 0)%N; [done|].
  by rewrite <- IH.
Qed.

Lemma octets_digits_of (fuel : nat) (n : N) (acc : list N) :
  octets fuel n (map ascii_of_N acc) = map ascii_of_N (digits_of 256 fuel n acc).
Proof.
  revert n acc. induction fuel as [|fuel IH]; intros n acc; [done|].
  cbn [octets digits_of]. destruct (n =? 0)%N; [done|].
  by rewrite <- IH.
Qed.

Lemma base58_value_chars (ds : list N) :
  Forall (fun d => (d < 58)%N) ds ->
  base58_value (map base58_char ds) = Some (value_of 58 ds).
Proof.
  unfold base58_value, value_of. generalize 0%N.
  induction ds as [|d ds IH]; intros a Hall; [done|].
  apply Forall_cons in Hall as [Hd Hall]. cbn [map fold_left].
  rewrite base58_char_index by done. by apply IH.
Qed.

Lemma leading_ones_repeat (z : nat) (cs : list ascii) :
  match cs with [] => True | c :: _ => c <> "1"%char end ->
  leading_ones (repeat "1"%char z ++ cs) = z.
Proof.
  intros Hcs. induction z as [|z IH]; [|by cbn; rewrite IH].
  destruct cs as [|c cs]; [done|]. cbn.
  by destruct (Ascii.eqb_spec c "1"%char).
Qed.

Lemma N_of_bytes_value (bs : bytes) : N_of_bytes bs = value_of 256 (map N_of_ascii bs).
Proof.
  unfold N_of_bytes, value_of. generalize 0%N.
  induction bs as [|c bs IH]; intros a; [done|]. cbn [map fold_left]. apply IH.
Qed.

Lemma leading_zeros_split (bs : bytes) :
  bs = repeat zero (leading_zeros bs) ++ skipn (leading_zeros bs) bs
  /\ value_of 256 (map N_of_ascii bs)
     = value_of 256 (map N_of_ascii (skipn (leading_zeros bs) bs))
  /\ canonical_digits 256 (map N_of_ascii (skipn (leading_zeros bs) bs)).
Proof.
  induction bs as [|c bs (IH1 & IH2 & IH3)].
  - split; [done|]. split; [done|]. by split.
  - cbn [leading_zeros]. destruct (Ascii.eqb_spec c zero) as [->|Hc].
    + cbn [repeat skipn app map]. split; [by f_equal|]. split; [|done].
      rewrite value_of_cons by lia. change (N_of_ascii zero) with 0%N.
      rewrite N.mul_0_l, N.add_0_l. exact IH2.
    + cbn [repeat skipn app]. split; [done|]. split; [done|]. split.
      * apply Forall_fmap, Forall_true. intros a. cbn. apply N_ascii_bounded.
      * cbn [map]. intros Hz. apply Hc.
        rewrite <- (ascii_N_embedding c), Hz. reflexivity.
Qed.

(** What [bs58.encode] writes reads back as the octets it was given. *)
Lemma bs58_decode_encode (bs : bytes) : bs58_decode (bs58_encode bs) = Some bs.
Proof.
  unfold bs58_decode, bs58_encode. rewrite list_of_string_of_list.
  destruct (leading_zeros_split bs) as (Hsplit & Hvalue & Hcanon).
  set (z := leading_zeros bs) in *. set (rest := skipn z bs) in *.
  assert (Hn : (N_of_bytes bs < 58 ^ N.of_nat (2 * length bs))%N).
  { rewrite N_of_bytes_value.
    eapply N.lt_le_trans.
    - apply (value_of_bound 256); [lia|].
      apply Forall_fmap, Forall_true. intros a. cbn. apply N_ascii_bounded.
    - rewrite length_map, Nat2N.inj_mul, N.pow_mul_r.
      apply N.pow_le_mono_l. cbn. lia. }
  destruct (digits_of_spec 58 ltac:(lia) (2 * length bs) (N_of_bytes bs) [] Hn)
    as (ds & Hds & Hcan58 & Hval & Hlen & Hnil).
  rewrite app_nil_r in Hds.
  assert (Henc : base58_digits (2 * length bs) (N_of_bytes bs) [] = map base58_char ds).
  { change (@nil ascii) with (map base58_char []).
    by rewrite base58_digits_digits_of, Hds. }
  rewrite !Henc, leading_ones_repeat.
  2:{ destruct Hcan58 as [Hall Hhead]. destruct ds as [|d ds]; [done|]. cbn [map].
      intros Hone. apply Hhead. apply base58_char_one; [|done].
      by apply Forall_cons in Hall as [? _]. }
  rewrite drop_app_length' by (by rewrite repeat_length).
  rewrite base58_value_chars by apply Hcan58.
  rewrite Hval, N_of_bytes_value, Hvalue.
  change (@nil ascii) with (map ascii_of_N []).
  rewrite octets_digits_of.
  assert (Hfuel : length (map N_of_ascii rest)
                  <= length (repeat "1"%char z ++ map base58_char ds)).
  { rewrite length_app, repeat_length, !length_map.
    destruct (map N_of_ascii rest) as [|r digits] eqn:Hrest;
      [apply (f_equal length) in Hrest; rewrite length_map in Hrest; cbn in Hrest; lia|].
    assert (Hm : length rest = S (length digits)).
    { apply (f_equal length) in Hrest. by rewrite length_map in Hrest. }
    pose proof (canonical_value_lower 256 ltac:(lia) r digits Hcanon) as Hlow.
    pose proof (value_of_bound 58 ltac:(lia) ds (proj1 Hcan58)) as Hup.
    rewrite Hval, N_of_bytes_value, Hvalue in Hup.
    destruct (decide (length digits < length ds)) as [?|Hge]; [lia|]. exfalso.
    assert (58 ^ N.of_nat (length ds) <= 58 ^ N.of_nat (length digits))%N
      by (apply N.pow_le_mono_r; lia).
    assert (58 ^ N.of_nat (length digits) <= 256 ^ N.of_nat (length digits))%N
      by (apply N.pow_le_mono_l; lia).
    lia. }
  rewrite (digits_of_value 256) by first [lia | done].
  rewrite app_nil_r, map_map, (map_ext _ id) by apply ascii_N_embedding.
  by rewrite map_id, <- Hsplit.
Qed.

(** ** Signing and verifying *)

Lemma SHA256_digest_length (msg : bytes) : length (SHA256.digest msg) = 32.
Proof.
  unfold SHA256.digest.
  destruct (fold_left _ _ _) as [[[[[[[a b] c] d] e] f] g] h].
  rewrite !length_app. unfold SHA256.be_bytes. by rewrite !length_map, !length_seq.
Qed.

Lemma base64url_decode_pad (s : string) :
  base64url_decode (s +:+ "=") = base64url_decode s.
Proof. unfold base64url_decode. by rewrite sextets_of_string_pad. Qed.

Lemma string_length_append (s1 s2 : string) :
  String.length (s1 +:+ s2) = String.length s1 + String.length s2.
Proof. induction s1; simpl; congruence. Qed.

Lemma append_pad_neq (s : string) : s +:+ "=" <> s.
Proof.
  intros H. apply (f_equal String.length) in H.
  rewrite string_length_append in H. simpl in H. lia.
Qed.

Lemma utf8_encode_length (s : string) : String.length s <= length (utf8_encode s).
Proof.
  induction s as [|c s IH]; simpl; [lia|]. rewrite length_app.
  destruct c as [b0 b1 b2 b3 b4 b5 b6 []]; simpl; lia.
Qed.

(** The canonical text of a signature payload is longer than a digest:
    its four names and their punctuation alone take 49 characters. *)
Lemma canonical_SignatureData_length (d : SignatureData) (text : string) :
  ANPKeyGenerator.jcsCanonicalize (json_of_SignatureData d) = Ok text ->
  49 <= String.length text.
Proof.
  rewrite jcsCanonicalize_SignatureData. intros [= <-].
  repeat (rewrite string_length_append || cbn [String.length QuoteJSONString]).
  simpl. lia.
Qed.

Section SignVerify.
Import ANPKeyGenerator.
Variables ed25519 secp256k1 : Curve.

(** What [verifyEd25519] answers: the library's verdict on the decoded
    signature and the canonical octets, and [false] for everything
    else. *)
Lemma verifyEd25519_true (publicKey : bytes) (signature : string) (data : json) :
  verifyEd25519 ed25519 publicKey signature data = Ok true
  <-> exists canonicalJson,
        jcsCanonicalize data = Ok canonicalJson
        /\ verify ed25519 (base64url_decode signature) (utf8_encode canonicalJson)
             publicKey = Ok true.
Proof.
  unfold verifyEd25519, try_catch, rbind.
  destruct (jcsCanonicalize data) as [cj|e]; [|split; [done | by intros (? & ? & _)]].
  destruct (verify ed25519 _ _ _) as [[]|e] eqn:E.
  - split; [by exists cj | done].
  - split; [done | intros (? & [= <-] & ?); congruence].
  - split; [done | intros (? & [= <-] & ?); congruence].
Qed.

Lemma verifySecp256k1_true (publicKey : bytes) (signature : string) (data : json) :
  verifySecp256k1 secp256k1 publicKey signature data = Ok true
  <-> exists canonicalJson,
        jcsCanonicalize data = Ok canonicalJson
        /\ verify secp256k1 (base64url_decode signature)
             (SHA256.digest (utf8_encode canonicalJson)) publicKey = Ok true.
Proof.
  unfold verifySecp256k1, try_catch, rbind.
  destruct (jcsCanonicalize data) as [cj|e]; [|split; [done | by intros (? & ? & _)]].
  destruct (verify secp256k1 _ _ _) as [[]|e] eqn:E.
  - split; [by exists cj | done].
  - split; [done | intros (? & [= <-] & ?); congruence].
  - split; [done | intros (? & [= <-] & ?); congruence].
Qed.

Lemma verifyEd25519_total (publicKey : bytes) (signature : string) (data : json) :
  exists b, verifyEd25519 ed25519 publicKey signature data = Ok b.
Proof.
  unfold verifyEd25519, try_catch, rbind.
  destruct (jcsCanonicalize data); [|by eexists].
  destruct (verify ed25519 _ _ _); by eexists.
Qed.

Lemma verifySecp256k1_total (publicKey : bytes) (signature : string) (data : json) :
  exists b, verifySecp256k1 secp256k1 publicKey signature data = Ok b.
Proof.
  unfold verifySecp256k1, try_catch, rbind.
  destruct (jcsCanonicalize data); [|by eexists].
  destruct (verify secp256k1 _ _ _); by eexists.
Qed.

(** The answer depends on the signature string through its decoding
    only. *)
Lemma verifyEd25519_decoded (publicKey : bytes) (s s' : string) (data : json) :
  base64url_decode s = base64url_decode s' ->
  verifyEd25519 ed25519 publicKey s data = verifyEd25519 ed25519 publicKey s' data.
Proof. unfold verifyEd25519. by intros ->. Qed.

Lemma verifySecp256k1_decoded (publicKey : bytes) (s s' : string) (data : json) :
  base64url_decode s = base64url_decode s' ->
  verifySecp256k1 secp256k1 publicKey s data
  = verifySecp256k1 secp256k1 publicKey s' data.
Proof. unfold verifySecp256k1. by intros ->. Qed.

(** C4: [verifyEd25519] and [verifySecp256k1] return a boolean for
    every public key, signature string and payload; when
    canonicalization throws, or the library's [verify] throws, the
    boolean is [false]. *)
Theorem verify_never_raises (publicKey : bytes) (signature : string) (data : json) :
  (exists b, verifyEd25519 ed25519 publicKey signature data = Ok b)
  /\ (exists b, verifySecp256k1 secp256k1 publicKey signature data = Ok b)
  /\ (forall e, jcsCanonicalize data = Throw e ->
        verifyEd25519 ed25519 publicKey signature data = Ok false
        /\ verifySecp256k1 secp256k1 publicKey signature data = Ok false)
  /\ (forall canonicalJson e,
        jcsCanonicalize data = Ok canonicalJson ->
        verify ed25519 (base64url_decode signature) (utf8_encode canonicalJson)
          publicKey = Throw e ->
        verifyEd25519 ed25519 publicKey signature data = Ok false)
  /\ (forall canonicalJson e,
        jcsCanonicalize data = Ok canonicalJson ->
        verify secp256k1 (base64url_decode signature)
          (SHA256.digest (utf8_encode canonicalJson)) publicKey = Throw e ->
        verifySecp256k1 secp256k1 publicKey signature data = Ok false).
Proof.
  split; [apply verifyEd25519_total|]. split; [apply verifySecp256k1_total|].
  unfold verifyEd25519, verifySecp256k1, try_catch, rbind.
  split; [|split].
  - by intros e ->.
  - by intros cj e -> ->.
  - by intros cj e -> ->.
Qed.

Lemma verifyEd25519_false (publicKey : bytes) (signature : string) (data : json) :
  verifyEd25519 ed25519 publicKey signature data <> Ok true ->
  verifyEd25519 ed25519 publicKey signature data = Ok false.
Proof.
  destruct (verifyEd25519_total publicKey signature data) as [[] ->]; congruence.
Qed.

Lemma verifySecp256k1_false (publicKey : bytes) (signature : string) (data : json) :
  verifySecp256k1 secp256k1 publicKey signature data <> Ok true ->
  verifySecp256k1 secp256k1 publicKey signature data = Ok false.
Proof.
  destruct (verifySecp256k1_total publicKey signature data) as [[] ->]; congruence.
Qed.

(** C3: the Ed25519 path hands the library the UTF-8 octets of the
    canonical text; the secp256k1 path hands it their SHA-256 digest,
    which is 32 octets long and, for a signature payload, never the
    octets themselves; either returns the base64url text of the
    signature octets, from which the octets decode back, and raises
    what canonicalization or the library raises. The digest is SHA-256:
    it gives the standard's values on the standard's test messages. *)
Theorem sign_message_and_encoding (privateKey : bytes) (data : json) :
  (forall s,
     signEd25519 ed25519 privateKey data = Ok s
     <-> exists canonicalJson signature,
           jcsCanonicalize data = Ok canonicalJson
           /\ sign ed25519 (utf8_encode canonicalJson) privateKey = Ok signature
           /\ s = base64url_encode signature
           /\ base64url_decode s = signature)
  /\ (forall s,
        signSecp256k1 secp256k1 privateKey data = Ok s
        <-> exists canonicalJson messageHash signature,
              jcsCanonicalize data = Ok canonicalJson
              /\ messageHash = SHA256.digest (utf8_encode canonicalJson)
              /\ length messageHash = 32
              /\ sign secp256k1 messageHash privateKey = Ok signature
              /\ s = base64url_encode signature
              /\ base64url_decode s = signature)
  /\ (forall e,
        jcsCanonicalize data = Throw e ->
        signEd25519 ed25519 privateKey data = Throw e
        /\ signSecp256k1 secp256k1 privateKey data = Throw e)
  /\ (forall canonicalJson e,
        jcsCanonicalize data = Ok canonicalJson ->
        (sign ed25519 (utf8_encode canonicalJson) privateKey = Throw e ->
         signEd25519 ed25519 privateKey data = Throw e)
        /\ (sign secp256k1 (SHA256.digest (utf8_encode canonicalJson)) privateKey
            = Throw e ->
            signSecp256k1 secp256k1 privateKey data = Throw e))
  /\ (forall (d : SignatureData) canonicalJson,
        jcsCanonicalize (json_of_SignatureData d) = Ok canonicalJson ->
        SHA256.digest (utf8_encode canonicalJson) <> utf8_encode canonicalJson)
  /\ (forall msg, length (SHA256.digest msg) = 32)
  /\ hex_of_bytes (SHA256.digest (utf8_encode "abc"))
     = "ba7816bf8f01cfea414140de5dae2223b00361a396177a9cb410ff61f20015ad"
  /\ hex_of_bytes (SHA256.digest (utf8_encode ""))
     = "e3b0c44298fc1c149afbf4c8996fb92427ae41e4649b934ca495991b7852b855"
  /\ hex_of_bytes
       (SHA256.digest
          (utf8_encode "abcdbcdecdefdefgefghfghighijhijkijkljklmklmnlmnomnopnopq"))
     = "248d6a61d20638b8e5c026930c3e6039a33ce45964ff2167f6ecedd419db06c1"
  /\ hex_of_bytes (utf8_encode (String "233"%char "")) = "c3a9".
Proof.
  split; [|split; [|split; [|split; [|split; [|split]]]]].
  - unfold signEd25519, rbind. intros s.
    destruct (jcsCanonicalize data) as [cj|e].
    + destruct (sign ed25519 _ _) as [sig|e] eqn:E.
      * split.
        -- intros [= <-]. exists cj, sig. by rewrite base64url_decode_encode.
        -- intros (? & ? & [= <-] & ? & -> & _). congruence.
      * split; [done|]. intros (? & ? & [= <-] & ? & _). congruence.
    + split; [done | by intros (? & ? & ? & _)].
  - unfold signSecp256k1, rbind. intros s.
    destruct (jcsCanonicalize data) as [cj|e].
    + destruct (sign secp256k1 _ _) as [sig|e] eqn:E.
      * split.
        -- intros [= <-]. exists cj, (SHA256.digest (utf8_encode cj)), sig.
           by rewrite base64url_decode_encode, SHA256_digest_length.
        -- intros (? & ? & ? & [= <-] & -> & _ & ? & -> & _). congruence.
      * split; [done|]. intros (? & ? & ? & [= <-] & -> & _ & ? & _). congruence.
    + split; [done | by intros (? & ? & ? & ? & _)].
  - unfold signEd25519, signSecp256k1, rbind. by intros e ->.
  - unfold signEd25519, signSecp256k1, rbind. intros cj e ->. by split; intros ->.
  - intros d cj Hcj H. apply (f_equal (@length byte)) in H.
    rewrite SHA256_digest_length in H.
    pose proof (canonical_SignatureData_length d cj Hcj).
    pose proof (utf8_encode_length cj). lia.
  - apply SHA256_digest_length.
  - vm_compute. by repeat split.
Qed.

End SignVerify.

Lemma ANPKeyGenerator_verifyEd25519_pad (C : Curve) (pk : bytes) (s : string) (data : json) :
  ANPKeyGenerator.verifyEd25519 C pk (s +:+ "=") data
  = ANPKeyGenerator.verifyEd25519 C pk s data.
Proof. apply verifyEd25519_decoded, base64url_decode_pad. Qed.

Lemma ANPKeyGenerator_verifySecp256k1_pad (C : Curve) (pk : bytes) (s : string) (data : json) :
  ANPKeyGenerator.verifySecp256k1 C pk (s +:+ "=") data
  = ANPKeyGenerator.verifySecp256k1 C pk s data.
Proof. apply verifySecp256k1_decoded, base64url_decode_pad. Qed.

Lemma demo_curve_complete (derive : bytes -> bytes) (n : nat) :
  (forall sk, length sk = 32 -> length (derive sk) = n) ->
  curve_complete (demo_curve derive n).
Proof.
  intros Hlen sk pk msg. simpl.
  destruct (length sk =? 32)%nat eqn:E; [|done]. intros [= <-].
  exists (derive sk ++ msg). split; [done|].
  apply Nat.eqb_eq in E. rewrite (Hlen sk E), Nat.eqb_refl.
  unfold bytes_eqb. by rewrite bool_decide_eq_true_2.
Qed.

Lemma demo_ed25519_complete : curve_complete demo_ed25519.
Proof. apply demo_curve_complete. intros sk. by rewrite length_rev. Qed.

Lemma demo_secp256k1_complete : curve_complete demo_secp256k1.
Proof.
  apply demo_curve_complete. intros sk H. simpl.
  rewrite length_app, length_rev. lia.
Qed.

Lemma demo_curve_exact (derive : bytes -> bytes) (n : nat) :
  curve_exact (demo_curve derive n).
Proof.
  intros sk pk msg sig. simpl.
  destruct (length sk =? 32)%nat; [|done]. intros [= <-].
  destruct (length (derive sk) =? n)%nat; [|done]. unfold bytes_eqb.
  intros [= H]. apply bool_decide_eq_true_1 in H. by subst sig.
Qed.

Lemma demo_curve_sign_injective (derive : bytes -> bytes) (n : nat) :
  sign_injective (demo_curve derive n).
Proof.
  intros sk msg msg' sig. simpl.
  destruct (length sk =? 32)%nat; [|done]. intros [= <-] [= H].
  symmetry. by apply app_inv_head in H.
Qed.


(** C3 on the example payload: the Ed25519 signature carries the
    canonical text itself, the secp256k1 signature its SHA-256 digest. *)
Lemma sign_message_and_encoding_witness :
  let payload := json_of_SignatureData example_data in
  let s := "IB8eHRwbGhkYFxYVFBMSERAPDg0MCwoJCAcGBQQDAgF7ImRpZCI6ImRpZDp3YmE6ZXhhbXBsZS5jb20iLCJub25jZSI6Im4xIiwic2VydmljZSI6ImV4YW1wbGUuY29tIiwidGltZXN0YW1wIjoiMjAyNC0wMS0wMVQwMDowMDowMC4wMDBaIn0" in
  let s2 := "BCAfHh0cGxoZGBcWFRQTEhEQDw4NDAsKCQgHBgUEAwIBAQIDBAUGBwgJCgsMDQ4PEBESExQVFhcYGRobHB0eHyCZo-zeu-nEgUFpQpsIKO2kNE_z2t9oQo6ENMWxNR8RnQ" in
  ANPKeyGenerator.signEd25519 demo_ed25519 example_private_key payload = Ok s
  /\ ANPKeyGenerator.signSecp256k1 demo_secp256k1 example_private_key payload = Ok s2
  /\ exists canonicalJson messageHash,
       ANPKeyGenerator.jcsCanonicalize payload = Ok canonicalJson
       /\ String.length canonicalJson = 105
       /\ messageHash = SHA256.digest (utf8_encode canonicalJson)
       /\ hex_of_bytes messageHash
          = "99a3ecdebbe9c4814169429b0828eda4344ff3dadf68428e8434c5b1351f119d"
       /\ base64url_decode s = rev example_private_key ++ utf8_encode canonicalJson
       /\ base64url_decode s2
          = ("004"%char :: rev example_private_key ++ example_private_key)
            ++ messageHash.
Proof.
  cbv zeta.
  pose proof (sign_message_and_encoding demo_ed25519 demo_secp256k1
                example_private_key (json_of_SignatureData example_data))
    as (Hed & Hsecp & _).
  match goal with |- ?signed /\ ?signed2 /\ _ =>
    assert (Hs : signed) by (vm_compute; reflexivity);
    assert (Hs2 : signed2) by (vm_compute; reflexivity)
  end.
  split; [exact Hs|]. split; [exact Hs2|].
  destruct (proj1 (Hsecp _) Hs2) as (cj & h & sig & Hcj & Hh & _ & Hsig & _ & Hdec).
  destruct (proj1 (Hed _) Hs) as (cj' & sig' & Hcj' & Hsig' & _ & Hdec').
  assert (cj' = cj) as -> by congruence.
  exists cj, h. split; [exact Hcj|].
  rewrite Hdec, Hdec'. vm_compute in Hcj. injection Hcj as <-. subst h.
  split; [reflexivity|]. split; [reflexivity|]. split; [vm_compute; reflexivity|].
  vm_compute in Hsig. injection Hsig as <-.
  vm_compute in Hsig'. injection Hsig' as <-.
  split; vm_compute; reflexivity.
Defined.


(** ** Running stateful computations *)

Lemma bind_Ok {S A B} (m : M S A) (k : A -> M S B) (s s' : S) (b : B) :
  bind m k s = (Ok b, s') <-> exists a s1, m s = (Ok a, s1) /\ k a s1 = (Ok b, s').
Proof.
  unfold bind. destruct (m s) as [[a|e] s1].
  - split; [by exists a, s1 | by intros (? & ? & [= <- <-] & ?)].
  - split; [done | by intros (? & ? & ? & _)].
Qed.

Lemma ret_Ok {S A} (a b : A) (s s' : S) : ret a s = (Ok b, s') <-> a = b /\ s = s'.
Proof. unfold ret. split; [by intros [= -> ->] | by intros [-> ->]]. Qed.

Section KeyPair.
Import ANPKeyGenerator.
Variables ed25519 secp256k1 : Curve.

Lemma generateKeyPair_ED25519 (this : t) (w w' : World) (r : KeyPairResult) :
  generateKeyPair ed25519 secp256k1 this ED25519 w = (Ok r, w') ->
  exists keyId w1 keyPair w2 keyAgreementPair w3 humanAuthPair,
    generateNonce 16 w = (Ok keyId, w1)
    /\ generateEd25519KeyPair ed25519 w1 = (Ok keyPair, w2)
    /\ generateEd25519KeyPair ed25519 w2 = (Ok keyAgreementPair, w3)
    /\ generateEd25519KeyPair ed25519 w3 = (Ok humanAuthPair, w')
    /\ let did := generateDID this in
       let authMethod :=
         {| vm_id := did +:+ "#" +:+ keyId;
            vm_type := KeyType_value ED25519;
            vm_controller := did;
            publicKeyJwk := None;
            publicKeyMultibase := Some (encodeMultibase (publicKey keyPair)) |} in
       r = {| did_document :=
                {| context := contexts;
                   doc_id := did;
                   verificationMethod :=
                     Some [authMethod; keyAgreementMethod_of did keyAgreementPair;
                           humanAuthMethod_of did humanAuthPair];
                   authentication := [ById (vm_id authMethod)];
                   keyAgreement :=
                     Some [Embedded (keyAgreementMethod_of did keyAgreementPair)];
                   humanAuthorization :=
                     Some [ById (vm_id authMethod);
                           Embedded (humanAuthMethod_of did humanAuthPair)];
                   service := Some [agentDescriptionService this] |};
              private_key := generatePEMPrivateKey (privateKey keyPair) ED25519;
              did := did |}.
Proof.
  unfold generateKeyPair. intros H.
  apply bind_Ok in H as (keyId & w1 & HkeyId & H).
  apply bind_Ok in H as (parts & w4 & Hparts & H).
  apply bind_Ok in Hparts as (keyPair & w2 & HkeyPair & Hparts).
  apply bind_Ok in Hparts as (ka & w3 & Hka & Hparts).
  apply bind_Ok in Hparts as (ha & w5 & Hha & Hparts).
  apply ret_Ok in Hparts as [<- ->]. apply ret_Ok in H as [<- ->].
  by exists keyId, w1, keyPair, w2, ka, w3, ha.
Qed.

Lemma generateKeyPair_SECP256K1 (this : t) (w w' : World) (r : KeyPairResult) :
  generateKeyPair ed25519 secp256k1 this SECP256K1 w = (Ok r, w') ->
  exists keyId w1 keyPair w2 jwk w3 keyAgreementPair w4 humanAuthPair,
    generateNonce 16 w = (Ok keyId, w1)
    /\ generateSecp256k1KeyPair secp256k1 w1 = (Ok keyPair, w2)
    /\ generateJWK (publicKey keyPair) SECP256K1 w2 = (Ok jwk, w3)
    /\ generateEd25519KeyPair ed25519 w3 = (Ok keyAgreementPair, w4)
    /\ generateEd25519KeyPair ed25519 w4 = (Ok humanAuthPair, w')
    /\ let did := generateDID this in
       let authMethod :=
         {| vm_id := did +:+ "#" +:+ keyId;
            vm_type := KeyType_value SECP256K1;
            vm_controller := did;
            publicKeyJwk := Some jwk;
            publicKeyMultibase := None |} in
       r = {| did_document :=
                {| context := contexts;
                   doc_id := did;
                   verificationMethod :=
                     Some [authMethod; keyAgreementMethod_of did keyAgreementPair;
                           humanAuthMethod_of did humanAuthPair];
                   authentication := [ById (vm_id authMethod)];
                   keyAgreement :=
                     Some [Embedded (keyAgreementMethod_of did keyAgreementPair)];
                   humanAuthorization :=
                     Some [ById (vm_id authMethod);
                           Embedded (humanAuthMethod_of did humanAuthPair)];
                   service := Some [agentDescriptionService this] |};
              private_key := generatePEMPrivateKey (privateKey keyPair) SECP256K1;
              did := did |}.
Proof.
  unfold generateKeyPair. intros H.
  apply bind_Ok in H as (keyId & w1 & HkeyId & H).
  apply bind_Ok in H as (parts & w6 & Hparts & H).
  apply bind_Ok in Hparts as (keyPair & w2 & HkeyPair & Hparts).
  apply bind_Ok in Hparts as (jwk & w3 & Hjwk & Hparts).
  apply bind_Ok in Hparts as (ka & w4 & Hka & Hparts).
  apply bind_Ok in Hparts as (ha & w5 & Hha & Hparts).
  apply ret_Ok in Hparts as [<- ->]. apply ret_Ok in H as [<- ->].
  by exists keyId, w1, keyPair, w2, jwk, w3, ka, w4, ha.
Qed.

Lemma generateKeyPair_X25519 (this : t) (w : World) :
  exists e w', generateKeyPair ed25519 secp256k1 this X25519 w = (Throw e, w').
Proof.
  unfold generateKeyPair, bind, generateNonce, bind, randomBytes, ret, throw.
  by eexists _, _.
Qed.
End KeyPair.

(** What every successful [generateKeyPair] returns, whatever the type:
    the DID, the one service entry, and a first verification method
    whose multibase key is there for Ed25519 and missing for secp256k1. *)
Lemma generateKeyPair_document (ed25519 secp256k1 : Curve)
    (this : ANPKeyGenerator.t) (keyType : KeyType) (w w' : World) (r : KeyPairResult) :
  ANPKeyGenerator.generateKeyPair ed25519 secp256k1 this keyType w = (Ok r, w') ->
  did r = ANPKeyGenerator.generateDID this
  /\ doc_id (did_document r) = ANPKeyGenerator.generateDID this
  /\ service (did_document r) = Some [agentDescriptionService this]
  /\ exists vm0 others,
       verificationMethod (did_document r) = Some (vm0 :: others)
       /\ match keyType with
          | ED25519 => exists pk, publicKeyMultibase vm0
                                  = Some (ANPKeyGenerator.encodeMultibase pk)
          | _ => publicKeyMultibase vm0 = None
          end.
Proof.
  intros H. destruct keyType.
  - apply generateKeyPair_ED25519 in H
      as (? & ? & kp & ? & ? & ? & ? & _ & _ & _ & _ & ->).
    repeat split. eexists _, _. split; [done|]. by exists (publicKey kp).
  - apply generateKeyPair_SECP256K1 in H
      as (? & ? & ? & ? & ? & ? & ? & ? & ? & _ & _ & _ & _ & _ & ->).
    repeat split. by eexists _, _.
  - destruct (generateKeyPair_X25519 ed25519 secp256k1 this w) as (e & w0 & He).
    congruence.
Qed.

Lemma slice_halves (c : byte) (X Y : bytes) :
  length X = 32 -> length Y = 32 ->
  ANPKeyGenerator.slice (c :: X ++ Y) 1 33 = X
  /\ ANPKeyGenerator.slice (c :: X ++ Y) 33 65 = Y.
Proof.
  intros HX HY. unfold ANPKeyGenerator.slice. split.
  - change (33 - 1) with 32. change (skipn 1 (c :: X ++ Y)) with (X ++ Y).
    by apply take_app_length'.
  - change (65 - 33) with 32. change (skipn 33 (c :: X ++ Y)) with (skipn 32 (X ++ Y)).
    rewrite (drop_app_length' X Y 32 (eq_sym HX)). apply take_ge. lia.
Qed.

Lemma generateJWK_SECP256K1 (publicKey : bytes) (w : World) :
  ANPKeyGenerator.generateJWK publicKey SECP256K1 w
  = (Ok {| crv := "secp256k1";
           x := Some (base64url_encode (ANPKeyGenerator.slice publicKey 1 33));
           y := Some (base64url_encode (ANPKeyGenerator.slice publicKey 33 65));
           kty := "EC";
           kid := base64url_encode (map (entropy w) (seq (consumed w) 16)) |},
     {| entropy := entropy w; consumed := consumed w + 16; clock := clock w |}).
Proof. reflexivity. Qed.

Section Document.
Import ANPKeyGenerator.
Variables ed25519 secp256k1 : Curve.

Lemma generateNonce_16 (w : World) :
  generateNonce 16 w
  = (Ok (base64url_encode (map (entropy w) (seq (consumed w) 16))),
     {| entropy := entropy w; consumed := consumed w + 16; clock := clock w |}).
Proof. reflexivity. Qed.

Lemma generateEd25519KeyPair_inv (C : Curve) (w w' : World) (pair : RawKeyPair) :
  generateEd25519KeyPair C w = (Ok pair, w') ->
  randomPrivateKey C w = (Ok (privateKey pair), w')
  /\ getPublicKey C (privateKey pair) = Ok (publicKey pair).
Proof.
  unfold generateEd25519KeyPair. intros H.
  apply bind_Ok in H as (sk & w1 & Hsk & H).
  apply bind_Ok in H as (pk & w2 & Hpk & H).
  apply ret_Ok in H as [<- <-]. unfold lift_result in Hpk.
  injection Hpk as Hpk <-. by split.
Qed.

Lemma generateSecp256k1KeyPair_inv (C : Curve) (w w' : World) (pair : RawKeyPair) :
  generateSecp256k1KeyPair C w = (Ok pair, w') ->
  randomPrivateKey C w = (Ok (privateKey pair), w')
  /\ getPublicKey C (privateKey pair) = Ok (publicKey pair).
Proof. apply generateEd25519KeyPair_inv. Qed.

(** C5 (as amended): a successful [generateKeyPair] lists exactly three
    verification methods. The first is the primary one, of the requested
    type, with the random key id, named by its id in [authentication].
    The second, "#key-2", typed X25519, carries the public key of a
    private key drawn from the Ed25519 library; [keyAgreement] holds
    this object itself, not its id. The third, "#key-3", typed Ed25519,
    carries the public key of a further private key drawn from the
    Ed25519 library; [humanAuthorization] holds the id of the primary
    method and then this object itself. *)
Theorem generateKeyPair_three_methods
    (this : t) (keyType : KeyType) (w w' : World) (r : KeyPairResult) :
  generateKeyPair ed25519 secp256k1 this keyType w = (Ok r, w') ->
  exists authMethod w1 agreementKey agreementPublic w2 humanKey humanPublic,
    randomPrivateKey ed25519 w1 = (Ok agreementKey, w2)
    /\ getPublicKey ed25519 agreementKey = Ok agreementPublic
    /\ randomPrivateKey ed25519 w2 = (Ok humanKey, w')
    /\ getPublicKey ed25519 humanKey = Ok humanPublic
    /\ let keyAgreementMethod :=
         {| vm_id := did r +:+ "#key-2";
            vm_type := "X25519KeyAgreementKey2019";
            vm_controller := did r;
            publicKeyJwk := None;
            publicKeyMultibase := Some ("z" +:+ bs58_encode agreementPublic) |} in
       let humanAuthMethod :=
         {| vm_id := did r +:+ "#key-3";
            vm_type := "Ed25519VerificationKey2020";
            vm_controller := did r;
            publicKeyJwk := None;
            publicKeyMultibase := Some ("z" +:+ bs58_encode humanPublic) |} in
       (keyType = ED25519 \/ keyType = SECP256K1)
       /\ vm_id authMethod
          = did r +:+ "#"
            +:+ base64url_encode (map (entropy w) (seq (consumed w) 16))
       /\ vm_type authMethod
          = match keyType with
            | ED25519 => "Ed25519VerificationKey2020"
            | SECP256K1 => "EcdsaSecp256k1VerificationKey2019"
            | X25519 => "X25519KeyAgreementKey2019"
            end
       /\ vm_controller authMethod = did r
       /\ verificationMethod (did_document r)
          = Some [authMethod; keyAgreementMethod; humanAuthMethod]
       /\ authentication (did_document r) = [ById (vm_id authMethod)]
       /\ keyAgreement (did_document r) = Some [Embedded keyAgreementMethod]
       /\ humanAuthorization (did_document r)
          = Some [ById (vm_id authMethod); Embedded humanAuthMethod]
       /\ ~ keyAgreement_referenced (did_document r).
Proof.
  destruct keyType.
  - intros (keyId & w1 & kp & w2 & ka & w3 & ha & Hid & _ & Hka & Hha & ->)
      %generateKeyPair_ED25519.
    apply generateEd25519KeyPair_inv in Hka as [Hka Hkapk].
    apply generateEd25519KeyPair_inv in Hha as [Hha Hhapk].
    rewrite generateNonce_16 in Hid. injection Hid as <- _.
    eexists _, w2, (privateKey ka), (publicKey ka), w3, (privateKey ha), (publicKey ha).
    do 4 (split; [done|]). cbv zeta. split; [by left|].
    repeat match goal with |- _ /\ _ => split end.
    4: reflexivity. all: try done. by intros [id [=]].
  - intros (keyId & w1 & kp & w2 & jwk & w3 & ka & w4 & ha & Hid & _ & _ & Hka & Hha & ->)
      %generateKeyPair_SECP256K1.
    apply generateEd25519KeyPair_inv in Hka as [Hka Hkapk].
    apply generateEd25519KeyPair_inv in Hha as [Hha Hhapk].
    rewrite generateNonce_16 in Hid. injection Hid as <- _.
    eexists _, w3, (privateKey ka), (publicKey ka), w4, (privateKey ha), (publicKey ha).
    do 4 (split; [done|]). cbv zeta. split; [by right|].
    repeat match goal with |- _ /\ _ => split end.
    4: reflexivity. all: try done. by intros [id [=]].
  - intros H. destruct (generateKeyPair_X25519 ed25519 secp256k1 this w) as (e & w0 & He).
    congruence.
Qed.

(** C6: the multibase text of a public key is "z" followed by its
    base58 text, which reads back as the key. With the Ed25519 type,
    the three methods carry in this form the public keys the Ed25519
    library derives from three private keys drawn in turn, and no JWK;
    the private key returned is the first of them. With the secp256k1
    type, the primary method carries no multibase text but a JWK with
    [kty] "EC" and [crv] "secp256k1", whose [x] and [y] are the
    base64url texts of the two 32-octet halves after the first octet of
    the 65-octet public key of the drawn private key, and whose [kid] is
    the base64url text of the next 16 octets of the random source; the
    two other methods carry Ed25519 keys in multibase as before. *)
Theorem public_key_encodings (this : t) (w w' : World) (r : KeyPairResult) :
  let drawn n w :=
    {| entropy := entropy w; consumed := consumed w + n; clock := clock w |} in
  (forall publicKey,
     encodeMultibase publicKey = "z" +:+ bs58_encode publicKey
     /\ bs58_decode (bs58_encode publicKey) = Some publicKey)
  /\ (generateKeyPair ed25519 secp256k1 this ED25519 w = (Ok r, w') ->
      exists sk w2 pk sk2 w3 pk2 sk3 pk3 authMethod method2 method3,
        randomPrivateKey ed25519 (drawn 16 w) = (Ok sk, w2)
        /\ getPublicKey ed25519 sk = Ok pk
        /\ randomPrivateKey ed25519 w2 = (Ok sk2, w3)
        /\ getPublicKey ed25519 sk2 = Ok pk2
        /\ randomPrivateKey ed25519 w3 = (Ok sk3, w')
        /\ getPublicKey ed25519 sk3 = Ok pk3
        /\ private_key r = generatePEMPrivateKey sk ED25519
        /\ verificationMethod (did_document r) = Some [authMethod; method2; method3]
        /\ publicKeyMultibase authMethod = Some ("z" +:+ bs58_encode pk)
        /\ publicKeyMultibase method2 = Some ("z" +:+ bs58_encode pk2)
        /\ publicKeyMultibase method3 = Some ("z" +:+ bs58_encode pk3)
        /\ publicKeyJwk authMethod = None
        /\ publicKeyJwk method2 = None
        /\ publicKeyJwk method3 = None)
  /\ (generateKeyPair ed25519 secp256k1 this SECP256K1 w = (Ok r, w') ->
      exists sk w2 pk sk2 w3 pk2 sk3 pk3 authMethod jwk method2 method3,
        randomPrivateKey secp256k1 (drawn 16 w) = (Ok sk, w2)
        /\ getPublicKey secp256k1 sk = Ok pk
        /\ randomPrivateKey ed25519 (drawn 16 w2) = (Ok sk2, w3)
        /\ getPublicKey ed25519 sk2 = Ok pk2
        /\ randomPrivateKey ed25519 w3 = (Ok sk3, w')
        /\ getPublicKey ed25519 sk3 = Ok pk3
        /\ private_key r = generatePEMPrivateKey sk SECP256K1
        /\ verificationMethod (did_document r) = Some [authMethod; method2; method3]
        /\ publicKeyMultibase authMethod = None
        /\ publicKeyJwk authMethod = Some jwk
        /\ kty jwk = "EC" /\ crv jwk = "secp256k1"
        /\ base64url_decode (kid jwk) = map (entropy w2) (seq (consumed w2) 16)
        /\ (forall X Y : bytes,
              pk = "004"%char :: X ++ Y -> length X = 32 -> length Y = 32 ->
              x jwk = Some (base64url_encode X)
              /\ y jwk = Some (base64url_encode Y)
              /\ base64url_decode (base64url_encode X) = X
              /\ base64url_decode (base64url_encode Y) = Y)
        /\ publicKeyMultibase method2 = Some ("z" +:+ bs58_encode pk2)
        /\ publicKeyMultibase method3 = Some ("z" +:+ bs58_encode pk3)
        /\ publicKeyJwk method2 = None
        /\ publicKeyJwk method3 = None).
Proof.
  cbv zeta. split; [|split].
  - intros publicKey. split; [done | apply bs58_decode_encode].
  - intros (keyId & w1 & kp & w2 & ka & w3 & ha & Hid & Hkp & Hka & Hha & ->)
      %generateKeyPair_ED25519.
    rewrite generateNonce_16 in Hid. injection Hid as <- <-.
    apply generateEd25519KeyPair_inv in Hkp as [Hkp Hkppk].
    apply generateEd25519KeyPair_inv in Hka as [Hka Hkapk].
    apply generateEd25519KeyPair_inv in Hha as [Hha Hhapk].
    eexists (privateKey kp), w2, (publicKey kp), (privateKey ka), w3, (publicKey ka),
      (privateKey ha), (publicKey ha), _, _, _.
    do 7 (split; [done|]). split; [reflexivity|]. by repeat split.
  - intros (keyId & w1 & kp & w2 & jwk & w3 & ka & w4 & ha & Hid & Hkp & Hjwk & Hka & Hha & ->)
      %generateKeyPair_SECP256K1.
    rewrite generateNonce_16 in Hid. injection Hid as <- <-.
    apply generateSecp256k1KeyPair_inv in Hkp as [Hkp Hkppk].
    apply generateEd25519KeyPair_inv in Hka as [Hka Hkapk].
    apply generateEd25519KeyPair_inv in Hha as [Hha Hhapk].
    rewrite generateJWK_SECP256K1 in Hjwk. injection Hjwk as <- <-.
    eexists (privateKey kp), w2, (publicKey kp), (privateKey ka), w4, (publicKey ka),
      (privateKey ha), (publicKey ha), _, _, _, _.
    do 7 (split; [done|]). split; [reflexivity|]. split; [done|].
    split; [reflexivity|]. split; [done|]. split; [done|].
    cbn [kid x y]. split; [apply base64url_decode_encode|].
    split; [|by repeat split].
    intros X Y HXY HX HY. rewrite HXY.
    destruct (slice_halves "004"%char X Y HX HY) as [-> ->].
    by rewrite !base64url_decode_encode.
Qed.

(** C7 (as amended): the DID of the document is
    "did:wba:<domain>:<path>" when the path is given and not empty, and
    "did:wba:<domain>" when it is missing or empty; the document has
    one service entry, of type "AgentDescription", whose endpoint is
    "https://<domain>/agents/<path>/ad.json", with "default" for a
    missing or empty path. *)
Theorem did_and_service_endpoint
    (this : t) (keyType : KeyType) (w w' : World) (r : KeyPairResult) :
  generateKeyPair ed25519 secp256k1 this keyType w = (Ok r, w') ->
  did r = doc_id (did_document r)
  /\ doc_id (did_document r)
     = match path this with
       | Some p => if String.eqb p "" then "did:wba:" +:+ domain this
                   else "did:wba:" +:+ domain this +:+ ":" +:+ p
       | None => "did:wba:" +:+ domain this
       end
  /\ service (did_document r)
     = Some [{| svc_id := did r +:+ "#agent-description";
                svc_type := "AgentDescription";
                serviceEndpoint :=
                  "https://" +:+ domain this +:+ "/agents/"
                  +:+ match path this with
                      | Some p => if String.eqb p "" then "default" else p
                      | None => "default"
                      end
                  +:+ "/ad.json";
                svc_description := None |}]
  /\ (domain this = "example.com" -> path this = Some "user:alice" ->
      doc_id (did_document r) = "did:wba:example.com:user:alice"
      /\ service (did_document r)
         = Some [{| svc_id := "did:wba:example.com:user:alice#agent-description";
                    svc_type := "AgentDescription";
                    serviceEndpoint := "https://example.com/agents/user:alice/ad.json";
                    svc_description := None |}]).
Proof.
  assert (Hdid : generateDID this
                 = match path this with
                   | Some p => if String.eqb p "" then "did:wba:" +:+ domain this
                               else "did:wba:" +:+ domain this +:+ ":" +:+ p
                   | None => "did:wba:" +:+ domain this
                   end).
  { unfold generateDID, truthy. destruct (path this) as [p|]; [|done].
    by destruct (String.eqb p ""). }
  assert (Hsvc : agentDescriptionService this
                 = {| svc_id := generateDID this +:+ "#agent-description";
                      svc_type := "AgentDescription";
                      serviceEndpoint :=
                        "https://" +:+ domain this +:+ "/agents/"
                        +:+ match path this with
                            | Some p => if String.eqb p "" then "default" else p
                            | None => "default"
                            end
                        +:+ "/ad.json";
                      svc_description := None |}).
  { unfold agentDescriptionService, truthy. destruct (path this) as [p|]; [|done].
    by destruct (String.eqb p ""). }
  intros H.
  destruct (generateKeyPair_document ed25519 secp256k1 this keyType w w' r H)
    as (Hd & Hid & Hs & _). rewrite Hd, Hid, Hs, Hsvc, Hdid.
  do 3 (split; [done|]). intros Hdom Hpath. by rewrite Hdom, Hpath.
Qed.
End Document.

Lemma generateKeyPair_three_methods_witness :
  let did := "did:wba:example.com:user:alice" in
  let method id type key :=
    {| vm_id := did +:+ "#" +:+ id; vm_type := type; vm_controller := did;
       publicKeyJwk := None; publicKeyMultibase := Some key |} in
  (exists r w',
     ANPKeyGenerator.generateKeyPair demo_ed25519 demo_secp256k1 example_generator
       ED25519 demo_world = (Ok r, w')
     /\ verificationMethod (did_document r)
        = Some [method "AQIDBAUGBwgJCgsMDQ4PEA" "Ed25519VerificationKey2020"
                  "z4F6JAwG9peyf8ngt5CdSKRW425g3oRKapv1FmsEJ7c7i";
                method "key-2" "X25519KeyAgreementKey2019"
                  "z6QVkkaAUkCUubgh82m4qdSCTqAQVMTHphyLFe2fU2GSL";
                method "key-3" "Ed25519VerificationKey2020"
                  "z8ZuDLD4ofjzA4ahMzKWEwStseF8vuVG4b2fFWC6dvvkx"]
     /\ authentication (did_document r) = [ById (did +:+ "#AQIDBAUGBwgJCgsMDQ4PEA")]
     /\ keyAgreement (did_document r)
        = Some [Embedded (method "key-2" "X25519KeyAgreementKey2019"
                            "z6QVkkaAUkCUubgh82m4qdSCTqAQVMTHphyLFe2fU2GSL")]
     /\ humanAuthorization (did_document r)
        = Some [ById (did +:+ "#AQIDBAUGBwgJCgsMDQ4PEA");
                Embedded (method "key-3" "Ed25519VerificationKey2020"
                            "z8ZuDLD4ofjzA4ahMzKWEwStseF8vuVG4b2fFWC6dvvkx")])
  /\ (exists r w' authMethod,
        ANPKeyGenerator.generateKeyPair demo_ed25519 demo_secp256k1 example_generator
          SECP256K1 demo_world = (Ok r, w')
        /\ vm_id authMethod = did +:+ "#AQIDBAUGBwgJCgsMDQ4PEA"
        /\ vm_type authMethod = "EcdsaSecp256k1VerificationKey2019"
        /\ verificationMethod (did_document r)
           = Some [authMethod;
                   method "key-2" "X25519KeyAgreementKey2019"
                     "z7VCV3PceCyEXq8hF1YHYHSYfjhmi8UGweVzka7P3ybbe";
                   method "key-3" "Ed25519VerificationKey2020"
                     "z9ebwd2Wy8WjnJ2hUy6iwbTF5YnW9gWFBXZKkSGpDtFvG"]
        /\ authentication (did_document r) = [ById (vm_id authMethod)]
        /\ keyAgreement (did_document r)
           = Some [Embedded (method "key-2" "X25519KeyAgreementKey2019"
                               "z7VCV3PceCyEXq8hF1YHYHSYfjhmi8UGweVzka7P3ybbe")]
        /\ humanAuthorization (did_document r)
           = Some [ById (vm_id authMethod);
                   Embedded (method "key-3" "Ed25519VerificationKey2020"
                               "z9ebwd2Wy8WjnJ2hUy6iwbTF5YnW9gWFBXZKkSGpDtFvG")]).
Proof.
  cbv zeta. split.
  - destruct (ANPKeyGenerator.generateKeyPair demo_ed25519 demo_secp256k1
                example_generator ED25519 demo_world) as [[r|e] w'] eqn:E;
      [|vm_compute in E; discriminate].
    destruct (generateKeyPair_three_methods demo_ed25519 demo_secp256k1
                example_generator ED25519 demo_world w' r E)
      as (am & w1 & ska & pka & w2 & skh & pkh & _ & _ & _ & _ & _ & _ & _ & _
          & Hvm & Hauth & Hka & Hha & _).
    exists r, w'. split; [reflexivity|]. rewrite Hauth, Hka, Hha.
    vm_compute in E. injection E as <- <-.
    injection Hvm as <- Hm2 Hm3. cbn [did vm_id]. rewrite <- Hm2, <- Hm3.
    by repeat split.
  - destruct (ANPKeyGenerator.generateKeyPair demo_ed25519 demo_secp256k1
                example_generator SECP256K1 demo_world) as [[r|e] w'] eqn:E;
      [|vm_compute in E; discriminate].
    destruct (generateKeyPair_three_methods demo_ed25519 demo_secp256k1
                example_generator SECP256K1 demo_world w' r E)
      as (am & w1 & ska & pka & w2 & skh & pkh & _ & _ & _ & _ & _ & Hid & Hty & _
          & Hvm & Hauth & Hka & Hha & _).
    exists r, w', am. split; [reflexivity|]. rewrite Hauth, Hka, Hha, Hvm.
    vm_compute in E. injection E as <- <-.
    injection Hvm as _ Hm2 Hm3. cbn [did vm_id] in *. rewrite <- Hm2, <- Hm3.
    split; [exact Hid|]. split; [exact Hty|]. by repeat split.
Defined.

(** C5 (as stated) fails on [keyAgreement]: its entry is not a
    reference to the key-agreement method but the method itself, as for
    the third key in [humanAuthorization]. *)
Lemma keyAgreement_reference_counterexample :
  ~ (forall this keyType w w' r,
       ANPKeyGenerator.generateKeyPair demo_ed25519 demo_secp256k1 this keyType w
       = (Ok r, w') ->
       keyAgreement_referenced (did_document r))
  /\ exists r w',
    ANPKeyGenerator.generateKeyPair demo_ed25519 demo_secp256k1 example_generator
      ED25519 demo_world = (Ok r, w')
    /\ keyAgreement (did_document r)
       = Some [Embedded
                 {| vm_id := "did:wba:example.com:user:alice#key-2";
                    vm_type := "X25519KeyAgreementKey2019";
                    vm_controller := "did:wba:example.com:user:alice";
                    publicKeyJwk := None;
                    publicKeyMultibase :=
                      Some "z6QVkkaAUkCUubgh82m4qdSCTqAQVMTHphyLFe2fU2GSL" |}]
    /\ ~ keyAgreement_referenced (did_document r).
Proof.
  assert (Hrun : exists r w',
            ANPKeyGenerator.generateKeyPair demo_ed25519 demo_secp256k1
              example_generator ED25519 demo_world = (Ok r, w')
            /\ keyAgreement (did_document r)
               = Some [Embedded
                         {| vm_id := "did:wba:example.com:user:alice#key-2";
                            vm_type := "X25519KeyAgreementKey2019";
                            vm_controller := "did:wba:example.com:user:alice";
                            publicKeyJwk := None;
                            publicKeyMultibase :=
                              Some "z6QVkkaAUkCUubgh82m4qdSCTqAQVMTHphyLFe2fU2GSL" |}]).
  { eexists _, _. split; [vm_compute; reflexivity | reflexivity]. }
  destruct Hrun as (r & w' & Hrun & Hka). split.
  - intros H. destruct (H _ _ _ _ _ Hrun) as [id Hid]. congruence.
  - exists r, w'. split; [exact Hrun|]. split; [exact Hka|].
    intros [id Hid]. congruence.
Qed.

Lemma public_key_encodings_witness :
  (exists r w' m1 m2 m3,
     ANPKeyGenerator.generateKeyPair demo_ed25519 demo_secp256k1 example_generator
       ED25519 demo_world = (Ok r, w')
     /\ verificationMethod (did_document r) = Some [m1; m2; m3]
     /\ publicKeyMultibase m1 = Some "z4F6JAwG9peyf8ngt5CdSKRW425g3oRKapv1FmsEJ7c7i"
     /\ publicKeyMultibase m2 = Some "z6QVkkaAUkCUubgh82m4qdSCTqAQVMTHphyLFe2fU2GSL"
     /\ publicKeyMultibase m3 = Some "z8ZuDLD4ofjzA4ahMzKWEwStseF8vuVG4b2fFWC6dvvkx"
     /\ bs58_decode "4F6JAwG9peyf8ngt5CdSKRW425g3oRKapv1FmsEJ7c7i"
        = Some (map ascii_of_nat (rev (seq 17 32))))
  /\ (exists r w' m1 m2 m3,
        ANPKeyGenerator.generateKeyPair demo_ed25519 demo_secp256k1 example_generator
          SECP256K1 demo_world = (Ok r, w')
        /\ verificationMethod (did_document r) = Some [m1; m2; m3]
        /\ publicKeyMultibase m1 = None
        /\ publicKeyJwk m1
           = Some {| crv := "secp256k1";
                     x := Some "MC8uLSwrKikoJyYlJCMiISAfHh0cGxoZGBcWFRQTEhE";
                     y := Some "ERITFBUWFxgZGhscHR4fICEiIyQlJicoKSorLC0uLzA";
                     kty := "EC";
                     kid := "MTIzNDU2Nzg5Ojs8PT4_QA" |}
        /\ publicKeyMultibase m2 = Some "z7VCV3PceCyEXq8hF1YHYHSYfjhmi8UGweVzka7P3ybbe"
        /\ publicKeyMultibase m3 = Some "z9ebwd2Wy8WjnJ2hUy6iwbTF5YnW9gWFBXZKkSGpDtFvG").
Proof.
  split.
  - destruct (ANPKeyGenerator.generateKeyPair demo_ed25519 demo_secp256k1
                example_generator ED25519 demo_world) as [[r|e] w'] eqn:E;
      [|vm_compute in E; discriminate].
    destruct (proj1 (proj2 (public_key_encodings demo_ed25519 demo_secp256k1
                              example_generator demo_world w' r)) E)
      as (sk & w2 & pk & sk2 & w3 & pk2 & sk3 & pk3 & m1 & m2 & m3
          & Hsk & Hpk & _ & _ & _ & _ & _ & Hvm & Hm1 & _).
    pose proof (proj2 (proj1 (public_key_encodings demo_ed25519 demo_secp256k1
                                example_generator demo_world w' r) pk)) as Hback.
    exists r, w', m1, m2, m3. split; [reflexivity|]. split; [exact Hvm|].
    vm_compute in Hsk. injection Hsk as <- <-.
    vm_compute in Hpk. injection Hpk as <-.
    vm_compute in E. injection E as <- <-.
    injection Hvm as <- <- <-.
    split; [reflexivity|]. split; [reflexivity|]. split; [reflexivity|].
    exact Hback.
  - destruct (ANPKeyGenerator.generateKeyPair demo_ed25519 demo_secp256k1
                example_generator SECP256K1 demo_world) as [[r|e] w'] eqn:E;
      [|vm_compute in E; discriminate].
    destruct (proj2 (proj2 (public_key_encodings demo_ed25519 demo_secp256k1
                              example_generator demo_world w' r)) E)
      as (sk & w2 & pk & sk2 & w3 & pk2 & sk3 & pk3 & m1 & jwk & m2 & m3
          & _ & _ & _ & _ & _ & _ & _ & Hvm & _).
    exists r, w', m1, m2, m3. split; [reflexivity|]. split; [exact Hvm|].
    vm_compute in E. injection E as <- <-.
    injection Hvm as <- <- <-. by repeat split.
Defined.

Lemma did_and_service_endpoint_witness :
  exists r w',
    ANPKeyGenerator.generateKeyPair demo_ed25519 demo_secp256k1 example_generator
      ED25519 demo_world = (Ok r, w')
    /\ doc_id (did_document r) = "did:wba:example.com:user:alice"
    /\ serviceEndpoint <$> default [] (service (did_document r))
       = ["https://example.com/agents/user:alice/ad.json"].
Proof.
  destruct (ANPKeyGenerator.generateKeyPair demo_ed25519 demo_secp256k1
              example_generator ED25519 demo_world) as [[r|e] w'] eqn:E;
    [|vm_compute in E; discriminate].
  destruct (did_and_service_endpoint demo_ed25519 demo_secp256k1
              example_generator ED25519 demo_world w' r E)
    as (_ & _ & _ & Hex).
  destruct (Hex eq_refl eq_refl) as [Hid Hsvc].
  exists r, w'. rewrite Hid, Hsvc. repeat split.
Defined.

(** C7 (as stated) fails for a path that is given and empty: the code
    treats the empty string as no path, so the DID has no trailing
    ":<path>" and the endpoint has "default" where the path would be. *)
Lemma empty_path_counterexample :
  ANPKeyGenerator.generateDID empty_path_generator = "did:wba:example.com"
  /\ did_as_specified "example.com" (Some "") = "did:wba:example.com:"
  /\ exists r w',
       ANPKeyGenerator.generateKeyPair demo_ed25519 demo_secp256k1 empty_path_generator
         ED25519 demo_world = (Ok r, w')
       /\ doc_id (did_document r) <> did_as_specified "example.com" (Some "")
       /\ serviceEndpoint <$> default [] (service (did_document r))
          = ["https://example.com/agents/default/ad.json"]
       /\ serviceEndpoint <$> default [] (service (did_document r))
          <> [endpoint_as_specified "example.com" (Some "")].
Proof.
  split; [reflexivity|]. split; [reflexivity|].
  eexists _, _. split; [vm_compute; reflexivity|].
  repeat split; vm_compute; congruence.
Qed.

(** ** [DIDAutoConfig] *)

Section AutoConfig.
Import DIDAutoConfig.
Variables ed25519 secp256k1 : Curve.

Lemma try_catchM_rethrow {S A} (body : M S A) (s : S) :
  try_catchM body (fun error => throw error) s = body s.
Proof. unfold try_catchM, throw. by destruct (body s) as [[a|e] s']. Qed.

Lemma generateDIDAndKeys_run (domain : string) (port : option N) (c : t) (w : World) :
  generateDIDAndKeys ed25519 secp256k1 domain port (c, w)
  = match ANPKeyGenerator.generateKeyPair ed25519 secp256k1 (generator_of domain port)
            (opt_keyType (options c)) w with
    | (Ok keyPair, w1) =>
        (Ok tt,
         ({| options := options c;
             autoDid := Some (did keyPair);
             privateKey := Some (private_key keyPair);
             publicKey :=
               match verificationMethod (did_document keyPair) with
               | Some (vm0 :: _) => publicKeyMultibase vm0
               | _ => publicKey c
               end;
             didDocument := Some (did_document keyPair);
             agentDescription_ := agentDescription_ c |}, w1))
    | (Throw e, w1) => (Throw e, (c, w1))
    end.
Proof.
  unfold generateDIDAndKeys, bind, this_, gets, in_world, update, modify, ret.
  cbn [fst snd]. fold (fullDomain_of domain port). fold (generator_of domain port).
  destruct (ANPKeyGenerator.generateKeyPair _ _ _ _ _) as [[kp|e] w1]; [|done].
  cbn [fst snd]. destruct (verificationMethod (did_document kp)) as [[|vm0 ?]|]; done.
Qed.

Lemma configureDIDDocument_run (c : t) (w : World) (doc : DIDDocument) :
  didDocument c = Some doc ->
  configureDIDDocument (c, w)
  = (Ok tt,
     (set_didDocument
        (Some (set_service
                 (Some (configured_services (opt_serviceEndpoints (options c))
                          (service doc))) doc)) c, w)).
Proof.
  intros Hdoc.
  unfold configureDIDDocument, bind, get_object, this_, gets, update, modify.
  cbn [fst snd]. rewrite Hdoc. cbn [fst snd].
  destruct (opt_serviceEndpoints (options c)) as [|ep eps].
  - cbn. by destruct doc as [? ? ? ? ? ? [l|]].
  - cbn. by rewrite andb_false_r.
Qed.

Lemma generateAgentDescription_run (c : t) (w : World) :
  generateAgentDescription (c, w)
  = (Ok tt,
     (set_agentDescription
        (Some (description_of (options c) (autoDid c) (clock w)
                 (match didDocument c with
                  | Some doc =>
                      match service doc with
                      | Some (s0 :: _) => serviceEndpoint s0
                      | _ => "http://localhost:3000/anp/api"
                      end
                  | None => "http://localhost:3000/anp/api"
                  end))) c, w)).
Proof. by destruct w. Qed.

(** The whole of [autoSetup], step by step. *)
Lemma autoSetup_run (domain : string) (port : option N) (c : t) (w : World) :
  autoSetup ed25519 secp256k1 domain port (c, w)
  = match ANPKeyGenerator.generateKeyPair ed25519 secp256k1 (generator_of domain port)
            (opt_keyType (options c)) w with
    | (Ok keyPair, w1) =>
        let services :=
          configured_services (opt_serviceEndpoints (options c))
            (service (did_document keyPair)) in
        getConfig
          ({| options := options c;
              autoDid := Some (did keyPair);
              privateKey := Some (private_key keyPair);
              publicKey :=
                match verificationMethod (did_document keyPair) with
                | Some (vm0 :: _) => publicKeyMultibase vm0
                | _ => publicKey c
                end;
              didDocument :=
                Some (set_service (Some services) (did_document keyPair));
              agentDescription_ :=
                Some (description_of (options c) (Some (did keyPair)) (clock w1)
                        (match services with
                         | s0 :: _ => serviceEndpoint s0
                         | [] => "http://localhost:3000/anp/api"
                         end)) |}, w1)
    | (Throw e, w1) => (Throw e, (c, w1))
    end.
Proof.
  unfold autoSetup. rewrite try_catchM_rethrow.
  unfold bind at 1. rewrite generateDIDAndKeys_run.
  destruct (ANPKeyGenerator.generateKeyPair _ _ _ _ _) as [[kp|e] w1]; [|done].
  unfold bind at 1. erewrite configureDIDDocument_run by reflexivity.
  unfold bind at 1. rewrite generateAgentDescription_run. reflexivity.
Qed.

Lemma generateDID_truthy (g : ANPKeyGenerator.t) :
  truthy (Some (ANPKeyGenerator.generateDID g)) = true.
Proof. unfold ANPKeyGenerator.generateDID. by destruct (truthy (ANPKeyGenerator.path g)). Qed.

Lemma generatePEMPrivateKey_truthy (sk : bytes) (k : KeyType) :
  truthy (Some (ANPKeyGenerator.generatePEMPrivateKey sk k)) = true.
Proof. by destruct k. Qed.

Lemma encodeMultibase_truthy (pk : bytes) :
  truthy (Some (ANPKeyGenerator.encodeMultibase pk)) = true.
Proof. done. Qed.

(** Before any setup every accessor throws. *)
Lemma accessors_throw_before_setup (o : DIDAutoConfigOptions) (w : World) :
  let s := (constructor o, w) in
  fst (getConfig s) = Throw (Error "DID not configured yet. Call autoSetup() first.")
  /\ fst (getDID s) = Throw (Error "DID not configured yet. Call autoSetup() first.")
  /\ fst (getPrivateKey s)
     = Throw (Error "Private key not configured yet. Call autoSetup() first.")
  /\ fst (getPublicKey s)
     = Throw (Error "Public key not configured yet. Call autoSetup() first.")
  /\ fst (getDIDDocument s)
     = Throw (Error "DID document not configured yet. Call autoSetup() first.")
  /\ fst (getAgentDescription s)
     = Throw (Error "Agent description not configured yet. Call autoSetup() first.").
Proof. by repeat split. Qed.

Lemma getConfig_Ok (s s' : St) (cfg : DIDConfig) :
  getConfig s = (Ok cfg, s') ->
  s' = s
  /\ autoDid (fst s) = Some (cfg_did cfg) /\ truthy (Some (cfg_did cfg)) = true
  /\ privateKey (fst s) = Some (cfg_privateKey cfg)
  /\ truthy (Some (cfg_privateKey cfg)) = true
  /\ publicKey (fst s) = Some (cfg_publicKey cfg)
  /\ truthy (Some (cfg_publicKey cfg)) = true
  /\ didDocument (fst s) = Some (cfg_didDocument cfg)
  /\ agentDescription_ (fst s) = Some (cfg_agentDescription cfg)
  /\ cfg_keyType cfg = opt_keyType (options (fst s)).
Proof.
  unfold getConfig.
  destruct (autoDid (fst s)) as [d|]; [|done].
  destruct (privateKey (fst s)) as [sk|]; [|done].
  destruct (publicKey (fst s)) as [pk|]; [|by destruct (didDocument _), (agentDescription_ _)].
  destruct (didDocument (fst s)) as [doc|]; [|done].
  destruct (agentDescription_ (fst s)) as [ad|]; [|done].
  destruct (truthy (Some d)) eqn:Hd; [|done].
  destruct (truthy (Some sk)) eqn:Hsk; [|done].
  destruct (truthy (Some pk)) eqn:Hpk; [|done].
  cbn [andb]. by intros [= <- <-].
Qed.

(** After a setup that completed, every accessor returns what the
    setup returned. *)
Lemma accessors_after_setup (domain : string) (port : option N) (c : t) (w : World)
    (cfg : DIDConfig) (s' : St) :
  autoSetup ed25519 secp256k1 domain port (c, w) = (Ok cfg, s') ->
  getConfig s' = (Ok cfg, s')
  /\ getDID s' = (Ok (cfg_did cfg), s')
  /\ getPrivateKey s' = (Ok (cfg_privateKey cfg), s')
  /\ getPublicKey s' = (Ok (cfg_publicKey cfg), s')
  /\ getDIDDocument s' = (Ok (cfg_didDocument cfg), s')
  /\ getAgentDescription s' = (Ok (cfg_agentDescription cfg), s').
Proof.
  rewrite autoSetup_run.
  destruct (ANPKeyGenerator.generateKeyPair _ _ _ _ _) as [[kp|e] w1]; [|done].
  cbv zeta. intros H. pose proof (getConfig_Ok _ _ _ H)
    as (-> & Hd & Hdt & Hsk & Hskt & Hpk & Hpkt & Hdoc & Had & _).
  split; [done|].
  unfold getDID, getPrivateKey, getPublicKey, getDIDDocument, getAgentDescription,
    get_string, get_object.
  rewrite Hd, Hsk, Hpk, Hdoc, Had, Hdt, Hskt, Hpkt. done.
Qed.

(** With the Ed25519 type the setup completes whenever key generation
    does. *)
Lemma autoSetup_ED25519_completes (domain : string) (port : option N) (c : t)
    (w w1 : World) (keyPair : KeyPairResult) :
  opt_keyType (options c) = ED25519 ->
  ANPKeyGenerator.generateKeyPair ed25519 secp256k1 (generator_of domain port)
    ED25519 w = (Ok keyPair, w1) ->
  exists cfg s', autoSetup ed25519 secp256k1 domain port (c, w) = (Ok cfg, s').
Proof.
  intros Hk Hgen. rewrite autoSetup_run, Hk, Hgen. cbv zeta.
  destruct (generateKeyPair_document _ _ _ _ _ _ _ Hgen)
    as (Hdid & _ & _ & vm0 & others & Hvm & pk & Hpk).
  unfold getConfig. cbn [fst autoDid privateKey publicKey didDocument agentDescription_].
  rewrite Hvm, Hpk, Hdid, generateDID_truthy, encodeMultibase_truthy.
  apply generateKeyPair_ED25519 in Hgen
    as (? & ? & kp & ? & ? & ? & ? & _ & _ & _ & _ & ->).
  cbn [private_key]. rewrite generatePEMPrivateKey_truthy. by eexists _, _.
Qed.

(** C8, the failing case: with the secp256k1 type [autoSetup] never
    completes. Key generation writes the DID, the private key and the
    document, but the public key is read from [publicKeyMultibase] of
    the first verification method, which a secp256k1 method does not
    have; [getConfig], called at the end of [autoSetup], throws, and so
    do [getPublicKey] and [getConfig] ever after, while [getDID]
    returns. *)
Theorem autoSetup_secp256k1_never_completes
    (o : DIDAutoConfigOptions) (domain : string) (port : option N) (w : World) :
  let run :=
    autoSetup ed25519 secp256k1 domain port
      (constructor (with_keyType SECP256K1 o), w) in
  (exists e, fst run = Throw e)
  /\ (exists e, fst (getPublicKey (snd run)) = Throw e)
  /\ (exists e, fst (getConfig (snd run)) = Throw e)
  /\ (forall keyPair w1,
        ANPKeyGenerator.generateKeyPair ed25519 secp256k1 (generator_of domain port)
          SECP256K1 w = (Ok keyPair, w1) ->
        fst run = Throw (Error "DID not configured yet. Call autoSetup() first.")
        /\ fst (getDID (snd run)) = Ok (did keyPair)
        /\ fst (getPrivateKey (snd run)) = Ok (private_key keyPair)).
Proof.
  cbv zeta. rewrite autoSetup_run.
  change (opt_keyType (options (constructor (with_keyType SECP256K1 o)))) with SECP256K1.
  destruct (ANPKeyGenerator.generateKeyPair _ _ _ _ _) as [[kp|e] w1] eqn:Hgen.
  - destruct (generateKeyPair_document _ _ _ _ _ _ _ Hgen)
      as (Hdid & _ & _ & vm0 & others & Hvm & Hpk).
    assert (Hsk : truthy (Some (private_key kp)) = true).
    { apply generateKeyPair_SECP256K1 in Hgen
        as (? & ? & ? & ? & ? & ? & ? & ? & ? & _ & _ & _ & _ & _ & ->).
      apply generatePEMPrivateKey_truthy. }
    unfold getConfig, getPublicKey, getDID, getPrivateKey, get_string.
    cbn [fst snd autoDid privateKey publicKey didDocument agentDescription_].
    rewrite Hvm, Hpk. cbn [fst snd publicKey autoDid privateKey].
    rewrite Hsk, Hdid, generateDID_truthy.
    do 3 (split; [by eexists|]).
    intros ? ? [= <- <-]. cbn [fst]. by rewrite Hdid.
  - cbn [fst snd]. do 3 (split; [by eexists|]).
    intros ? ? [=].
Qed.

(** C10: when [autoSetup] completes, the document it exposes has, with
    no service endpoint configured, the generator's "AgentDescription"
    entry followed by the "default" entry of type "ANPAgentService" at
    "http://localhost:3000/anp/api"; with endpoints configured, it has
    one entry per endpoint, in their order, with the endpoint's id,
    type, address and description, and no other: the
    "AgentDescription" entry is gone. *)
Theorem autoSetup_service_entries (domain : string) (port : option N) (c : t)
    (w : World) (cfg : DIDConfig) (s' : St) :
  autoSetup ed25519 secp256k1 domain port (c, w) = (Ok cfg, s') ->
  getDIDDocument s' = (Ok (cfg_didDocument cfg), s')
  /\ (opt_serviceEndpoints (options c) = [] ->
      service (cfg_didDocument cfg)
      = Some [{| svc_id := cfg_did cfg +:+ "#agent-description";
                 svc_type := "AgentDescription";
                 serviceEndpoint :=
                   "https://" +:+ fullDomain_of domain port
                   +:+ "/agents/auto-agent/ad.json";
                 svc_description := None |};
              {| svc_id := "default";
                 svc_type := "ANPAgentService";
                 serviceEndpoint := "http://localhost:3000/anp/api";
                 svc_description := Some "Default ANP agent service endpoint" |}])
  /\ (opt_serviceEndpoints (options c) <> [] ->
      service (cfg_didDocument cfg)
      = Some (map (fun endpoint =>
                     {| svc_id := ep_id endpoint;
                        svc_type := ep_type endpoint;
                        serviceEndpoint := ep_serviceEndpoint endpoint;
                        svc_description := ep_description endpoint |})
                (opt_serviceEndpoints (options c)))
      /\ length (default [] (service (cfg_didDocument cfg)))
         = length (opt_serviceEndpoints (options c))
      /\ (Forall (fun endpoint => ep_type endpoint <> "AgentDescription")
            (opt_serviceEndpoints (options c)) ->
          Forall (fun s => svc_type s <> "AgentDescription")
            (default [] (service (cfg_didDocument cfg))))).
Proof.
  rewrite autoSetup_run.
  destruct (ANPKeyGenerator.generateKeyPair _ _ _ _ _) as [[kp|e] w1] eqn:Hgen; [|done].
  cbv zeta. intros H. pose proof (getConfig_Ok _ _ _ H)
    as (-> & Hd & _ & _ & _ & _ & _ & Hdoc & _ & _).
  cbn [fst autoDid didDocument] in Hd, Hdoc.
  injection Hd as Hd. injection Hdoc as Hdoc.
  destruct (generateKeyPair_document _ _ _ _ _ _ _ Hgen) as (Hdid & _ & Hsvc & _).
  split; [|split].
  - unfold getDIDDocument, get_object. cbn [fst didDocument]. by rewrite Hdoc.
  - intros Hnone. rewrite <- Hdoc, <- Hd, Hnone, Hsvc, Hdid. reflexivity.
  - intros Hsome. rewrite <- Hdoc. cbn [service set_service default from_option id].
    assert (Hmap : configured_services (opt_serviceEndpoints (options c))
                     (service (did_document kp))
                   = map (fun endpoint =>
                            {| svc_id := ep_id endpoint;
                               svc_type := ep_type endpoint;
                               serviceEndpoint := ep_serviceEndpoint endpoint;
                               svc_description := ep_description endpoint |})
                       (opt_serviceEndpoints (options c))).
    { by destruct (opt_serviceEndpoints (options c)). }
    rewrite Hmap. split; [done|]. split; [by rewrite length_map|].
    intros Hall. apply Forall_fmap. by apply (Forall_impl _ _ _ Hall).
Qed.
End AutoConfig.

Lemma findIndex_Some {A} (pred : A -> bool) (l : list A) (i : nat) :
  DIDAutoConfig.findIndex pred l = Some i ->
  (exists a, l !! i = Some a /\ pred a = true)
  /\ (forall j b, j < i -> l !! j = Some b -> pred b = false).
Proof.
  revert i. induction l as [|a l IH]; intros i; [done|]. simpl.
  destruct (pred a) eqn:Ha.
  - intros [= <-]. split; [by exists a | intros; lia].
  - destruct (DIDAutoConfig.findIndex pred l) as [i'|]; [|done].
    intros [= <-]. destruct (IH i' eq_refl) as [Hex Hbefore]. split; [done|].
    intros [|j] b Hj; simpl; [by intros [= <-]|].
    apply Hbefore. lia.
Qed.

Lemma findIndex_None {A} (pred : A -> bool) (l : list A) :
  DIDAutoConfig.findIndex pred l = None <-> Forall (fun a => pred a = false) l.
Proof.
  induction l as [|a l IH]; simpl; [by split; [constructor|]|].
  destruct (pred a) eqn:Ha.
  - split; [done | by intros [? _]%Forall_cons; congruence].
  - destruct (DIDAutoConfig.findIndex pred l).
    + split; [done|]. intros [_ H]%Forall_cons. by apply IH in H.
    + split; [|done]. intros _. constructor; [done | by apply IH].
Qed.

Section Update.
Import DIDAutoConfig.

(** C9: [updateServiceEndpoint] leaves the world, the other fields of
    the instance and the other fields of the document as they are.
    The entry it writes has the endpoint's id, type, address and
    description. When an entry has the endpoint's id, the first such
    entry is replaced where it stands, the others stay, and the length
    stays; when none has, the new entry is added at the end and the
    length grows by one. *)
Theorem updateServiceEndpoint_by_id
    (c : t) (w : World) (doc : DIDDocument) (endpoint : ServiceEndpoint) :
  didDocument c = Some doc ->
  let services := default [] (service doc) in
  let entry :=
    {| svc_id := ep_id endpoint;
       svc_type := ep_type endpoint;
       serviceEndpoint := ep_serviceEndpoint endpoint;
       svc_description := ep_description endpoint |} in
  exists c' doc' services',
    updateServiceEndpoint endpoint (c, w) = (Ok tt, (c', w))
    /\ didDocument c' = Some doc' /\ service doc' = Some services'
    /\ (options c' = options c /\ autoDid c' = autoDid c
        /\ privateKey c' = privateKey c /\ publicKey c' = publicKey c
        /\ agentDescription_ c' = agentDescription_ c)
    /\ (context doc' = context doc /\ doc_id doc' = doc_id doc
        /\ verificationMethod doc' = verificationMethod doc
        /\ authentication doc' = authentication doc
        /\ keyAgreement doc' = keyAgreement doc
        /\ humanAuthorization doc' = humanAuthorization doc)
    /\ ((exists s, s ∈ services /\ svc_id s = ep_id endpoint) ->
        length services' = length services
        /\ exists before old after,
             services = before ++ old :: after
             /\ svc_id old = ep_id endpoint
             /\ Forall (fun s0 => svc_id s0 <> ep_id endpoint) before
             /\ services' = before ++ entry :: after)
    /\ ((forall s, s ∈ services -> svc_id s <> ep_id endpoint) ->
        services' = services ++ [entry]
        /\ length services' = S (length services)).
Proof.
  intros Hdoc services entry.
  unfold updateServiceEndpoint, bind, get_object, update, modify. cbn [fst snd].
  rewrite Hdoc. fold services.
  change (entry_of endpoint) with entry.
  set (pred := fun s : Service => String.eqb (svc_id s) (ep_id endpoint)).
  destruct (findIndex pred services) as [i|] eqn:Hfind.
  - destruct (findIndex_Some pred services i Hfind) as [(s & Hs & Hp) Hbefore].
    apply String.eqb_eq in Hp.
    eexists _, _, (<[i := entry]> services).
    do 5 (split; [done|]). split.
    + intros _. split; [apply length_insert|].
      exists (take i services), s, (drop (S i) services).
      split; [by rewrite take_drop_middle|]. split; [done|]. split.
      * apply Forall_lookup. intros j s0 Hj.
        apply lookup_take_Some in Hj as [Hj Hlt].
        by apply String.eqb_neq, (Hbefore j s0).
      * apply lookup_lt_Some in Hs. by rewrite insert_take_drop.
    + intros Hnone. destruct (Hnone s); [|done].
      by apply list_elem_of_lookup_2 in Hs.
  - apply findIndex_None in Hfind.
    eexists _, _, (services ++ [entry]).
    do 5 (split; [done|]). split.
    + intros (s & Hin & Hid).
      apply (proj1 (Forall_forall _ _) Hfind) in Hin.
      unfold pred in Hin. apply String.eqb_neq in Hin. done.
    + intros _. split; [done|]. rewrite length_app. simpl. lia.
Qed.
End Update.

Lemma updateServiceEndpoint_by_id_witness :
  let description :=
    {| svc_id := "did:wba:example.com:user:alice#agent-description";
       svc_type := "AgentDescription";
       serviceEndpoint := "https://example.com/agents/user:alice/ad.json";
       svc_description := None |} in
  exists c1 c2,
    DIDAutoConfig.updateServiceEndpoint example_endpoint (example_instance, demo_world)
    = (Ok tt, (c1, demo_world))
    /\ service <$> DIDAutoConfig.didDocument c1
       = Some (Some [description;
                     {| svc_id := "default";
                        svc_type := "ANPAgentService";
                        serviceEndpoint := "https://example.com/anp/api";
                        svc_description := None |}])
    /\ DIDAutoConfig.updateServiceEndpoint other_endpoint (example_instance, demo_world)
       = (Ok tt, (c2, demo_world))
    /\ service <$> DIDAutoConfig.didDocument c2
       = Some (Some [description;
                     {| svc_id := "default";
                        svc_type := "ANPAgentService";
                        serviceEndpoint := "http://localhost:3000/anp/api";
                        svc_description := Some "Default ANP agent service endpoint" |};
                     {| svc_id := "chat";
                        svc_type := "ANPAgentService";
                        serviceEndpoint := "https://example.com/chat";
                        svc_description := Some "Chat" |}]).
Proof.
  cbv zeta.
  destruct (updateServiceEndpoint_by_id example_instance demo_world _ example_endpoint
              eq_refl)
    as (c1 & doc1 & replaced & Hrun1 & Hdoc1 & Hsvc1 & _ & _ & Hfound & _).
  destruct (updateServiceEndpoint_by_id example_instance demo_world _ other_endpoint
              eq_refl)
    as (c2 & doc2 & appended & Hrun2 & Hdoc2 & Hsvc2 & _ & _ & _ & Hfresh).
  destruct Hfresh as [Happended _].
  { intros s Hs. apply list_elem_of_In in Hs.
    destruct Hs as [<-|[<-|[]]]; vm_compute; discriminate. }
  destruct Hfound as [_ (before & old & after & Hsplit & Hid & Hbefore & Hreplaced)].
  { exists DIDAutoConfig.default_service. split; [|reflexivity].
    apply list_elem_of_In. right. left. reflexivity. }
  assert (before = [{| svc_id := "did:wba:example.com:user:alice#agent-description";
                       svc_type := "AgentDescription";
                       serviceEndpoint := "https://example.com/agents/user:alice/ad.json";
                       svc_description := None |}] /\ after = []) as [-> ->].
  { cbn in Hsplit. destruct before as [|b0 [|b1 before]].
    - injection Hsplit as <- _. exfalso. revert Hid. vm_compute. discriminate.
    - by injection Hsplit as <- <- <-.
    - exfalso. injection Hsplit as <- <- Hrest.
      apply Forall_cons in Hbefore as [_ Hbefore].
      apply Forall_cons in Hbefore as [Hne _]. by apply Hne. }
  exists c1, c2. split; [exact Hrun1|]. rewrite Hdoc1, Hdoc2.
  cbn [fmap option_fmap option_map]. rewrite Hsvc1, Hsvc2, Hreplaced, Happended.
  split; [reflexivity|]. split; [exact Hrun2 | reflexivity].
Defined.

Lemma autoSetup_service_entries_witness :
  (exists cfg s',
     DIDAutoConfig.autoSetup demo_ed25519 demo_secp256k1 "localhost" (Some 3000%N)
       (DIDAutoConfig.constructor DIDAutoConfig.no_options, demo_world) = (Ok cfg, s')
     /\ service (DIDAutoConfig.cfg_didDocument cfg)
        = Some [{| svc_id := "did:wba:localhost:3000:auto-agent#agent-description";
                   svc_type := "AgentDescription";
                   serviceEndpoint := "https://localhost:3000/agents/auto-agent/ad.json";
                   svc_description := None |};
                {| svc_id := "default";
                   svc_type := "ANPAgentService";
                   serviceEndpoint := "http://localhost:3000/anp/api";
                   svc_description := Some "Default ANP agent service endpoint" |}])
  /\ (exists cfg s',
        DIDAutoConfig.autoSetup demo_ed25519 demo_secp256k1 "localhost" (Some 3000%N)
          (DIDAutoConfig.constructor example_options, demo_world) = (Ok cfg, s')
        /\ service (DIDAutoConfig.cfg_didDocument cfg)
           = Some [{| svc_id := "default";
                      svc_type := "ANPAgentService";
                      serviceEndpoint := "https://example.com/anp/api";
                      svc_description := None |};
                   {| svc_id := "chat";
                      svc_type := "ANPAgentService";
                      serviceEndpoint := "https://example.com/chat";
                      svc_description := Some "Chat" |}]).
Proof.
  split.
  - destruct (DIDAutoConfig.autoSetup demo_ed25519 demo_secp256k1 "localhost"
                (Some 3000%N)
                (DIDAutoConfig.constructor DIDAutoConfig.no_options, demo_world))
      as [[cfg|e] s'] eqn:E; [|vm_compute in E; discriminate].
    destruct (autoSetup_service_entries demo_ed25519 demo_secp256k1 "localhost"
                (Some 3000%N) _ demo_world cfg s' E) as (_ & Hnone & _).
    exists cfg, s'. split; [reflexivity|]. rewrite (Hnone eq_refl).
    assert (Hdid : DIDAutoConfig.cfg_did cfg = "did:wba:localhost:3000:auto-agent").
    { vm_compute in E. by injection E as <- _. }
    by rewrite Hdid.
  - destruct (DIDAutoConfig.autoSetup demo_ed25519 demo_secp256k1 "localhost"
                (Some 3000%N) (DIDAutoConfig.constructor example_options, demo_world))
      as [[cfg|e] s'] eqn:E; [|vm_compute in E; discriminate].
    destruct (autoSetup_service_entries demo_ed25519 demo_secp256k1 "localhost"
                (Some 3000%N) _ demo_world cfg s' E) as (_ & _ & Hsome).
    exists cfg, s'. split; [reflexivity|].
    destruct Hsome as [Hsvc _]; [discriminate|]. exact Hsvc.
Defined.

(** The failing case of C8 on the stand-in libraries: key generation
    succeeds, [autoSetup] throws the not-configured error, and afterwards
    the DID is there and the public key is not. *)
Example autoSetup_secp256k1_demo :
  let run :=
    DIDAutoConfig.autoSetup demo_ed25519 demo_secp256k1 "localhost" (Some 3000%N)
      (DIDAutoConfig.constructor
         (DIDAutoConfig.with_keyType SECP256K1 DIDAutoConfig.no_options), demo_world) in
  fst run = Throw (Error "DID not configured yet. Call autoSetup() first.")
  /\ fst (DIDAutoConfig.getDID (snd run)) = Ok "did:wba:localhost:3000:auto-agent"
  /\ fst (DIDAutoConfig.getPublicKey (snd run))
     = Throw (Error "Public key not configured yet. Call autoSetup() first.").
Proof. vm_compute. repeat split. Qed.

(** ** Checks of the codecs against known values *)

Example SHA256_abc :
  hex_of_bytes (SHA256.digest (list_of_string "abc"))
  = "ba7816bf8f01cfea414140de5dae2223b00361a396177a9cb410ff61f20015ad".
Proof. vm_compute. reflexivity. Qed.

Example SHA256_empty :
  hex_of_bytes (SHA256.digest [])
  = "e3b0c44298fc1c149afbf4c8996fb92427ae41e4649b934ca495991b7852b855".
Proof. vm_compute. reflexivity. Qed.

Example SHA256_two_blocks :
  hex_of_bytes
    (SHA256.digest
       (list_of_string "abcdbcdecdefdefgefghfghighijhijkijkljklmklmnlmnomnopnopq"))
  = "248d6a61d20638b8e5c026930c3e6039a33ce45964ff2167f6ecedd419db06c1".
Proof. vm_compute. reflexivity. Qed.

Example bs58_encode_hello :
  bs58_encode (list_of_string "Hello World!") = "2NEpo7TZRRrLZSi2U".
Proof. vm_compute. reflexivity. Qed.

Example bs58_encode_leading_zeros :
  bs58_encode ["000"%char; "000"%char; "a"%char] = "112g".
Proof. vm_compute. reflexivity. Qed.

Example base64url_encode_no_padding :
  base64url_encode (list_of_string "Man is d") = "TWFuIGlzIGQ"
  /\ base64_encode (list_of_string "Man is d") = "TWFuIGlzIGQ=".
Proof. vm_compute. split; reflexivity. Qed.

Example base64url_decode_lenient :
  base64url_decode "TWFuIGlzIGQ=" = list_of_string "Man is d"
  /\ base64url_decode "TWFu IGlz IGQ" = list_of_string "Man is d".
Proof. vm_compute. split; reflexivity. Qed.

(** * Further properties of the code *)

(** ** More on the codecs *)

Lemma sextets_of_bytes_length (bs : bytes) :
  length (sextets_of_bytes bs) = (4 * length bs + 2) / 3.
Proof.
  assert (H : forall n (l : bytes), length l <= n ->
            length (sextets_of_bytes l) = (4 * length l + 2) / 3).
  { induction n as [|n IH]; intros l Hl.
    - destruct l; [done | simpl in Hl; lia].
    - destruct l as [|[a0 a1 a2 a3 a4 a5 a6 a7] [|[b0 b1 b2 b3 b4 b5 b6 b7]
        [|[c0 c1 c2 c3 c4 c5 c6 c7] rest]]]; try done.
      cbn [sextets_of_bytes length]. rewrite IH by (simpl in Hl; lia).
      replace (4 * S (S (S (length rest))) + 2) with (4 * length rest + 2 + 4 * 3) by lia.
      rewrite Nat.div_add by lia. lia. }
  by apply (H (length bs)).
Qed.

Lemma base64url_encode_length (bs : bytes) :
  String.length (base64url_encode bs) = (4 * length bs + 2) / 3.
Proof.
  unfold base64url_encode.
  by rewrite string_of_list_length, length_map, sextets_of_bytes_length.
Qed.

Lemma alphabet_char_url_safe (s : sextet) :
  In (alphabet_char base64url_alphabet s) (list_of_string base64url_alphabet).
Proof.
  destruct s as [[[[[[] []] []] []] []] []]; vm_compute; tauto.
Qed.

Lemma randomBytes_in_range (n : nat) (w : World) :
  (N.of_nat n <= 2147483647)%N ->
  randomBytes n w
  = (Ok (map (entropy w) (seq (consumed w) n)),
     {| entropy := entropy w; consumed := consumed w + n; clock := clock w |}).
Proof.
  intros Hn. unfold randomBytes, kMaxPossibleLength.
  by destruct (N.ltb_spec 2147483647 (N.of_nat n)); [lia|].
Qed.

Lemma randomBytes_out_of_range (n : nat) (w : World) :
  (2147483647 < N.of_nat n)%N ->
  randomBytes n w = (Throw (ERR_OUT_OF_RANGE_size (N.of_nat n)), w).
Proof.
  intros Hn. unfold randomBytes, kMaxPossibleLength.
  by destruct (N.ltb_spec 2147483647 (N.of_nat n)); [|lia].
Qed.



Lemma generateNonce_length (n : nat) (w w' : World) (s : string) :
  ANPKeyGenerator.generateNonce n w = (Ok s, w') -> String.length s = (4 * n + 2) / 3.
Proof.
  unfold ANPKeyGenerator.generateNonce, bind, randomBytes.
  destruct (_ <? _)%N; [done|]. intros [= <- _].
  by rewrite base64url_encode_length, length_map, length_seq.
Qed.

Lemma append_inj_l (s a b : string) : s +:+ a = s +:+ b -> a = b.
Proof. induction s as [|c s IH]; simpl; [done|]. intros [= H]. by apply IH. Qed.

Section MoreDocument.
Import ANPKeyGenerator.
Variables ed25519 secp256k1 : Curve.

(** The three methods of a generated document, whatever the key type. *)
Lemma generateKeyPair_methods
    (this : t) (keyType : KeyType) (w w' : World) (r : KeyPairResult) :
  generateKeyPair ed25519 secp256k1 this keyType w = (Ok r, w') ->
  exists keyId authMethod keyAgreementPair humanAuthPair,
    String.length keyId = 22
    /\ vm_id authMethod = did r +:+ "#" +:+ keyId
    /\ vm_controller authMethod = did r
    /\ verificationMethod (did_document r)
       = Some [authMethod; keyAgreementMethod_of (did r) keyAgreementPair;
               humanAuthMethod_of (did r) humanAuthPair]
    /\ authentication (did_document r) = [ById (vm_id authMethod)]
    /\ keyAgreement (did_document r)
       = Some [Embedded (keyAgreementMethod_of (did r) keyAgreementPair)]
    /\ humanAuthorization (did_document r)
       = Some [ById (vm_id authMethod);
               Embedded (humanAuthMethod_of (did r) humanAuthPair)].
Proof.
  destruct keyType.
  - intros (keyId & w1 & kp & w2 & ka & w3 & ha & Hid & _ & _ & _ & ->)
      %generateKeyPair_ED25519.
    apply generateNonce_length in Hid. eexists keyId, _, ka, ha. by repeat split.
  - intros (keyId & w1 & kp & w2 & jwk & w3 & ka & w4 & ha & Hid & _ & _ & _ & _ & ->)
      %generateKeyPair_SECP256K1.
    apply generateNonce_length in Hid. eexists keyId, _, ka, ha. by repeat split.
  - intros H. destruct (generateKeyPair_X25519 ed25519 secp256k1 this w) as (e & w0 & He).
    congruence.
Qed.

(** X2: in a generated document the ids of the three verification
    methods are pairwise distinct: the random key id is 22 characters
    long and so is never "key-2" or "key-3". Each id is the DID, "#" and
    a fragment, and each method is controlled by the DID. *)
Theorem verification_method_ids_distinct
    (this : t) (keyType : KeyType) (w w' : World) (r : KeyPairResult) :
  generateKeyPair ed25519 secp256k1 this keyType w = (Ok r, w') ->
  exists methods,
    verificationMethod (did_document r) = Some methods
    /\ NoDup (map vm_id methods)
    /\ Forall (fun m => vm_controller m = did r
                        /\ exists fragment, vm_id m = did r +:+ "#" +:+ fragment)
              methods.
Proof.
  intros (keyId & am & ka & ha & Hlen & Hid & Hc & Hvm & _)%generateKeyPair_methods.
  eexists. split; [exact Hvm|]. split.
  - cbn [map keyAgreementMethod_of humanAuthMethod_of vm_id]. rewrite Hid.
    assert (Hne : forall f, String.length f = 5 ->
                  did r +:+ "#" +:+ keyId <> did r +:+ "#" +:+ f).
    { intros f Hf Heq. apply append_inj_l in Heq. injection Heq as Heq.
      rewrite <- Heq in Hf. lia. }
    repeat constructor.
    + rewrite !elem_of_cons, elem_of_nil.
      intros [H|[H|[]]].
      * exact (Hne "key-2" eq_refl H).
      * exact (Hne "key-3" eq_refl H).
    + rewrite !elem_of_cons, elem_of_nil.
      intros [H|[]]. by apply append_inj_l in H.
    + apply not_elem_of_nil.
  - repeat constructor; try done.
    + by exists keyId.
    + by exists "key-2".
    + by exists "key-3".
Qed.

(** X3: in a generated document every entry of [authentication],
    [keyAgreement] and [humanAuthorization] resolves to a method listed
    in [verificationMethod], by id or as the method itself. *)
Theorem method_entries_resolve
    (this : t) (keyType : KeyType) (w w' : World) (r : KeyPairResult) :
  generateKeyPair ed25519 secp256k1 this keyType w = (Ok r, w') ->
  Forall (resolves (did_document r))
    (authentication (did_document r)
     ++ default [] (keyAgreement (did_document r))
     ++ default [] (humanAuthorization (did_document r))).
Proof.
  intros (keyId & am & ka & ha & _ & _ & _ & Hvm & Ha & Hk & Hh)%generateKeyPair_methods.
  rewrite Ha, Hk, Hh. unfold resolves. rewrite Hvm. cbn [default app].
  apply Forall_cons; split; [exists am; split; [left | done]|].
  apply Forall_cons; split; [right; left|].
  apply Forall_cons; split; [exists am; split; [left | done]|].
  apply Forall_cons; split; [right; right; left | apply Forall_nil_2].
Qed.
End MoreDocument.

Lemma verification_method_ids_distinct_witness :
  exists r w' methods,
    ANPKeyGenerator.generateKeyPair demo_ed25519 demo_secp256k1 example_generator
      ED25519 demo_world = (Ok r, w')
    /\ verificationMethod (did_document r) = Some methods
    /\ NoDup (map vm_id methods).
Proof.
  destruct (ANPKeyGenerator.generateKeyPair demo_ed25519 demo_secp256k1
              example_generator ED25519 demo_world) as [[r|e] w'] eqn:E;
    [|vm_compute in E; discriminate].
  destruct (verification_method_ids_distinct demo_ed25519 demo_secp256k1
              example_generator ED25519 demo_world w' r E) as (methods & Hvm & Hnd & _).
  exists r, w', methods. split; [reflexivity|]. split; assumption.
Defined.

Lemma method_entries_resolve_witness :
  exists r w',
    ANPKeyGenerator.generateKeyPair demo_ed25519 demo_secp256k1 example_generator
      SECP256K1 demo_world = (Ok r, w')
    /\ Forall (resolves (did_document r))
         (authentication (did_document r)
          ++ default [] (keyAgreement (did_document r))
          ++ default [] (humanAuthorization (did_document r))).
Proof.
  destruct (ANPKeyGenerator.generateKeyPair demo_ed25519 demo_secp256k1
              example_generator SECP256K1 demo_world) as [[r|e] w'] eqn:E;
    [|vm_compute in E; discriminate].
  exists r, w'. split; [reflexivity|].
  exact (method_entries_resolve demo_ed25519 demo_secp256k1
           example_generator SECP256K1 demo_world w' r E).
Defined.

(** ** Standard base64 and the PEM text *)

Lemma unbase64_standard_char (s : sextet) :
  unbase64 (alphabet_char base64_alphabet s) = Some s.
Proof. by destruct s as [[[[[[] []] []] []] []] []]. Qed.

Lemma standard_char_not_pad (s : sextet) :
  Ascii.eqb (alphabet_char base64_alphabet s) "="%char = false.
Proof. by destruct s as [[[[[[] []] []] []] []] []]. Qed.

Lemma sextets_of_string_standard (l : list sextet) (rest : string) :
  sextets_of_string
    (string_of_list (map (alphabet_char base64_alphabet) l) +:+ rest)
  = l ++ sextets_of_string rest.
Proof.
  induction l as [|s l IH]; [done|].
  cbn [map string_of_list String.append sextets_of_string].
  rewrite standard_char_not_pad, unbase64_standard_char, IH. done.
Qed.

Lemma sextets_of_string_padding (n : nat) : sextets_of_string (base64_padding n) = [].
Proof. unfold base64_padding. by destruct (n mod 3) as [|[|[|?]]]. Qed.

(** Node's decoder reads the padded standard text as well. *)
Lemma base64url_decode_standard (bs : bytes) :
  base64url_decode (base64_encode bs) = bs.
Proof.
  unfold base64url_decode, base64_encode.
  rewrite sextets_of_string_standard, sextets_of_string_padding, app_nil_r.
  apply bytes_of_sextets_of_bytes.
Qed.

(** The decoder passes over a character that is in neither alphabet. *)
Lemma sextets_of_string_skip (a b : string) (c : ascii) :
  unbase64 c = None -> Ascii.eqb c "="%char = false ->
  sextets_of_string (a +:+ String c b) = sextets_of_string (a +:+ b).
Proof.
  intros Hc Hpad. induction a as [|d a IH]; cbn [String.append sextets_of_string].
  - by rewrite Hc, Hpad.
  - by rewrite IH.
Qed.

Lemma sextets_of_string_lines (lines : list string) :
  sextets_of_string (String.concat newline lines)
  = sextets_of_string (String.concat "" lines).
Proof.
  induction lines as [|l [|l' lines] IH]; [done | done |].
  change (String.concat newline (l :: l' :: lines))
    with (l +:+ String "010"%char (String.concat newline (l' :: lines))).
  change (String.concat "" (l :: l' :: lines))
    with (l +:+ "" +:+ String.concat "" (l' :: lines)).
  rewrite sextets_of_string_skip by done. cbn [String.append].
  clear -IH. induction l as [|c l IHl]; cbn [String.append sextets_of_string];
    [exact IH|]. by rewrite IHl.
Qed.

Lemma string_of_list_app (l1 l2 : list ascii) :
  string_of_list (l1 ++ l2) = string_of_list l1 +:+ string_of_list l2.
Proof. induction l1; simpl; congruence. Qed.

Lemma string_of_list_of_string (s : string) : string_of_list (list_of_string s) = s.
Proof. induction s; simpl; congruence. Qed.

Lemma concat_empty_cons (l : string) (ls : list string) :
  String.concat "" (l :: ls) = l +:+ String.concat "" ls.
Proof. destruct ls; cbn [String.concat]; [by rewrite append_empty_r | done]. Qed.

(** The lines of a text: together they are the text, and none is empty
    or longer than the width. *)
Lemma lines_of_spec (width : nat) (fuel : nat) (cs : list ascii) :
  0 < width -> length cs <= fuel ->
  String.concat "" (ANPKeyGenerator.lines_of fuel width cs) = string_of_list cs
  /\ Forall (fun l => 0 < String.length l <= width) (ANPKeyGenerator.lines_of fuel width cs).
Proof.
  intros Hw. revert cs. induction fuel as [|fuel IH]; intros cs Hlen.
  - destruct cs; [by split; [|constructor] | simpl in Hlen; lia].
  - destruct cs as [|c cs]; [by split; [|constructor]|].
    cbn [ANPKeyGenerator.lines_of].
    set (rest := skipn width (c :: cs)).
    assert (Hrest : length rest <= fuel).
    { unfold rest. rewrite length_skipn. simpl in *. lia. }
    destruct (IH rest Hrest) as [Hcat Hall]. split.
    + rewrite concat_empty_cons, Hcat, <- string_of_list_app.
      unfold rest. by rewrite firstn_skipn.
    + constructor; [|done]. rewrite string_of_list_length, length_firstn.
      simpl length. lia.
Qed.

Lemma lines_of_short (width fuel : nat) (cs : list ascii) :
  0 < length cs <= width -> length cs <= fuel ->
  ANPKeyGenerator.lines_of fuel width cs = [string_of_list cs].
Proof.
  intros [Hpos Hw] Hf. destruct fuel as [|fuel]; [lia|].
  destruct cs as [|c cs]; [simpl in Hpos; lia|].
  cbn [ANPKeyGenerator.lines_of].
  rewrite firstn_all2 by done. rewrite skipn_all2 by done. by destruct fuel.
Qed.

Lemma base64_encode_length_32 (bs : bytes) :
  length bs = 32 -> String.length (base64_encode bs) = 44.
Proof.
  intros H. unfold base64_encode.
  rewrite string_length_append, string_of_list_length, length_map,
    sextets_of_bytes_length, H. reflexivity.
Qed.

(** X4: the PEM text is a header naming the algorithm, the body and a
    footer, on lines of their own. The body is the standard base64 of
    the key cut into lines of at most 64 characters, none empty; read as
    base64 (line breaks and all) it gives the key back; a 32-octet key
    makes one line of 44 characters. *)
Theorem generatePEMPrivateKey_body (privateKey : bytes) (keyType : KeyType) :
  let label :=
    match keyType with
    | ED25519 => "ED25519"
    | SECP256K1 => "SECP256K1"
    | X25519 => "X25519KeyAgreementKey2019"
    end in
  exists lines,
    ANPKeyGenerator.generatePEMPrivateKey privateKey keyType
    = "-----BEGIN " +:+ label +:+ " PRIVATE KEY-----" +:+ newline
      +:+ String.concat newline lines +:+ newline
      +:+ "-----END " +:+ label +:+ " PRIVATE KEY-----"
    /\ String.concat "" lines = base64_encode privateKey
    /\ Forall (fun l => 0 < String.length l <= 64) lines
    /\ base64url_decode (String.concat newline lines) = privateKey
    /\ (length privateKey = 32 ->
        lines = [base64_encode privateKey]
        /\ String.length (base64_encode privateKey) = 44).
Proof.
  cbv zeta.
  set (cs := list_of_string (base64_encode privateKey)).
  exists (ANPKeyGenerator.lines_of (length cs) 64 cs).
  destruct (lines_of_spec 64 (length cs) cs) as [Hcat Hall]; [lia | done |].
  unfold cs in Hcat at 3. rewrite string_of_list_of_string in Hcat.
  split; [|split; [done|split; [done|split]]].
  - unfold ANPKeyGenerator.generatePEMPrivateKey. fold cs.
    destruct keyType; cbn -[ANPKeyGenerator.lines_of String.concat base64_encode];
      by rewrite ?append_assoc.
  - unfold base64url_decode. rewrite sextets_of_string_lines, Hcat.
    apply base64url_decode_standard.
  - intros H32. pose proof (base64_encode_length_32 privateKey H32) as H44.
    split; [|done]. rewrite lines_of_short.
    + unfold cs. by rewrite string_of_list_of_string.
    + unfold cs. rewrite <- string_of_list_length, string_of_list_of_string. lia.
    + done.
Qed.

(** ** What the canonical text leaves out *)

Lemma omap_ext_elem_of {A B} (f g : A -> option B) (l : list A) :
  (forall a, a ∈ l -> f a = g a) -> omap f l = omap g l.
Proof.
  intros H. induction l as [|a l IH]; [done|]. csimpl.
  rewrite (H a) by left. rewrite IH; [done|]. intros b Hb. apply H. by right.
Qed.

(** Two nested objects that agree on the listed names are written alike. *)
Lemma SerializeJSONProperty_nested_agree (K : list string)
    (nested nested' : list (string * json)) :
  (forall name, name ∈ K -> assoc name nested = assoc name nested') ->
  SerializeJSONProperty (Some K) (JObj nested)
  = SerializeJSONProperty (Some K) (JObj nested').
Proof.
  intros H. rewrite !SerializeJSONProperty_object. do 3 f_equal.
  apply omap_ext_elem_of. intros name Hname. by rewrite (H name Hname).
Qed.

Lemma assoc_replace_agree {B} (f : json -> B) (before after : list (string * json))
    (k : string) (v v' : json) (P : string) :
  f v = f v' ->
  f <$> assoc P (before ++ (k, v) :: after)
  = f <$> assoc P (before ++ (k, v') :: after).
Proof.
  intros Hf. induction before as [|[k0 v0] before IH]; simpl.
  - destruct (String.eqb P k); [simpl; by rewrite Hf | done].
  - destruct (String.eqb P k0); [done | exact IH].
Qed.

Section NestedContent.
Import ANPKeyGenerator.
Variables ed25519 secp256k1 : Curve.

(** X5: the canonical text does not cover what a nested object holds
    under names that are not top-level names. Two payloads that differ
    only in one nested object, where the two versions of it agree on
    every top-level name, have the same canonical text; so they get the
    same signature, and a signature verifies for one exactly as for the
    other. *)
Theorem nested_members_not_covered
    (before after : list (string * json)) (k : string)
    (nested nested' : list (string * json)) :
  let members := before ++ (k, JObj nested) :: after in
  let members' := before ++ (k, JObj nested') :: after in
  (forall name, name ∈ map fst members -> assoc name nested = assoc name nested') ->
  jcsCanonicalize (JObj members) = jcsCanonicalize (JObj members')
  /\ (forall sk, signEd25519 ed25519 sk (JObj members)
                 = signEd25519 ed25519 sk (JObj members'))
  /\ (forall sk, signSecp256k1 secp256k1 sk (JObj members)
                 = signSecp256k1 secp256k1 sk (JObj members'))
  /\ (forall pk s, verifyEd25519 ed25519 pk s (JObj members)
                   = verifyEd25519 ed25519 pk s (JObj members'))
  /\ (forall pk s, verifySecp256k1 secp256k1 pk s (JObj members)
                   = verifySecp256k1 secp256k1 pk s (JObj members')).
Proof.
  intros members members' Hagree.
  assert (Hkeys : map fst members' = map fst members).
  { unfold members, members'. by rewrite !map_app. }
  assert (Hcanon : jcsCanonicalize (JObj members) = jcsCanonicalize (JObj members')).
  { unfold jcsCanonicalize, JSON_stringify_with. cbn [Object_keys rbind].
    rewrite Hkeys. set (K := Array_sort (map fst members)).
    assert (HK : forall name, name ∈ K -> assoc name nested = assoc name nested').
    { intros name Hname. apply Hagree. unfold K in Hname.
      by rewrite Array_sort_perm in Hname. }
    rewrite !SerializeJSONProperty_object. do 4 f_equal.
    apply omap_ext_elem_of. intros P _.
    pose proof (assoc_replace_agree (SerializeJSONProperty (Some K)) before after k
                  (JObj nested) (JObj nested') P
                  (SerializeJSONProperty_nested_agree K nested nested' HK)) as Hf.
    fold members members' in Hf.
    destruct (assoc P members), (assoc P members'); simpl in Hf |- *; congruence. }
  split; [exact Hcanon|].
  unfold signEd25519, signSecp256k1, verifyEd25519, verifySecp256k1.
  rewrite Hcanon. by repeat split.
Qed.
End NestedContent.

Lemma nested_members_not_covered_witness :
  ANPKeyGenerator.jcsCanonicalize
    (JObj [("did", JStr "did:wba:example.com");
           ("body", JObj [("amount", JNum 1); ("to", JStr "alice")])])
  = ANPKeyGenerator.jcsCanonicalize
      (JObj [("did", JStr "did:wba:example.com");
             ("body", JObj [("amount", JNum 1000000); ("to", JStr "mallory")])]).
Proof.
  apply (nested_members_not_covered demo_ed25519 demo_secp256k1
           [("did", JStr "did:wba:example.com")] [] "body"
           [("amount", JNum 1); ("to", JStr "alice")]
           [("amount", JNum 1000000); ("to", JStr "mallory")]).
  intros name Hname. apply list_elem_of_In in Hname.
  destruct Hname as [<-|[<-|[]]]; reflexivity.
Defined.

Section Interop.
Import ANPKeyGenerator.
Variables ed25519 secp256k1 : Curve.

(** X6: a signature may be presented in standard base64 (with "+", "/"
    and padding) as well as in base64url: both texts of the same
    signature octets get the same answer from [verifyEd25519] and from
    [verifySecp256k1]. *)
Theorem verify_accepts_standard_base64
    (publicKey signature : bytes) (data : json) :
  verifyEd25519 ed25519 publicKey (base64_encode signature) data
  = verifyEd25519 ed25519 publicKey (base64url_encode signature) data
  /\ verifySecp256k1 secp256k1 publicKey (base64_encode signature) data
     = verifySecp256k1 secp256k1 publicKey (base64url_encode signature) data.
Proof.
  unfold verifyEd25519, verifySecp256k1.
  by rewrite base64url_decode_standard, base64url_decode_encode.
Qed.
End Interop.

(** ** The JWK of a public key *)

Lemma slice_parts (bs : bytes) :
  ANPKeyGenerator.slice bs 1 33 ++ ANPKeyGenerator.slice bs 33 65
  = firstn 64 (skipn 1 bs).
Proof.
  unfold ANPKeyGenerator.slice. change (33 - 1) with 32. change (65 - 33) with 32.
  replace (skipn 33 bs) with (skipn 32 (skipn 1 bs)) by (by rewrite skipn_skipn).
  change 64 with (32 + 32). generalize (skipn 1 bs). intros l.
  rewrite <- (firstn_skipn 32 l) at 3.
  rewrite firstn_app, firstn_firstn, Nat.min_r by lia.
  destruct (decide (32 <= length l)) as [Hl|Hl].
  - rewrite length_firstn, Nat.min_l by done.
    replace (32 + 32 - 32) with 32 by lia. done.
  - rewrite (skipn_all2 (n := 32)) by lia. by rewrite !firstn_nil, !app_nil_r.
Qed.

(** X7: [generateJWK] takes 16 octets of the random source for [kid]
    whatever the key type. For secp256k1 the two coordinates decode to
    octets 1 to 64 of the public key: for a 65-octet key that is
    everything after the first octet, 43 characters each; for a 33-octet
    (compressed) key [x] holds all of it and [y] is empty. For the other
    key types the JWK holds no coordinate: the public key is not in
    it. *)
Theorem generateJWK_coordinates (publicKey : bytes) (keyType : KeyType) (w : World) :
  exists jwk,
    ANPKeyGenerator.generateJWK publicKey keyType w
    = (Ok jwk, {| entropy := entropy w; consumed := consumed w + 16; clock := clock w |})
    /\ base64url_decode (kid jwk) = map (entropy w) (seq (consumed w) 16)
    /\ (keyType = SECP256K1 ->
        exists xs ys,
          x jwk = Some xs /\ y jwk = Some ys
          /\ base64url_decode xs ++ base64url_decode ys = firstn 64 (skipn 1 publicKey)
          /\ (length publicKey = 65 ->
              String.length xs = 43 /\ String.length ys = 43
              /\ base64url_decode xs ++ base64url_decode ys = skipn 1 publicKey)
          /\ (length publicKey = 33 ->
              ys = "" /\ base64url_decode xs = skipn 1 publicKey))
    /\ (keyType <> SECP256K1 ->
        jwk = {| crv := "Ed25519"; x := None; y := None; kty := "OKP";
                 kid := kid jwk |}).
Proof.
  destruct keyType.
  - eexists. split; [reflexivity|]. split; [apply base64url_decode_encode|].
    split; [done|]. by intros _.
  - eexists. split; [reflexivity|]. split; [apply base64url_decode_encode|].
    split; [|done]. intros _.
    exists (base64url_encode (ANPKeyGenerator.slice publicKey 1 33)),
           (base64url_encode (ANPKeyGenerator.slice publicKey 33 65)).
    split; [done|]. split; [done|].
    rewrite !base64url_decode_encode, !base64url_encode_length.
    split; [apply slice_parts|]. split.
    + intros Hlen. rewrite slice_parts.
      unfold ANPKeyGenerator.slice. rewrite !length_firstn, !length_skipn, Hlen.
      split; [done|]. split; [done|]. apply firstn_all2. rewrite length_skipn. lia.
    + intros Hlen. unfold ANPKeyGenerator.slice.
      rewrite (skipn_all2 (n := 33)) by lia. split; [done|].
      apply firstn_all2. rewrite length_skipn. lia.
  - eexists. split; [reflexivity|]. split; [apply base64url_decode_encode|].
    split; [done|]. by intros _.
Qed.

(** ** More on [DIDAutoConfig] *)

Section MoreUpdate.
Import DIDAutoConfig.

Lemma updateServiceEndpoint_run (c : t) (w : World) (endpoint : ServiceEndpoint) :
  updateServiceEndpoint endpoint (c, w)
  = match didDocument c with
    | Some doc =>
        (Ok tt,
         (set_didDocument
            (Some (set_service (Some (upsert endpoint (default [] (service doc)))) doc))
            c, w))
    | None => (Throw (Error "DID document not configured yet"), (c, w))
    end.
Proof.
  unfold updateServiceEndpoint, bind, get_object, update, modify, upsert.
  cbn [fst snd]. by destruct (didDocument c).
Qed.

Lemma upsert_nil (endpoint : ServiceEndpoint) : upsert endpoint [] = [entry_of endpoint].
Proof. done. Qed.

Lemma upsert_cons (endpoint : ServiceEndpoint) (s : Service) (l : list Service) :
  upsert endpoint (s :: l)
  = if String.eqb (svc_id s) (ep_id endpoint) then entry_of endpoint :: l
    else s :: upsert endpoint l.
Proof.
  unfold upsert. cbn [findIndex].
  destruct (String.eqb (svc_id s) (ep_id endpoint)); [done|].
  by destruct (findIndex _ l).
Qed.

Lemma upsert_find (endpoint : ServiceEndpoint) (l : list Service) :
  find (fun s => String.eqb (svc_id s) (ep_id endpoint)) (upsert endpoint l)
  = Some (entry_of endpoint).
Proof.
  induction l as [|s l IH].
  - rewrite upsert_nil. cbn. by rewrite String.eqb_refl.
  - rewrite upsert_cons. destruct (String.eqb (svc_id s) (ep_id endpoint)) eqn:E.
    + cbn. by rewrite String.eqb_refl.
    + cbn [find]. by rewrite E.
Qed.

Lemma upsert_idempotent (endpoint : ServiceEndpoint) (l : list Service) :
  upsert endpoint (upsert endpoint l) = upsert endpoint l.
Proof.
  induction l as [|s l IH].
  - rewrite upsert_nil, upsert_cons. cbn. by rewrite String.eqb_refl.
  - rewrite upsert_cons. destruct (String.eqb (svc_id s) (ep_id endpoint)) eqn:E.
    + rewrite upsert_cons. cbn. by rewrite String.eqb_refl.
    + rewrite upsert_cons, E. by rewrite IH.
Qed.

Lemma upsert_ids (endpoint : ServiceEndpoint) (l : list Service) :
  map svc_id (upsert endpoint l)
  = if bool_decide (ep_id endpoint ∈ map svc_id l) then map svc_id l
    else map svc_id l ++ [ep_id endpoint].
Proof.
  induction l as [|s l IH].
  - rewrite upsert_nil. cbn [map]. rewrite bool_decide_eq_false_2; [done|].
    apply not_elem_of_nil.
  - rewrite upsert_cons. destruct (String.eqb_spec (svc_id s) (ep_id endpoint)) as [E|E].
    + cbn [map]. rewrite bool_decide_eq_true_2; [|rewrite E; left].
      cbn. by rewrite E.
    + cbn [map]. rewrite IH. destruct (bool_decide (ep_id endpoint ∈ map svc_id l)) eqn:B.
      * apply bool_decide_eq_true_1 in B. rewrite bool_decide_eq_true_2; [done|].
        by right.
      * apply bool_decide_eq_false_1 in B. rewrite bool_decide_eq_false_2; [done|].
        rewrite elem_of_cons. intros [H|H]; [by destruct E | done].
Qed.

(** X8: [updateServiceEndpoint] throws when there is no document yet
    and then changes nothing. Otherwise the entry found afterwards under
    the endpoint's id is the endpoint's entry; entries whose ids were
    pairwise distinct stay so; and making the same update again changes
    nothing more. *)
Theorem updateServiceEndpoint_lookup_and_repeat
    (c : t) (w : World) (endpoint : ServiceEndpoint) :
  (didDocument c = None ->
   updateServiceEndpoint endpoint (c, w)
   = (Throw (Error "DID document not configured yet"), (c, w)))
  /\ (forall doc, didDocument c = Some doc ->
      exists c' doc' services',
        updateServiceEndpoint endpoint (c, w) = (Ok tt, (c', w))
        /\ didDocument c' = Some doc' /\ service doc' = Some services'
        /\ find (fun s => String.eqb (svc_id s) (ep_id endpoint)) services'
           = Some (entry_of endpoint)
        /\ (NoDup (map svc_id (default [] (service doc))) ->
            NoDup (map svc_id services'))
        /\ updateServiceEndpoint endpoint (c', w) = (Ok tt, (c', w))).
Proof.
  split.
  - intros Hnone. by rewrite updateServiceEndpoint_run, Hnone.
  - intros doc Hdoc. rewrite updateServiceEndpoint_run, Hdoc.
    eexists _, _, _. split; [reflexivity|]. split; [reflexivity|].
    split; [reflexivity|]. split; [apply upsert_find|]. split.
    + intros Hnd. rewrite upsert_ids. case_bool_decide as Hin; [done|].
      apply NoDup_app. split; [done|]. split.
      * intros x Hx [->|[]%elem_of_nil]%elem_of_cons. done.
      * apply NoDup_singleton.
    + rewrite updateServiceEndpoint_run. cbn [didDocument set_didDocument].
      cbn [service set_service default from_option id]. rewrite upsert_idempotent.
      by destruct c.
Qed.
End MoreUpdate.

Section MoreAutoConfig.
Import DIDAutoConfig.
Variables ed25519 secp256k1 : Curve.

Lemma description_of_interfaces (o : Options) (d : option string)
    (created defaultUrl : string) :
  ad_interfaces (description_of o d created defaultUrl)
  = map (interface_entry defaultUrl) (opt_interfaces o).
Proof. done. Qed.

Lemma interface_entry_in_step (defaultUrl : string) (iface : AgentInterface) :
  let entry := interface_entry defaultUrl iface in
  ie_type entry = "ad:" +:+ InterfaceType_value (if_type iface)
  /\ ie_description entry = if_description iface
  /\ (truthy (if_url iface) = true -> Some (ie_url entry) = if_url iface).
Proof.
  cbv zeta. split; [done|]. split; [done|]. cbn [ie_url interface_entry].
  intros Hurl. rewrite Hurl. by destruct (if_url iface).
Qed.

Lemma addInterface_run (iface : AgentInterface) (c : t) (w : World) :
  addInterface iface (c, w)
  = (Ok tt,
     ({| options := push_interface iface (options c);
         autoDid := autoDid c; privateKey := privateKey c; publicKey := publicKey c;
         didDocument := didDocument c;
         agentDescription_ :=
           match agentDescription_ c with
           | Some ad =>
               Some (push_interface_entry
                       (interface_entry
                          (match didDocument c with
                           | Some doc =>
                               match service doc with
                               | Some (s0 :: _) => serviceEndpoint s0
                               | _ => "http://localhost:3000/anp/api"
                               end
                           | None => "http://localhost:3000/anp/api"
                           end) iface) ad)
           | None => None
           end |}, w)).
Proof.
  destruct c as [o d sk pk doc [ad|]]; reflexivity.
Qed.

(** X9: the interface entries of the agent description stay in step
    with the interfaces of the options: a setup that completes writes
    one entry per interface, in order, with the interface's type,
    description and url (when it has one); [addInterface], which never
    throws, adds the interface to the options and, when there is a
    description, its entry at the end; [updateServiceEndpoint] touches
    neither. Before any setup [addInterface] only extends the options. *)
Theorem interfaces_stay_in_step :
  (forall domain port c w cfg s',
     autoSetup ed25519 secp256k1 domain port (c, w) = (Ok cfg, s') ->
     interfaces_in_step (fst s')
     /\ length (ad_interfaces (cfg_agentDescription cfg))
        = length (opt_interfaces (options c)))
  /\ (forall iface c w,
        exists c', addInterface iface (c, w) = (Ok tt, (c', w))
                   /\ opt_interfaces (options c') = opt_interfaces (options c) ++ [iface]
                   /\ didDocument c' = didDocument c
                   /\ (agentDescription_ c = None -> agentDescription_ c' = None)
                   /\ (interfaces_in_step c -> interfaces_in_step c'))
  /\ (forall endpoint c w c' w',
        updateServiceEndpoint endpoint (c, w) = (Ok tt, (c', w')) ->
        interfaces_in_step c -> interfaces_in_step c').
Proof.
  split; [|split].
  - intros domain port c w cfg s'. rewrite autoSetup_run.
    destruct (ANPKeyGenerator.generateKeyPair _ _ _ _ _) as [[kp|e] w1]; [|done].
    cbv zeta. intros H. pose proof (getConfig_Ok _ _ _ H)
      as (-> & _ & _ & _ & _ & _ & _ & _ & Had & _).
    cbn [fst agentDescription_] in Had. injection Had as Had.
    unfold interfaces_in_step. cbn [fst agentDescription_ options].
    rewrite <- Had, description_of_interfaces, length_map. split; [|done].
    apply Forall2_fmap_l, Forall_Forall2_diag, Forall_forall.
    intros iface _. apply interface_entry_in_step.
  - intros iface c w. rewrite addInterface_run. eexists. split; [reflexivity|].
    split; [done|]. split; [done|]. split; [by intros ->|].
    unfold interfaces_in_step. cbn [agentDescription_ options].
    destruct (agentDescription_ c) as [ad|]; [|done].
    intros Hstep. cbn [ad_interfaces push_interface_entry opt_interfaces push_interface].
    apply Forall2_app; [done|]. constructor; [|constructor].
    apply interface_entry_in_step.
  - intros endpoint c w c' w'. rewrite updateServiceEndpoint_run.
    destruct (didDocument c); [|done]. by intros [= <- _].
Qed.

Lemma prefix_append (p s : string) : String.prefix p (p +:+ s) = true.
Proof.
  induction p as [|a p IH]; [by destruct s|].
  cbn [String.append String.prefix]. by destruct (ascii_dec a a).
Qed.

Lemma validateDIDDocument_run (c : t) (w : World) :
  validateDIDDocument (c, w)
  = (Ok (match didDocument c with
         | Some doc => String.prefix "did:wba:" (doc_id doc)
                       && bool_decide (is_Some (verificationMethod doc))
         | None => false
         end), (c, w)).
Proof.
  unfold validateDIDDocument, try_catchM, bind, getDIDDocument, get_object, ret.
  cbn [fst snd]. destruct (didDocument c) as [doc|]; [|done].
  destruct (bool_decide (is_Some (verificationMethod doc))).
  - rewrite orb_false_r, andb_true_r.
    destruct (doc_id doc) as [|ch rest] eqn:Hid; [done|].
    cbn [truthy String.eqb negb]. by destruct (String.prefix _ _).
  - rewrite orb_true_r, andb_false_r. done.
Qed.

(** X10: [validateDIDDocument] never throws and changes nothing. It
    answers [false] while there is no document, and [true] as soon as
    key generation has succeeded in [autoSetup]: also when [autoSetup]
    itself then throws, as it does with the secp256k1 type. Updating a
    service endpoint does not change its answer. *)
Theorem validateDIDDocument_answers :
  (forall c w, exists b, validateDIDDocument (c, w) = (Ok b, (c, w)))
  /\ (forall c w, didDocument c = None -> validateDIDDocument (c, w) = (Ok false, (c, w)))
  /\ (forall domain port c w keyPair w1,
        ANPKeyGenerator.generateKeyPair ed25519 secp256k1 (generator_of domain port)
          (opt_keyType (options c)) w = (Ok keyPair, w1) ->
        fst (validateDIDDocument
               (snd (autoSetup ed25519 secp256k1 domain port (c, w)))) = Ok true)
  /\ (forall endpoint c w c' w',
        updateServiceEndpoint endpoint (c, w) = (Ok tt, (c', w')) ->
        fst (validateDIDDocument (c', w')) = fst (validateDIDDocument (c, w))).
Proof.
  split; [|split; [|split]].
  - intros c w. rewrite validateDIDDocument_run. by eexists.
  - intros c w Hnone. by rewrite validateDIDDocument_run, Hnone.
  - intros domain port c w kp w1 Hgen. rewrite autoSetup_run, Hgen. cbv zeta.
    destruct (generateKeyPair_document _ _ _ _ _ _ _ Hgen)
      as (_ & Hid & _ & vm0 & others & Hvm & _).
    assert (Hstate :
      forall s r, getConfig s = r -> snd r = s).
    { intros s r <-. unfold getConfig.
      destruct (autoDid (fst s)), (privateKey (fst s)), (publicKey (fst s)),
        (didDocument (fst s)), (agentDescription_ (fst s)); try done.
      by destruct (_ && _). }
    rewrite (Hstate _ _ eq_refl), validateDIDDocument_run.
    cbn [fst didDocument doc_id set_service verificationMethod].
    rewrite Hid, Hvm. unfold ANPKeyGenerator.generateDID.
    by destruct (truthy _); rewrite prefix_append.
  - intros endpoint c w c' w'. rewrite updateServiceEndpoint_run.
    destruct (didDocument c) as [doc|] eqn:Hdoc; [|done]. intros [= <- <-].
    rewrite !validateDIDDocument_run, Hdoc. done.
Qed.

End MoreAutoConfig.

Section OnTheInstance.
Import DIDAutoConfig.

Lemma interfaces_stay_in_step_witness :
  exists cfg c w c',
    autoSetup demo_ed25519 demo_secp256k1 "localhost" (Some 3000%N)
      (constructor no_options, demo_world) = (Ok cfg, (c, w))
    /\ interfaces_in_step c
    /\ DIDAutoConfig.addInterface
         {| if_type := StructuredInterface; if_description := "API";
            if_url := Some "https://example.com/api" |} (c, w) = (Ok tt, (c', w))
    /\ interfaces_in_step c'.
Proof.
  destruct (interfaces_stay_in_step demo_ed25519 demo_secp256k1) as (Hsetup & Hadd & _).
  destruct (autoSetup demo_ed25519 demo_secp256k1 "localhost" (Some 3000%N)
              (constructor no_options, demo_world)) as [[cfg|e] [c w]] eqn:E;
    [|vm_compute in E; discriminate].
  destruct (Hsetup "localhost" (Some 3000%N) (constructor no_options) demo_world
              cfg (c, w) E) as [Hstep _].
  destruct (Hadd {| if_type := StructuredInterface; if_description := "API";
                    if_url := Some "https://example.com/api" |} c w)
    as (c' & Hrun & _ & _ & _ & Hkeep).
  exists cfg, c, w, c'. split; [reflexivity|]. split; [exact Hstep|].
  split; [exact Hrun | exact (Hkeep Hstep)].
Defined.

Lemma validateDIDDocument_answers_witness :
  fst (validateDIDDocument
         (snd (autoSetup demo_ed25519 demo_secp256k1 "localhost" (Some 3000%N)
                 (constructor (with_keyType SECP256K1 no_options), demo_world))))
  = Ok true.
Proof.
  destruct (ANPKeyGenerator.generateKeyPair demo_ed25519 demo_secp256k1
              (generator_of "localhost" (Some 3000%N)) SECP256K1 demo_world)
    as [[kp|e] w1] eqn:E; [|vm_compute in E; discriminate].
  exact (proj1 (proj2 (proj2 (validateDIDDocument_answers demo_ed25519 demo_secp256k1)))
           "localhost" (Some 3000%N) (constructor (with_keyType SECP256K1 no_options))
           demo_world kp w1 E).
Defined.
End OnTheInstance.

Lemma generateEd25519KeyPair_Ok (C : Curve) (w w' : World) (pair : RawKeyPair) :
  ANPKeyGenerator.generateEd25519KeyPair C w = (Ok pair, w') ->
  key_pair C (privateKey pair) (publicKey pair).
Proof.
  unfold ANPKeyGenerator.generateEd25519KeyPair. intros H.
  apply bind_Ok in H as (sk & w1 & _ & H).
  apply bind_Ok in H as (pk & w2 & Hpk & H).
  apply ret_Ok in H as [<- _]. unfold lift_result in Hpk. by injection Hpk as Hpk _.
Qed.

Section Consistency.
Import DIDAutoConfig.
Variables ed25519 secp256k1 : Curve.

(** X11: the unsupported key type. [generateKeyPair] with the X25519
    type throws the unsupported-type error, after it has drawn the 16
    random octets of the key id; [autoSetup] of an instance made with
    that type throws the same error and leaves the instance as it was
    made, so that every accessor still throws. *)
Theorem unsupported_key_type :
  let e := Error ("不支持的密钥类型: " +:+ "X25519KeyAgreementKey2019") in
  let spent w := {| entropy := entropy w; consumed := consumed w + 16; clock := clock w |} in
  (forall this w,
     ANPKeyGenerator.generateKeyPair ed25519 secp256k1 this X25519 w = (Throw e, spent w))
  /\ (forall o domain port w,
        let c := constructor (with_keyType X25519 o) in
        autoSetup ed25519 secp256k1 domain port (c, w) = (Throw e, (c, spent w))
        /\ (exists e', fst (getConfig (c, spent w)) = Throw e')
        /\ (exists e', fst (getDID (c, spent w)) = Throw e')
        /\ (exists e', fst (getDIDDocument (c, spent w)) = Throw e')).
Proof.
  cbv zeta. split; [done|]. intros o domain port w. rewrite autoSetup_run.
  split; [done|]. by repeat split; eexists.
Qed.

(** X12: what a completed setup returns hangs together. The key type
    is Ed25519; the DID is "did:wba:<domain>[:<port>]:auto-agent" and
    is the id of the document and the [did] of the description; the
    private key is the PEM text of a key whose public key, in multibase,
    is the returned public key and the key of the first verification
    method; every verification method is controlled by the DID; the
    description is dated by the clock. *)
Theorem autoSetup_config_consistent (domain : string) (port : option N) (c : t)
    (w : World) (cfg : DIDConfig) (s' : St) :
  autoSetup ed25519 secp256k1 domain port (c, w) = (Ok cfg, s') ->
  let did := "did:wba:" +:+ fullDomain_of domain port +:+ ":auto-agent" in
  cfg_keyType cfg = ED25519
  /\ opt_keyType (options c) = ED25519
  /\ cfg_did cfg = did
  /\ doc_id (cfg_didDocument cfg) = did
  /\ ad_did (cfg_agentDescription cfg) = Some did
  /\ (exists sk pk vm0 others,
        key_pair ed25519 sk pk
        /\ cfg_privateKey cfg = ANPKeyGenerator.generatePEMPrivateKey sk ED25519
        /\ cfg_publicKey cfg = "z" +:+ bs58_encode pk
        /\ verificationMethod (cfg_didDocument cfg) = Some (vm0 :: others)
        /\ publicKeyMultibase vm0 = Some (cfg_publicKey cfg)
        /\ Forall (fun m => vm_controller m = did) (vm0 :: others))
  /\ ad_created (cfg_agentDescription cfg) = clock (snd s')
  /\ options (fst s') = options c.
Proof.
  rewrite autoSetup_run.
  destruct (ANPKeyGenerator.generateKeyPair _ _ _ _ _) as [[kp|e] w1] eqn:Hgen; [|done].
  cbv zeta. intros H. pose proof (getConfig_Ok _ _ _ H)
    as (-> & Hd & _ & Hsk & _ & Hpk & _ & Hdoc & Had & Hk).
  cbn [fst snd autoDid privateKey publicKey didDocument agentDescription_ options]
    in Hd, Hsk, Hpk, Hdoc, Had, Hk |- *.
  injection Hd as Hd. injection Hsk as Hsk. injection Hdoc as Hdoc. injection Had as Had.
  assert (Hkey : opt_keyType (options c) = ED25519).
  { destruct (opt_keyType (options c)) eqn:E; [done| |].
    - destruct (generateKeyPair_document _ _ _ _ _ _ _ Hgen)
        as (_ & _ & _ & vm0 & others & Hvm & Hnone).
      by rewrite Hvm, Hnone in Hpk.
    - destruct (generateKeyPair_X25519 ed25519 secp256k1 (generator_of domain port) w)
        as (e & w' & Hthrow). by rewrite Hthrow in Hgen. }
  rewrite Hkey in Hgen, Hk.
  apply generateKeyPair_ED25519 in Hgen
    as (keyId & w2 & pair & w3 & ka & w4 & ha & _ & Hpair & _ & _ & ->).
  cbv zeta in *. cbn [did did_document private_key verificationMethod publicKeyMultibase]
    in Hd, Hsk, Hpk, Hdoc, Had.
  injection Hpk as Hpk.
  assert (Hdid : ANPKeyGenerator.generateDID (generator_of domain port)
                 = "did:wba:" +:+ fullDomain_of domain port +:+ ":auto-agent") by done.
  rewrite Hdid in *.
  split; [done|]. split; [done|]. split; [done|].
  split; [by rewrite <- Hdoc|]. split; [by rewrite <- Had|].
  split; [|by rewrite <- Had].
  apply generateEd25519KeyPair_Ok in Hpair. destruct pair as [sk pk].
  exists sk, pk. eexists _, _.
  split; [exact Hpair|]. split; [done|]. split; [done|].
  rewrite <- Hdoc. cbn [verificationMethod set_service]. split; [reflexivity|].
  split; [by rewrite <- Hpk|]. by repeat constructor.
Qed.

(** X13: where an interface without a url points after a setup. It
    gets the endpoint of the first service entry of the document: the
    first configured endpoint when there is one, and otherwise the
    generator's "AgentDescription" entry, that is the address of the
    description itself. The address "http://localhost:3000/anp/api" of
    the "default" entry, which [getDefaultInterfaceUrl] falls back on,
    is never used by a setup. *)
Theorem autoSetup_interface_urls (domain : string) (port : option N) (c : t)
    (w : World) (cfg : DIDConfig) (s' : St) :
  autoSetup ed25519 secp256k1 domain port (c, w) = (Ok cfg, s') ->
  let first :=
    match opt_serviceEndpoints (options c) with
    | ep :: _ => ep_serviceEndpoint ep
    | [] => "https://" +:+ fullDomain_of domain port +:+ "/agents/auto-agent/ad.json"
    end in
  map ie_url (ad_interfaces (cfg_agentDescription cfg))
  = map (fun iface => if truthy (if_url iface) then default "" (if_url iface) else first)
      (opt_interfaces (options c))
  /\ fst (getDefaultInterfaceUrl s') = Ok first.
Proof.
  rewrite autoSetup_run.
  destruct (ANPKeyGenerator.generateKeyPair _ _ _ _ _) as [[kp|e] w1] eqn:Hgen; [|done].
  cbv zeta. intros H. pose proof (getConfig_Ok _ _ _ H)
    as (-> & _ & _ & _ & _ & _ & _ & _ & Had & _).
  cbn [fst agentDescription_] in Had. injection Had as Had.
  destruct (generateKeyPair_document _ _ _ _ _ _ _ Hgen) as (_ & _ & Hsvc & _).
  rewrite Hsvc in *.
  assert (Hfirst :
    match configured_services (opt_serviceEndpoints (options c))
            (Some [agentDescriptionService (generator_of domain port)]) with
    | s0 :: _ => serviceEndpoint s0
    | [] => "http://localhost:3000/anp/api"
    end
    = match opt_serviceEndpoints (options c) with
      | ep :: _ => ep_serviceEndpoint ep
      | [] => "https://" +:+ fullDomain_of domain port +:+ "/agents/auto-agent/ad.json"
      end).
  { by destruct (opt_serviceEndpoints (options c)). }
  split.
  - rewrite <- Had, description_of_interfaces, map_map, Hfirst. done.
  - unfold getDefaultInterfaceUrl, this_, gets.
    cbn [fst didDocument service set_service]. by rewrite <- Hfirst.
Qed.

(** X14: a setup starts afresh. What [autoSetup] returns, and on
    success the instance it leaves, depend on the options and on the
    world only: the DID, the keys, the document and the description an
    instance had before are all replaced, and with them every service
    entry [updateServiceEndpoint] had written. *)
Theorem autoSetup_starts_afresh (domain : string) (port : option N) (c c' : t)
    (w : World) :
  options c = options c' ->
  let run := autoSetup ed25519 secp256k1 domain port (c, w) in
  let run' := autoSetup ed25519 secp256k1 domain port (c', w) in
  fst run = fst run'
  /\ snd (snd run) = snd (snd run')
  /\ (is_ok (fst run) = true -> snd run = snd run').
Proof.
  intros Ho. cbv zeta. rewrite !autoSetup_run, <- Ho.
  destruct (ANPKeyGenerator.generateKeyPair _ _ _ _ _) as [[kp|e] w1] eqn:Hgen; [|done].
  destruct (generateKeyPair_document _ _ _ _ _ _ _ Hgen)
    as (_ & _ & _ & vm0 & others & Hvm & _).
  rewrite Hvm. cbv zeta. done.
Qed.

End Consistency.

Lemma autoSetup_config_consistent_witness :
  exists cfg,
    fst (DIDAutoConfig.autoSetup demo_ed25519 demo_secp256k1 "localhost" (Some 3000%N)
           (DIDAutoConfig.constructor DIDAutoConfig.no_options, demo_world)) = Ok cfg
    /\ DIDAutoConfig.cfg_did cfg = "did:wba:localhost:3000:auto-agent"
    /\ doc_id (DIDAutoConfig.cfg_didDocument cfg) = "did:wba:localhost:3000:auto-agent".
Proof.
  destruct (DIDAutoConfig.autoSetup demo_ed25519 demo_secp256k1 "localhost" (Some 3000%N)
              (DIDAutoConfig.constructor DIDAutoConfig.no_options, demo_world))
    as [[cfg|e] s'] eqn:E; [|vm_compute in E; discriminate].
  exists cfg. split; [reflexivity|].
  destruct (autoSetup_config_consistent _ _ _ _ _ _ _ _ E) as (_ & _ & Hd & Hid & _).
  by split.
Defined.

Lemma autoSetup_interface_urls_witness :
  exists cfg,
    fst (DIDAutoConfig.autoSetup demo_ed25519 demo_secp256k1 "localhost" (Some 3000%N)
           (DIDAutoConfig.constructor DIDAutoConfig.no_options, demo_world)) = Ok cfg
    /\ map DIDAutoConfig.ie_url
         (DIDAutoConfig.ad_interfaces (DIDAutoConfig.cfg_agentDescription cfg))
       = ["https://localhost:3000/agents/auto-agent/ad.json"].
Proof.
  destruct (DIDAutoConfig.autoSetup demo_ed25519 demo_secp256k1 "localhost" (Some 3000%N)
              (DIDAutoConfig.constructor DIDAutoConfig.no_options, demo_world))
    as [[cfg|e] s'] eqn:E; [|vm_compute in E; discriminate].
  exists cfg. split; [reflexivity|].
  exact (proj1 (autoSetup_interface_urls _ _ _ _ _ _ _ _ E)).
Defined.

Lemma autoSetup_starts_afresh_witness :
  fst (DIDAutoConfig.autoSetup demo_ed25519 demo_secp256k1 "localhost" (Some 3000%N)
         (fst example_state, demo_world))
  = fst (DIDAutoConfig.autoSetup demo_ed25519 demo_secp256k1 "localhost" (Some 3000%N)
           (DIDAutoConfig.constructor DIDAutoConfig.no_options, demo_world)).
Proof.
  refine (proj1 (autoSetup_starts_afresh demo_ed25519 demo_secp256k1 "localhost"
                   (Some 3000%N) (fst example_state)
                   (DIDAutoConfig.constructor DIDAutoConfig.no_options) demo_world _)).
  vm_compute. reflexivity.
Defined.

(** ** The agent of [auto-config.ts] *)

Section Agent.
Import AutoConfigAgent.
Variable host : Host.
Variables ed25519 secp256k1 : Curve.

Lemma probe_spec (n : nat) (port : N) :
  (exists p, probe host n port = Ok p
             /\ (port <= p < port + N.of_nat n)%N /\ (p <= 65535)%N
             /\ listens host p = true
             /\ forall q, (port <= q < p)%N -> listens host q = false)
  \/ (probe host n port = assigned host
      /\ (n = 0%nat \/ (port + N.of_nat n <= 65536)%N)
      /\ forall q, (port <= q < port + N.of_nat n)%N -> listens host q = false)
  \/ (exists e, probe host n port = Throw e
                /\ (65536 < port + N.of_nat n)%N /\ n <> 0%nat
                /\ forall q, (port <= q < port + N.of_nat n)%N -> (q <= 65535)%N ->
                              listens host q = false).
Proof.
  revert port. induction n as [|n IH]; intros port.
  - right. left. split; [done|]. split; [by left|]. intros q Hq. lia.
  - cbn [probe]. unfold isPortAvailable.
    destruct (65535 <? port)%N eqn:Hbig.
    + apply N.ltb_lt in Hbig. right. right. eexists. split; [reflexivity|].
      split; [lia|]. split; [done|]. intros q Hq Hq'. lia.
    + apply N.ltb_ge in Hbig. cbn [rbind].
      destruct (listens host port) eqn:Hport.
      * left. exists port. split; [done|]. split; [lia|]. split; [done|].
        split; [done|]. intros q Hq. lia.
      * destruct (IH (port + 1)%N)
          as [(p & Hp & Hrange & Hsmall & Hfree & Hbefore)
             |[(Hnone & Hend & Hall)|(e & He & Hend & Hn & Hall)]].
        -- left. exists p. split; [done|]. split; [lia|]. split; [done|].
           split; [done|].
           intros q Hq. destruct (decide (q = port)) as [->|Hne]; [done|].
           apply Hbefore. lia.
        -- right. left. split; [done|]. split.
           ++ right. destruct Hend as [->|Hend]; lia.
           ++ intros q Hq. destruct (decide (q = port)) as [->|Hne]; [done|].
              apply Hall. lia.
        -- right. right. exists e. split; [done|]. split; [lia|]. split; [done|].
           intros q Hq Hq'. destruct (decide (q = port)) as [->|Hne]; [done|].
           apply Hall; lia.
Qed.

Lemma findAvailablePort_run (c : t) (w : World) :
  findAvailablePort host (c, w)
  = (probe host (N.to_nat (snd (opt_portRange (options c)) + 1
                           - fst (opt_portRange (options c))))
       (fst (opt_portRange (options c))), (c, w)).
Proof.
  unfold findAvailablePort, bind, this_, gets, lift_result. cbn [fst snd].
  by destruct (opt_portRange (options c)).
Qed.

(** X15: [findAvailablePort] changes nothing. It returns the first
    port of the range, counting up from its start, on which a server can
    listen; no port of the range below it is free. When no port of the
    range is free (or the range is empty) it returns the port the system
    assigns, which need not lie in the range, or fails as that request
    fails. A range that reaches beyond port 65535 with no free port up
    to there makes it throw: the probe of port 65536 is refused. *)
Theorem findAvailablePort_first_free (c : t) (w : World) :
  let startPort := fst (opt_portRange (options c)) in
  let endPort := snd (opt_portRange (options c)) in
  exists r,
    findAvailablePort host (c, w) = (r, (c, w))
    /\ ((exists p, r = Ok p
                   /\ (startPort <= p <= endPort)%N /\ (p <= 65535)%N
                   /\ listens host p = true
                   /\ forall q, (startPort <= q < p)%N -> listens host q = false)
        \/ (r = assigned host
            /\ (endPort < startPort \/ endPort <= 65535)%N
            /\ forall q, (startPort <= q <= endPort)%N -> listens host q = false)
        \/ (exists e, r = Throw e
                      /\ (startPort <= endPort)%N /\ (65535 < endPort)%N
                      /\ forall q, (startPort <= q <= 65535)%N ->
                                    listens host q = false)).
Proof.
  cbv zeta. rewrite findAvailablePort_run. eexists. split; [reflexivity|].
  destruct (probe_spec
              (N.to_nat (snd (opt_portRange (options c)) + 1
                         - fst (opt_portRange (options c))))
              (fst (opt_portRange (options c))))
    as [(p & Hp & Hrange & Hsmall & Hfree & Hbefore)
       |[(Hnone & Hend & Hall)|(e & He & Hend & Hn & Hall)]].
  - left. exists p. split; [done|]. split; [lia|]. done.
  - right. left. split; [done|]. split; [lia|]. intros q Hq. apply Hall. lia.
  - right. right. exists e. split; [done|]. split; [lia|]. split; [lia|].
    intros q Hq. apply Hall; lia.
Qed.

Lemma first_external_spec (iface : list NetworkInterfaceInfo) :
  match first_external iface with
  | Some a =>
      exists before alias after,
        iface = before ++ alias :: after
        /\ Forall (fun x => external x = false) before
        /\ external alias = true /\ a = address alias
  | None => Forall (fun x => external x = false) iface
  end.
Proof.
  induction iface as [|alias rest IH]; [by constructor|]. cbn [first_external].
  destruct (external alias) eqn:Hext.
  - by exists [], alias, rest.
  - destruct (first_external rest) as [a|].
    + destruct IH as (before & alias' & after & -> & Hbefore & Hext' & ->).
      exists (alias :: before), alias', after. by repeat split; [constructor|..].
    + by constructor.
Qed.

Lemma scan_interfaces_spec (interfaces : list (string * list NetworkInterfaceInfo)) :
  let aliases := concat (map snd interfaces) in
  (exists before alias after,
     aliases = before ++ alias :: after
     /\ Forall (fun x => external x = false) before
     /\ external alias = true
     /\ scan_interfaces interfaces = address alias)
  \/ (Forall (fun x => external x = false) aliases
      /\ scan_interfaces interfaces = "127.0.0.1").
Proof.
  cbv zeta. induction interfaces as [|[name iface] rest IH].
  - right. by split; [constructor|].
  - cbn [scan_interfaces map snd concat].
    pose proof (first_external_spec iface) as Hfirst.
    destruct (first_external iface) as [a|].
    + left. destruct Hfirst as (before & alias & after & -> & Hbefore & Hext & ->).
      exists before, alias, (after ++ concat (map snd rest)).
      by rewrite <- app_assoc.
    + destruct IH as [(before & alias & after & Heq & Hbefore & Hext & Hscan)|[Hall Hscan]].
      * left. exists (iface ++ before), alias, after.
        rewrite Heq, <- app_assoc. split; [done|]. split; [|done].
        by apply Forall_app.
      * right. split; [|done]. by apply Forall_app.
Qed.

(** X16: [getLocalIP] changes nothing and never fails. Going through
    the interfaces in the order they are listed, and through the
    addresses of each in order, it returns the first address that is
    IPv4 and not internal; when there is none it returns "127.0.0.1". *)
Theorem getLocalIP_first_external (c : t) (w : World) :
  let aliases := concat (map snd (networkInterfaces host)) in
  exists ip,
    getLocalIP host (c, w) = (Ok ip, (c, w))
    /\ ((exists before alias after,
           aliases = before ++ alias :: after
           /\ Forall (fun x => family x <> "IPv4" \/ internal x = true) before
           /\ family alias = "IPv4" /\ internal alias = false
           /\ ip = address alias)
        \/ (Forall (fun x => family x <> "IPv4" \/ internal x = true) aliases
            /\ ip = "127.0.0.1")).
Proof.
  cbv zeta. eexists. split; [reflexivity|].
  assert (Hno : forall l,
    Forall (fun x => external x = false) l ->
    Forall (fun x => family x <> "IPv4" \/ internal x = true) l).
  { intros l Hl. eapply Forall_impl; [exact Hl|]. intros x. unfold external.
    destruct (String.eqb_spec (family x) "IPv4") as [Hf|Hf]; [|by left].
    destruct (internal x); [by right | done]. }
  destruct (scan_interfaces_spec (networkInterfaces host))
    as [(before & alias & after & Heq & Hbefore & Hext & Hscan)|[Hall Hscan]].
  - left. exists before, alias, after. split; [done|]. split; [by apply Hno|].
    unfold external in Hext. apply andb_true_iff in Hext as [Hf Hi].
    apply String.eqb_eq in Hf. by destruct (internal alias).
  - right. split; [by apply Hno | done].
Qed.

Lemma generateDIDAndKeys_agent_run (c : t) (w : World) :
  generateDIDAndKeys ed25519 secp256k1 (c, w)
  = let domain := show_string (localIP c) +:+ ":" +:+ show_port (autoPort_ c) in
    let url := "http://" +:+ show_string (localIP c) +:+ ":"
               +:+ show_port (autoPort_ c) +:+ "/anp/api" in
    match ANPKeyGenerator.generateKeyPair ed25519 secp256k1
            {| ANPKeyGenerator.domain := domain;
               ANPKeyGenerator.path := Some "auto-agent" |} ED25519 w with
    | (Ok keyPair, w1) =>
        (Ok tt,
         ({| options := options c;
             autoPort_ := autoPort_ c;
             autoDid := Some (did keyPair);
             autoDescription :=
               Some {| ad_name := opt_agentName (options c);
                       ad_did := Some (did keyPair);
                       ad_description := "Automatically configured ANP agent via SDK";
                       ad_version := "1.0.0";
                       ad_created := clock w1;
                       ad_interfaces :=
                         map (fun iface =>
                                {| DIDAutoConfig.ie_type :=
                                     "ad:" +:+ DIDAutoConfig.InterfaceType_value
                                                 (DIDAutoConfig.if_type iface);
                                   DIDAutoConfig.ie_url :=
                                     if truthy (DIDAutoConfig.if_url iface)
                                     then default "" (DIDAutoConfig.if_url iface)
                                     else url;
                                   DIDAutoConfig.ie_description :=
                                     DIDAutoConfig.if_description iface |})
                             (opt_interfaces (options c)) |};
             privateKey := Some (private_key keyPair);
             localIP := localIP c;
             server := server c;
             app := app c;
             isRunning := isRunning c;
             didDocument :=
               Some match service (did_document keyPair) with
                    | Some (s0 :: rest) =>
                        DIDAutoConfig.set_service
                          (Some (set_serviceEndpoint url s0 :: rest))
                          (did_document keyPair)
                    | _ => did_document keyPair
                    end |}, w1))
    | (Throw e, w1) => (Throw e, (c, w1))
    end.
Proof.
  unfold generateDIDAndKeys, bind, this_, gets, in_world, update, modify, ret,
    toISOString_now.
  cbn [fst snd]. cbv zeta.
  destruct (ANPKeyGenerator.generateKeyPair _ _ _ _ _) as [[kp|e] w1]; [|done].
  cbn [fst snd]. by destruct w1.
Qed.

(** X17: what the agent makes of its address. When
    [generateDIDAndKeys] succeeds for an instance whose address and
    port are set, the DID is "did:wba:<ip>:<port>:auto-agent", the key
    type is Ed25519 whatever the options, and the document has one
    service entry: the generator's entry of type "AgentDescription",
    its endpoint overwritten with the agent's API address
    "http://<ip>:<port>/anp/api". Interfaces without a url get the same
    address. The port, the address and the options stay as they were. *)
Theorem agent_document_of_address (c c' : t) (w w' : World) (ip : string) (port : N) :
  localIP c = Some ip ->
  autoPort_ c = Some port ->
  generateDIDAndKeys ed25519 secp256k1 (c, w) = (Ok tt, (c', w')) ->
  let did := "did:wba:" +:+ ip +:+ ":" +:+ string_of_N port +:+ ":auto-agent" in
  let url := "http://" +:+ ip +:+ ":" +:+ string_of_N port +:+ "/anp/api" in
  autoDid c' = Some did
  /\ (exists doc vm0 pk,
        didDocument c' = Some doc
        /\ doc_id doc = did
        /\ service doc
           = Some [{| svc_id := did +:+ "#agent-description";
                      svc_type := "AgentDescription";
                      serviceEndpoint := url;
                      svc_description := None |}]
        /\ default [] (verificationMethod doc) !! 0 = Some vm0
        /\ vm_type vm0 = "Ed25519VerificationKey2020"
        /\ publicKeyMultibase vm0 = Some ("z" +:+ bs58_encode pk))
  /\ (exists ad,
        autoDescription c' = Some ad
        /\ ad_did ad = Some did
        /\ ad_name ad = opt_agentName (options c)
        /\ map DIDAutoConfig.ie_url (ad_interfaces ad)
           = map (fun iface => if truthy (DIDAutoConfig.if_url iface)
                               then default "" (DIDAutoConfig.if_url iface) else url)
               (opt_interfaces (options c)))
  /\ localIP c' = Some ip /\ autoPort_ c' = Some port /\ options c' = options c.
Proof.
  intros Hip Hport. rewrite generateDIDAndKeys_agent_run, Hip, Hport. cbv zeta.
  cbn [show_string show_port default from_option id].
  destruct (ANPKeyGenerator.generateKeyPair _ _ _ _ _) as [[kp|e] w1] eqn:Hgen; [|done].
  intros [= <- <-].
  apply generateKeyPair_ED25519 in Hgen
    as (keyId & w2 & pair & w3 & ka & w4 & ha & _ & _ & _ & _ & ->).
  cbv zeta.
  cbn [autoDid didDocument autoDescription localIP autoPort_ options did did_document
       service].
  assert (Hdid :
    ANPKeyGenerator.generateDID
      {| ANPKeyGenerator.domain := ip +:+ ":" +:+ string_of_N port;
         ANPKeyGenerator.path := Some "auto-agent" |}
    = "did:wba:" +:+ ip +:+ ":" +:+ string_of_N port +:+ ":auto-agent").
  { unfold ANPKeyGenerator.generateDID.
    cbn [ANPKeyGenerator.path ANPKeyGenerator.domain truthy String.eqb negb default
         from_option id].
    by rewrite !append_assoc. }
  rewrite Hdid. split; [done|]. split.
  - eexists _, _, (publicKey pair). split; [reflexivity|].
    cbn [doc_id DIDAutoConfig.set_service service verificationMethod].
    split; [done|]. split.
    + unfold agentDescriptionService, set_serviceEndpoint.
      cbn [svc_id svc_type svc_description]. by rewrite Hdid.
    + by cbn.
  - split; [|done]. eexists. split; [reflexivity|]. cbn [ad_did ad_name ad_interfaces].
    split; [done|]. split; [done|]. by rewrite map_map.
Qed.

Lemma getEndpoint_run (s : St) :
  getEndpoint s
  = (if negb (truthy (localIP (fst s))) || negb (port_truthy (autoPort_ (fst s)))
     then Throw (Error "Agent not configured yet. Call autoSetup() first.")
     else Ok ("http://" +:+ show_string (localIP (fst s)) +:+ ":"
              +:+ show_port (autoPort_ (fst s)) +:+ "/anp/api"), s).
Proof.
  unfold getEndpoint, bind, this_, gets, throw, ret. cbn [fst snd].
  by destruct (_ || _).
Qed.

Lemma registerToDiscovery_run (s : St) : registerToDiscovery host s = (Ok tt, s).
Proof.
  unfold registerToDiscovery, bind at 1. unfold this_, gets. cbn [fst snd].
  destruct (negb _); [done|].
  unfold try_catchM, bind. rewrite getEndpoint_run.
  destruct (_ || _); [done|]. unfold lift_result, ret. by destruct (posted host _).
Qed.

Lemma getConfig_run (s : St) :
  getConfig s
  = (if negb (truthy (autoDid (fst s))) || negb (port_truthy (autoPort_ (fst s)))
        || negb (truthy (localIP (fst s))) || negb (truthy (privateKey (fst s)))
     then Throw (Error "Agent not configured yet. Call autoSetup() first.")
     else Ok {| cfg_did := default "" (autoDid (fst s));
                cfg_port := default 0%N (autoPort_ (fst s));
                cfg_endpoint :=
                  "http://" +:+ show_string (localIP (fst s)) +:+ ":"
                  +:+ show_port (autoPort_ (fst s)) +:+ "/anp/api";
                cfg_localIP := default "" (localIP (fst s));
                cfg_privateKey := default "" (privateKey (fst s));
                cfg_didDocument := didDocument (fst s);
                cfg_agentDescription := autoDescription (fst s) |}, s).
Proof.
  unfold getConfig, bind at 1. unfold this_, gets. cbn [fst snd id].
  destruct (negb (truthy (autoDid (fst s)))); [done|].
  destruct (negb (port_truthy (autoPort_ (fst s)))) eqn:Hp; [done|].
  destruct (negb (truthy (localIP (fst s)))) eqn:Hip; [done|].
  destruct (negb (truthy (privateKey (fst s)))); [done|].
  cbn [orb]. unfold bind. rewrite getEndpoint_run, Hp, Hip. done.
Qed.

Lemma getConfig_state (s s' : St) (cfg : AgentConfig) :
  getConfig s = (Ok cfg, s') -> s' = s.
Proof. rewrite getConfig_run. destruct (_ || _); [done|]. by intros [= _ <-]. Qed.

(** What a run of [autoSetup] that returns has gone through. *)
Lemma agent_autoSetup_Ok (c : t) (w : World) (cfg : AgentConfig) (s' : St) :
  autoSetup host ed25519 secp256k1 (c, w) = (Ok cfg, s') ->
  exists port c1 w1,
    findAvailablePort host (c, w) = (Ok port, (c, w))
    /\ generateDIDAndKeys ed25519 secp256k1
         (set_localIP (Some (scan_interfaces (networkInterfaces host)))
            (set_autoPort (Some port) c), w)
       = (Ok tt, (c1, w1))
    /\ autoPort_ c1 = Some port
    /\ (opt_autoStart (options c1) = true -> started host port = Ok tt)
    /\ getConfig (fst s', w1) = (Ok cfg, s')
    /\ fst s'
       = set_isRunning true
           (if opt_autoStart (options c1)
            then set_app (Some [("GET", "/.well-known/did.json");
                                ("GET", "/agents/auto-agent/ad.json");
                                ("POST", "/anp/api");
                                ("GET", "/health");
                                ("GET", "/config")]) (set_server true c1)
            else c1).
Proof.
  unfold autoSetup. rewrite try_catchM_rethrow. intros H.
  apply bind_Ok in H as (port & s1 & Hport & H).
  rewrite findAvailablePort_run in Hport. injection Hport as Hprobe <-.
  apply bind_Ok in H as ([] & s2 & Hs2 & H). injection Hs2 as <-.
  apply bind_Ok in H as (ip & s3 & Hip & H). injection Hip as <- <-.
  apply bind_Ok in H as ([] & s4 & Hs4 & H). injection Hs4 as <-.
  cbn [fst snd] in H.
  apply bind_Ok in H as ([] & [c1 w1] & Hgen & H).
  apply bind_Ok in H as (autoStart & s5 & Hauto & H). injection Hauto as <- <-.
  cbn [fst] in H.
  apply bind_Ok in H as ([] & s6 & Hserve & H).
  apply bind_Ok in H as ([] & s7 & Hrun & H). injection Hrun as <-.
  exists port, c1, w1. rewrite findAvailablePort_run, Hprobe.
  split; [done|]. split; [done|].
  assert (Hport1 : autoPort_ c1 = Some port).
  { rewrite generateDIDAndKeys_agent_run in Hgen. cbv zeta in Hgen.
    destruct (ANPKeyGenerator.generateKeyPair _ _ _ _ _) as [[kp|e] w2]; [|done].
    by injection Hgen as <- <-. }
  split; [done|].
  destruct (opt_autoStart (options c1)) eqn:Hstart.
  - apply bind_Ok in Hserve as ([] & s8 & Hstarted & Hserve).
    apply bind_Ok in Hserve as ([] & s9 & Hroutes & Hreg).
    unfold startHTTPServer, bind, update, modify, this_, gets, lift_result in Hstarted.
    cbn [fst snd set_server set_app autoPort_] in Hstarted. rewrite Hport1 in Hstarted.
    cbn [default from_option id] in Hstarted.
    destruct (started host port) as [[]|e] eqn:Hlisten; [|done].
    injection Hstarted as <-.
    unfold setupRoutes, bind, this_, gets, update, modify in Hroutes.
    cbn [fst snd app set_app set_server] in Hroutes. injection Hroutes as <-.
    rewrite registerToDiscovery_run in Hreg. injection Hreg as <-.
    cbn [fst snd] in H |- *. split; [done|].
    pose proof (getConfig_state _ _ _ H) as ->. cbn [fst snd] in *. done.
  - apply ret_Ok in Hserve as [_ <-]. cbn [fst snd] in H |- *. split; [done|].
    pose proof (getConfig_state _ _ _ H) as ->. cbn [fst snd] in *. done.
Qed.

Lemma port_truthy_Some (port : N) : port_truthy (Some port) = true -> port <> 0%N.
Proof. cbn. by intros H ->. Qed.

(** X18: what a completed [autoSetup] of the agent returns. The port
    is the one [findAvailablePort] found and is not 0; the address is
    the one [getLocalIP] found; the DID is
    "did:wba:<ip>:<port>:auto-agent" and the endpoint
    "http://<ip>:<port>/anp/api", which is also the endpoint of the one
    service entry of the document; the agent is marked running; and
    with [autoStart] the server has started and the five routes are
    registered after those the application had. *)
Theorem agent_autoSetup_config (c : t) (w : World) (cfg : AgentConfig) (s' : St) :
  autoSetup host ed25519 secp256k1 (c, w) = (Ok cfg, s') ->
  let ip := cfg_localIP cfg in
  let port := string_of_N (cfg_port cfg) in
  fst (findAvailablePort host (c, w)) = Ok (cfg_port cfg)
  /\ cfg_port cfg <> 0%N
  /\ fst (getLocalIP host (c, w)) = Ok ip
  /\ cfg_did cfg = "did:wba:" +:+ ip +:+ ":" +:+ port +:+ ":auto-agent"
  /\ cfg_endpoint cfg = "http://" +:+ ip +:+ ":" +:+ port +:+ "/anp/api"
  /\ (exists doc s0,
        cfg_didDocument cfg = Some doc /\ doc_id doc = cfg_did cfg
        /\ service doc = Some [s0] /\ serviceEndpoint s0 = cfg_endpoint cfg)
  /\ isRunning (fst s') = true
  /\ options (fst s') = options c
  /\ (opt_autoStart (options c) = true ->
      started host (cfg_port cfg) = Ok tt
      /\ app (fst s') = Some [("GET", "/.well-known/did.json");
                              ("GET", "/agents/auto-agent/ad.json");
                              ("POST", "/anp/api");
                              ("GET", "/health");
                              ("GET", "/config")]).
Proof.
  intros H. apply agent_autoSetup_Ok in H
    as (port & c1 & w1 & Hport & Hgen & Hport1 & Hstarted & Hcfg & Hs').
  rewrite generateDIDAndKeys_agent_run in Hgen. cbv zeta in Hgen.
  cbn [localIP autoPort_ set_localIP set_autoPort show_string show_port default
       from_option id options] in Hgen.
  destruct (ANPKeyGenerator.generateKeyPair _ _ _ _ _) as [[kp|e] w2] eqn:Hkp; [|done].
  injection Hgen as <- <-.
  apply generateKeyPair_ED25519 in Hkp
    as (keyId & w3 & pair & w4 & ka & w5 & ha & _ & _ & _ & _ & ->).
  cbv zeta in Hcfg, Hs'. cbn [options] in Hs', Hstarted.
  rewrite getConfig_run, Hs' in Hcfg.
  assert (Hfields :
    forall x : t,
      autoPort_ (set_isRunning true
                   (if opt_autoStart (options c)
                    then set_app (Some [("GET", "/.well-known/did.json");
                                        ("GET", "/agents/auto-agent/ad.json");
                                        ("POST", "/anp/api");
                                        ("GET", "/health");
                                        ("GET", "/config")]) (set_server true x)
                    else x)) = autoPort_ x) by (intros x; by destruct (opt_autoStart _)).
  destruct (opt_autoStart (options c)) eqn:Hstart;
    cbn [fst set_isRunning set_app set_server autoDid autoPort_ localIP privateKey
         didDocument autoDescription did private_key did_document service] in Hcfg;
    (destruct (_ || _) eqn:Hguard in Hcfg; [done|]);
    injection Hcfg as <- _;
    cbn [cfg_port cfg_localIP cfg_did cfg_endpoint cfg_didDocument default from_option id
         show_string show_port] in *;
    apply orb_false_iff in Hguard as [Hguard _];
    apply orb_false_iff in Hguard as [Hguard _];
    apply orb_false_iff in Hguard as [_ Hguard];
    apply negb_false_iff, port_truthy_Some in Hguard;
    rewrite Hs'; cbn [fst isRunning options app set_isRunning set_app set_server];
    (split; [by rewrite Hport|]); (split; [done|]); (split; [done|]);
    (split; [unfold ANPKeyGenerator.generateDID;
             cbn [ANPKeyGenerator.path ANPKeyGenerator.domain truthy String.eqb negb
                  default from_option id]; by rewrite !append_assoc|]);
    (split; [done|]);
    (split; [eexists _, _; cbn [doc_id DIDAutoConfig.set_service service];
             split; [reflexivity|]; by repeat split|]);
    (split; [done|]); (split; [done|]).
  - intros _. split; [by apply Hstarted|done].
  - done.
Qed.

(** X19: a port range that starts at 0 defeats the agent. Listening
    on port 0 asks the system for any free port, so the probe of port 0
    succeeds and [findAvailablePort] returns 0; the checks of
    [getConfig] take the port 0 for a missing one, and [autoSetup]
    throws, after the keys have been made and the server started. *)
Theorem agent_port_zero_never_completes (c : t) (w : World) :
  fst (opt_portRange (options c)) = 0%N ->
  listens host 0%N = true ->
  fst (findAvailablePort host (c, w)) = Ok 0%N
  /\ exists e, fst (autoSetup host ed25519 secp256k1 (c, w)) = Throw e.
Proof.
  intros Hstart Hlistens.
  assert (Hzero : findAvailablePort host (c, w) = (Ok 0%N, (c, w))).
  { rewrite findAvailablePort_run, Hstart, N.sub_0_r.
    replace (N.to_nat (snd (opt_portRange (options c)) + 1))
      with (S (N.to_nat (snd (opt_portRange (options c))))) by lia.
    cbn [probe]. unfold isPortAvailable. cbn [N.ltb N.compare rbind].
    by rewrite Hlistens. }
  split; [by rewrite Hzero|].
  destruct (autoSetup host ed25519 secp256k1 (c, w)) as [[cfg|e] s'] eqn:Hrun;
    [|by exists e].
  exfalso. apply agent_autoSetup_Ok in Hrun
    as (port & c1 & w1 & Hport & _ & Hport1 & _ & Hcfg & Hs').
  rewrite Hzero in Hport. injection Hport as <-.
  rewrite getConfig_run, Hs' in Hcfg.
  assert (Hp : autoPort_
                 (set_isRunning true
                    (if opt_autoStart (options c1)
                     then set_app (Some [("GET", "/.well-known/did.json");
                                         ("GET", "/agents/auto-agent/ad.json");
                                         ("POST", "/anp/api");
                                         ("GET", "/health");
                                         ("GET", "/config")]) (set_server true c1)
                     else c1)) = Some 0%N) by (by destruct (opt_autoStart _)).
  cbn [fst] in Hcfg. rewrite Hp in Hcfg. cbn [port_truthy N.eqb negb] in Hcfg.
  by rewrite orb_true_r in Hcfg.
Qed.

Lemma processMessage_run (m : json) (c : t) (w : World) :
  m <> JNull ->
  processMessage (Some m) (c, w)
  = match from_option ToString (Ok "undefined")
            (or_else (or_else (Get m "content") (Get m "message"))
               (Some (JStr "Hello"))) with
    | Ok written =>
        (Ok {| response := "收到消息: " +:+ written;
               timestamp := clock w;
               resp_did := autoDid c |}, (c, w))
    | Throw e => (Throw e, (c, w))
    end.
Proof.
  intros Hm.
  assert (Hrun :
    forall echoed : option json,
      (written <- lift_result (from_option ToString (Ok "undefined") echoed) ;;
       now <- in_world toISOString_now ;;
       d <- this_ autoDid ;;
       ret {| response := "收到消息: " +:+ written; timestamp := now;
              resp_did := d |})%js (c, w)
      = match from_option ToString (Ok "undefined") echoed with
        | Ok written =>
            (Ok {| response := "收到消息: " +:+ written;
                   timestamp := clock w;
                   resp_did := autoDid c |}, (c, w))
        | Throw e => (Throw e, (c, w))
        end).
  { intros echoed. unfold bind at 1. unfold lift_result.
    destruct (from_option ToString (Ok "undefined") echoed); [|done].
    by destruct w. }
  destruct m; try done; apply Hrun.
Qed.

(** X20: the request handler checks no signature. Whatever the
    headers of a request, [handleANPRequest] changes nothing and never
    answers 401; the answer does not depend on the headers. It answers
    200, with the agent's DID and the time, when the body is there and
    the value it echoes has a string form, and 500 otherwise: for a
    request without a body, and for an echoed object that has a member
    named "toString". The value echoed is the [content] of the body when
    that is given and not false, else its [message], else "Hello". *)
Theorem handleANPRequest_checks_nothing (req : Request) (c : t) (w : World) :
  (exists reply,
     handleANPRequest req (c, w) = (Ok reply, (c, w))
     /\ status_of reply <> 401%N
     /\ match body req with
        | None | Some JNull => reply = Failure 500 "Internal server error"
        | Some m =>
            let echoed :=
              or_else (or_else (Get m "content") (Get m "message"))
                (Some (JStr "Hello")) in
            let answer text :=
              Json 200 {| response := "收到消息: " +:+ text;
                          timestamp := clock w;
                          resp_did := autoDid c |} in
            (forall text,
               from_option ToString (Ok "undefined") echoed = Ok text ->
               reply = answer text)
            /\ (forall e,
                  from_option ToString (Ok "undefined") echoed = Throw e ->
                  reply = Failure 500 "Internal server error")
            /\ (forall s, s <> "" -> Get m "content" = Some (JStr s) -> reply = answer s)
            /\ (forall s, s <> "" ->
                  Get m "content" = None \/ Get m "content" = Some (JStr "") ->
                  Get m "message" = Some (JStr s) -> reply = answer s)
            /\ (Get m "content" = None -> Get m "message" = None ->
                reply = answer "Hello")
            /\ (forall members,
                  Get m "content" = Some (JObj members) ->
                  reply = match assoc "toString" members with
                          | Some _ => Failure 500 "Internal server error"
                          | None => answer "[object Object]"
                          end)
        end)
  /\ (forall headers',
        handleANPRequest {| headers := headers'; body := body req |} (c, w)
        = handleANPRequest req (c, w)).
Proof.
  split; [|done].
  unfold handleANPRequest, try_catchM, verifyRequest, bind at 1. unfold ret at 1.
  cbn [negb]. unfold bind.
  destruct (body req) as [m|].
  - assert (Hcases : m = JNull \/ m <> JNull) by (destruct m; (by left) || by right).
    destruct Hcases as [->|Hm].
    + eexists. by split; [reflexivity|].
    + rewrite processMessage_run by done. unfold ret.
      set (echoed := or_else (or_else (Get m "content") (Get m "message"))
                       (Some (JStr "Hello"))).
      assert (Hbody :
        forall reply : Reply,
          reply = match from_option ToString (Ok "undefined") echoed with
                  | Ok written =>
                      Json 200 {| response := "收到消息: " +:+ written;
                                  timestamp := clock w;
                                  resp_did := autoDid c |}
                  | Throw _ => Failure 500 "Internal server error"
                  end ->
          (forall text,
             from_option ToString (Ok "undefined") echoed = Ok text ->
             reply = Json 200 {| response := "收到消息: " +:+ text;
                                 timestamp := clock w;
                                 resp_did := autoDid c |})
          /\ (forall e,
                from_option ToString (Ok "undefined") echoed = Throw e ->
                reply = Failure 500 "Internal server error")
          /\ (forall s, s <> "" -> Get m "content" = Some (JStr s) ->
                reply = Json 200 {| response := "收到消息: " +:+ s;
                                    timestamp := clock w;
                                    resp_did := autoDid c |})
          /\ (forall s, s <> "" ->
                Get m "content" = None \/ Get m "content" = Some (JStr "") ->
                Get m "message" = Some (JStr s) ->
                reply = Json 200 {| response := "收到消息: " +:+ s;
                                    timestamp := clock w;
                                    resp_did := autoDid c |})
          /\ (Get m "content" = None -> Get m "message" = None ->
              reply = Json 200 {| response := "收到消息: " +:+ "Hello";
                                  timestamp := clock w;
                                  resp_did := autoDid c |})
          /\ (forall members,
                Get m "content" = Some (JObj members) ->
                reply = match assoc "toString" members with
                        | Some _ => Failure 500 "Internal server error"
                        | None =>
                            Json 200 {| response := "收到消息: " +:+ "[object Object]";
                                        timestamp := clock w;
                                        resp_did := autoDid c |}
                        end)).
      { intros reply ->. unfold echoed. split; [by intros text ->|].
        split; [by intros e ->|]. split; [|split; [|split]].
        - intros s Hs ->. by destruct s.
        - intros s Hs [->| ->] ->; by destruct s.
        - by intros -> ->.
        - intros members ->. cbn [or_else ToBoolean from_option ToString].
          by destruct (assoc "toString" members). }
      destruct (from_option ToString (Ok "undefined") echoed) as [written|e] eqn:Hwritten.
      * eexists. split; [reflexivity|]. split; [done|].
        destruct m; try done; by apply Hbody.
      * eexists. split; [reflexivity|]. split; [done|].
        destruct m; try done; by apply Hbody.
  - eexists. by split; [reflexivity|].
Qed.

End Agent.

Lemma agent_document_of_address_witness :
  exists c' w',
    AutoConfigAgent.generateDIDAndKeys demo_ed25519 demo_secp256k1
      (AutoConfigAgent.set_localIP (Some "192.168.1.5")
         (AutoConfigAgent.set_autoPort (Some 3002%N)
            (AutoConfigAgent.constructor AutoConfigAgent.no_options)), demo_world)
    = (Ok tt, (c', w'))
    /\ AutoConfigAgent.autoDid c' = Some "did:wba:192.168.1.5:3002:auto-agent".
Proof.
  destruct (AutoConfigAgent.generateDIDAndKeys demo_ed25519 demo_secp256k1
              (AutoConfigAgent.set_localIP (Some "192.168.1.5")
                 (AutoConfigAgent.set_autoPort (Some 3002%N)
                    (AutoConfigAgent.constructor AutoConfigAgent.no_options)), demo_world))
    as [[[]|e] [c' w']] eqn:E; [|vm_compute in E; discriminate].
  exists c', w'. split; [reflexivity|].
  exact (proj1 (agent_document_of_address demo_ed25519 demo_secp256k1
                  (AutoConfigAgent.set_localIP (Some "192.168.1.5")
                     (AutoConfigAgent.set_autoPort (Some 3002%N)
                        (AutoConfigAgent.constructor AutoConfigAgent.no_options)))
                  c' demo_world w' "192.168.1.5" 3002%N eq_refl eq_refl E)).
Defined.

Lemma agent_autoSetup_config_witness :
  exists cfg,
    fst (AutoConfigAgent.autoSetup demo_host demo_ed25519 demo_secp256k1
           (AutoConfigAgent.constructor AutoConfigAgent.no_options, demo_world)) = Ok cfg
    /\ AutoConfigAgent.cfg_port cfg <> 0%N
    /\ AutoConfigAgent.cfg_did cfg
       = "did:wba:" +:+ AutoConfigAgent.cfg_localIP cfg +:+ ":"
         +:+ string_of_N (AutoConfigAgent.cfg_port cfg) +:+ ":auto-agent".
Proof.
  destruct (AutoConfigAgent.autoSetup demo_host demo_ed25519 demo_secp256k1
              (AutoConfigAgent.constructor AutoConfigAgent.no_options, demo_world))
    as [[cfg|e] s'] eqn:E; [|vm_compute in E; discriminate].
  exists cfg. split; [reflexivity|].
  destruct (agent_autoSetup_config demo_host demo_ed25519 demo_secp256k1 _ _ _ _ E)
    as (_ & Hport & _ & Hdid & _).
  by split.
Defined.

Lemma agent_port_zero_never_completes_witness :
  exists e,
    fst (AutoConfigAgent.autoSetup idle_host demo_ed25519 demo_secp256k1
           (AutoConfigAgent.constructor from_port_zero, demo_world)) = Throw e.
Proof.
  exact (proj2 (agent_port_zero_never_completes idle_host demo_ed25519 demo_secp256k1
                  (AutoConfigAgent.constructor from_port_zero) demo_world
                  eq_refl eq_refl)).
Defined.

(** ** The SDK of [auto-config.ts] *)

Section SDK.
Import ANPSDK.
Variable host : AutoConfigAgent.Host.
Variables ed25519 secp256k1 : Curve.

Lemma start_run (k : t) (w : World) :
  start host ed25519 secp256k1 (k, w)
  = if isRunning k then (Throw (Error "Agent is already running"), (k, w))
    else
      match AutoConfigAgent.autoSetup host ed25519 secp256k1
              (AutoConfigAgent.constructor (options k), w) with
      | (Ok cfg, (a, w')) =>
          (Ok cfg, ({| options := options k; agent := Some a; isRunning := true |}, w'))
      | (Throw e, (a, w')) =>
          (Throw e, ({| options := options k; agent := Some a; isRunning := false |}, w'))
      end.
Proof.
  unfold start, bind at 1. unfold gets at 1. cbn [fst snd].
  destruct (isRunning k) eqn:Hrun; [done|].
  unfold bind at 1. unfold gets at 1. cbn [fst snd]. unfold bind at 1, on_agent.
  cbn [fst snd].
  destruct (AutoConfigAgent.autoSetup _ _ _ _) as [[cfg|e] [a w']].
  - reflexivity.
  - unfold set_agent. cbn [fst options isRunning]. by rewrite Hrun.
Qed.

Lemma stop_run (k : t) (w : World) :
  stop (k, w)
  = (Ok tt, (match agent k with
             | Some a => constructor (options k)
             | None => k
             end, w)).
Proof.
  unfold stop, bind at 1. unfold gets at 1. cbn [fst snd].
  destruct (agent k) as [a|]; [|done].
  unfold bind, on_agent, AutoConfigAgent.stop, bind, AutoConfigAgent.this_, gets.
  cbn [fst snd]. by destruct (AutoConfigAgent.server a).
Qed.

(** X21: the life of the SDK. [start] on a running SDK throws "Agent
    is already running" and changes nothing. A [start] that returns has
    run [autoSetup] on a new agent made from the options, returns that
    agent's configuration, keeps the agent and marks the SDK running, so
    that a second [start] throws; a [start] that throws leaves the SDK
    not running, with the agent that failed still stored. [stop] never
    throws: with an agent stored it forgets the agent and leaves the SDK
    as it was constructed, so that [start] can run again; with none it
    changes nothing. *)
Theorem ANPSDK_lifecycle :
  (forall k w,
     isRunning k = true ->
     start host ed25519 secp256k1 (k, w)
     = (Throw (Error "Agent is already running"), (k, w)))
  /\ (forall k w cfg k' w',
        start host ed25519 secp256k1 (k, w) = (Ok cfg, (k', w')) ->
        isRunning k = false /\ isRunning k' = true /\ options k' = options k
        /\ (exists a,
              agent k' = Some a
              /\ AutoConfigAgent.autoSetup host ed25519 secp256k1
                   (AutoConfigAgent.constructor (options k), w) = (Ok cfg, (a, w')))
        /\ (forall w2, exists e,
              start host ed25519 secp256k1 (k', w2) = (Throw e, (k', w2)))
        /\ (forall w2, stop (k', w2) = (Ok tt, (constructor (options k), w2))))
  /\ (forall k w e k' w',
        isRunning k = false ->
        start host ed25519 secp256k1 (k, w) = (Throw e, (k', w')) ->
        isRunning k' = false /\ options k' = options k /\ is_Some (agent k')
        /\ fst (AutoConfigAgent.autoSetup host ed25519 secp256k1
                  (AutoConfigAgent.constructor (options k), w)) = Throw e)
  /\ (forall k w,
        exists k', stop (k, w) = (Ok tt, (k', w))
                   /\ (is_Some (agent k) -> k' = constructor (options k))
                   /\ (agent k = None -> k' = k)).
Proof.
  split; [|split; [|split]].
  - intros k w Hrun. by rewrite start_run, Hrun.
  - intros k w cfg k' w'. rewrite start_run.
    destruct (isRunning k) eqn:Hrun; [done|].
    destruct (AutoConfigAgent.autoSetup _ _ _ _) as [[cfg'|e] [a w1]]; [|done].
    intros [= <- <- <-]. split; [done|]. split; [done|]. split; [done|].
    split; [by exists a|]. split.
    + intros w2. eexists. by rewrite start_run.
    + intros w2. by rewrite stop_run.
  - intros k w e k' w' Hrun. rewrite start_run, Hrun.
    destruct (AutoConfigAgent.autoSetup _ _ _ _) as [[cfg'|e'] [a w1]]; [done|].
    intros [= <- <- <-]. by repeat split.
  - intros k w. rewrite stop_run. eexists. split; [reflexivity|].
    destruct (agent k) as [a|]; split; try done.
Qed.
End SDK.

Lemma ANPSDK_lifecycle_witness :
  exists cfg k' w',
    ANPSDK.start demo_host demo_ed25519 demo_secp256k1
      (ANPSDK.constructor AutoConfigAgent.no_options, demo_world) = (Ok cfg, (k', w'))
    /\ ANPSDK.isRunning k' = true
    /\ exists e, ANPSDK.start demo_host demo_ed25519 demo_secp256k1 (k', w')
                 = (Throw e, (k', w')).
Proof.
  destruct (ANPSDK.start demo_host demo_ed25519 demo_secp256k1
              (ANPSDK.constructor AutoConfigAgent.no_options, demo_world))
    as [[cfg|e] [k' w']] eqn:E; [|vm_compute in E; discriminate].
  exists cfg, k', w'. split; [reflexivity|].
  destruct (proj1 (proj2 (ANPSDK_lifecycle demo_host demo_ed25519 demo_secp256k1))
              _ _ _ _ _ E) as (_ & Hrun & _ & _ & Hagain & _).
  split; [exact Hrun | exact (Hagain w')].
Defined.

Lemma handleANPRequest_checks_nothing_witness :
  let agent := AutoConfigAgent.constructor AutoConfigAgent.no_options in
  let answer text :=
    AutoConfigAgent.Json 200
      {| AutoConfigAgent.response := "收到消息: " +:+ text;
         AutoConfigAgent.timestamp := "2024-01-01T00:00:00.000Z";
         AutoConfigAgent.resp_did := None |} in
  fst (AutoConfigAgent.handleANPRequest
         {| AutoConfigAgent.headers := [("authorization", "none")];
            AutoConfigAgent.body :=
              Some (JObj [("content", JStr ""); ("message", JArr [JNum 1; JNull; JStr "a"])]) |}
         (agent, demo_world)) = Ok (answer "1,,a")
  /\ fst (AutoConfigAgent.handleANPRequest
            {| AutoConfigAgent.headers := [];
               AutoConfigAgent.body :=
                 Some (JObj [("content", JObj [("toString", JNum 1)])]) |}
            (agent, demo_world))
     = Ok (AutoConfigAgent.Failure 500 "Internal server error")
  /\ fst (AutoConfigAgent.handleANPRequest
            {| AutoConfigAgent.headers := [];
               AutoConfigAgent.body := Some (JObj [("content", JObj [("a", JNum 1)])]) |}
            (agent, demo_world)) = Ok (answer "[object Object]").
Proof.
  cbv zeta. split; [|split].
  - destruct (proj1 (handleANPRequest_checks_nothing
                       {| AutoConfigAgent.headers := [("authorization", "none")];
                          AutoConfigAgent.body :=
                            Some (JObj [("content", JStr "");
                                        ("message", JArr [JNum 1; JNull; JStr "a"])]) |}
                       (AutoConfigAgent.constructor AutoConfigAgent.no_options)
                       demo_world))
      as (reply & Hrun & _ & Hbody).
    rewrite Hrun. cbn [fst]. f_equal.
    exact (proj1 Hbody "1,,a" eq_refl).
  - destruct (proj1 (handleANPRequest_checks_nothing
                       {| AutoConfigAgent.headers := [];
                          AutoConfigAgent.body :=
                            Some (JObj [("content", JObj [("toString", JNum 1)])]) |}
                       (AutoConfigAgent.constructor AutoConfigAgent.no_options)
                       demo_world))
      as (reply & Hrun & _ & Hbody).
    rewrite Hrun. cbn [fst]. f_equal.
    exact (proj2 (proj2 (proj2 (proj2 (proj2 Hbody)))) [("toString", JNum 1)] eq_refl).
  - destruct (proj1 (handleANPRequest_checks_nothing
                       {| AutoConfigAgent.headers := [];
                          AutoConfigAgent.body :=
                            Some (JObj [("content", JObj [("a", JNum 1)])]) |}
                       (AutoConfigAgent.constructor AutoConfigAgent.no_options)
                       demo_world))
      as (reply & Hrun & _ & Hbody).
    rewrite Hrun. cbn [fst]. f_equal.
    exact (proj2 (proj2 (proj2 (proj2 (proj2 Hbody)))) [("a", JNum 1)] eq_refl).
Defined.
